(** * Goals4Arab backend (src/index.ts): cache, fixture normalisation,
      kickoff ordering and the endpoint handlers, embedded in Rocq.

    The server is a Fastify application whose handlers read a process-wide
    TTL cache, fetch fixtures from the Sportmonks API with undici's
    [request], normalise them and answer with JSON.  The embedding follows
    the second (current) revision of the file, the one that has the
    date, tomorrow and upcoming endpoints. *)

From Stdlib Require Import ZArith QArith Qround String Ascii List Permutation Sorted Lia Bool.
From stdpp Require Import gmap strings list.

Set Warnings "-register-all".
Local Open Scope string_scope.
Local Open Scope Z_scope.

(** ** JavaScript values *)

(** A JavaScript number: every finite double is a rational, so finite
    numbers are kept as exact rationals; rounding only happens inside the
    runtime's conversions between strings and numbers, which are taken from
    the [Runtime] below. *)
Inductive number :=
| NaN
| Infinity (negative : bool)
| Fin (q : Q).

Definition of_Z (z : Z) : number := Fin (inject_Z z).

(** [x < y] on numbers: false as soon as one side is NaN. *)
Definition number_ltb (x y : number) : bool :=
  match x, y with
  | NaN, _ | _, NaN => false
  | Infinity true, Infinity true => false
  | Infinity true, _ => true
  | _, Infinity true => false
  | Infinity false, _ => false
  | _, Infinity false => true
  | Fin a, Fin b => match Qcompare a b with Lt => true | _ => false end
  end.

(** [Math.min] and [Math.max] of two arguments: NaN is contagious. *)
Definition Math_min (x y : number) : number :=
  match x, y with
  | NaN, _ | _, NaN => NaN
  | _, _ => if number_ltb y x then y else x
  end.

Definition Math_max (x y : number) : number :=
  match x, y with
  | NaN, _ | _, NaN => NaN
  | _, _ => if number_ltb x y then y else x
  end.

(** What the upstream sends and what the handlers answer is JSON; a property
    read may besides give [undefined].  An object is the list of its own
    properties, the first binding of a name being the property. *)
Inductive value :=
| VUndefined
| VNull
| VBool (b : bool)
| VNum (n : number)
| VStr (s : string)
| VArr (elems : list value)
| VObj (fields : list (string * value)).

(** ToBoolean. *)
Definition truthy (v : value) : bool :=
  match v with
  | VUndefined | VNull => false
  | VBool b => b
  | VNum NaN => false
  | VNum (Infinity _) => true
  | VNum (Fin q) => negb (Qnum q =? 0)
  | VStr s => negb (String.eqb s EmptyString)
  | VArr _ | VObj _ => true
  end.

Definition nullish (v : value) : bool :=
  match v with VUndefined | VNull => true | _ => false end.

(** [a || b] and [a ?? b]. *)
Definition or_else (a b : value) : value := if truthy a then a else b.
Definition coalesce (a b : value) : value := if nullish a then b else a.

Fixpoint assoc (k : string) (fields : list (string * value)) : option value :=
  match fields with
  | [] => None
  | (k', v) :: rest => if String.eqb k k' then Some v else assoc k rest
  end.

(** [v?.k].  The names the server reads (participants, meta, location,
    scores, description, score, participant, goals, starting_at, league,
    name, id, ..., data, kickoff_utc, query, days) are not properties of
    Object.prototype, Array.prototype or of the wrappers of primitives, so
    reading one from anything but an object that owns it is [undefined]. *)
Definition opt_prop (v : value) (k : string) : value :=
  match v with
  | VObj fields => match assoc k fields with Some x => x | None => VUndefined end
  | _ => VUndefined
  end.

(** Exceptions a handler can end with. *)
Inductive exn :=
| TypeError (what : string)
| RangeError (what : string)
| SyntaxError
| NetworkError.

(** How a piece of code ends: with a value or with an exception.
    [OutOfFuel] belongs to the embedding, not to JavaScript: the loop of the
    upcoming endpoint counts its turns down from a bound and ends with it
    when the bound is too small. *)
Inductive outcome (A : Type) :=
| Ok (a : A)
| Throw (e : exn)
| OutOfFuel.
Arguments Ok {A} a.
Arguments Throw {A} e.
Arguments OutOfFuel {A}.

(** [v.k]: a TypeError on [null] and [undefined]. *)
Definition prop (v : value) (k : string) : outcome value :=
  if nullish v then Throw (TypeError ("Cannot read properties of null or undefined: " +:+ k))
  else Ok (opt_prop v k).

(** [a === b] against a string literal. *)
Definition strict_eq_str (v : value) (lit : string) : bool :=
  match v with VStr s => String.eqb s lit | _ => false end.

(** ** The runtime *)

(** The parts of the JavaScript runtime whose results depend on the engine's
    string-number conversions, on its date parser and on ICU. *)
Class Runtime := {
  (** StringToNumber of ECMA-262 *)
  StringToNumber : string -> number;
  (** Number::toString of a finite number that is not an integer below 1e21 *)
  fractionToString : Q -> string;
  (** Date.parse: the time value in ms, [None] for NaN *)
  Date_parse : string -> option Z;
  (** Date.prototype.toLocaleString('ar', {hour, minute, timeZone: 'Asia/Bahrain'})
      of a Date with the given time value *)
  toLocaleString_ar_Bahrain : option Z -> string;
}.

Section Values.
Context {rt : Runtime}.

Definition digit_char (d : Z) : ascii := ascii_of_nat (48 + Z.to_nat d).

Fixpoint digits_aux (fuel : nat) (n : Z) (acc : string) : string :=
  match fuel with
  | O => acc
  | S fuel' =>
      let acc' := String (digit_char (n mod 10)) acc in
      if n / 10 =? 0 then acc' else digits_aux fuel' (n / 10) acc'
  end.

(** Decimal digits of a natural number. *)
Definition decimal (n : Z) : string :=
  digits_aux (S (Z.to_nat (Z.log2 n))) n EmptyString.

(** Number::toString (radix 10). *)
Definition NumberToString (n : number) : string :=
  match n with
  | NaN => "NaN"
  | Infinity false => "Infinity"
  | Infinity true => "-Infinity"
  | Fin q =>
      if (Zpos (Qden q) =? 1) && (Z.abs (Qnum q) <? 10 ^ 21) then
        if Qnum q <? 0 then "-" +:+ decimal (- Qnum q) else decimal (Qnum q)
      else if (Qnum q mod Zpos (Qden q) =? 0) && (Z.abs (Qnum q / Zpos (Qden q)) <? 10 ^ 21) then
        let z := Qnum q / Zpos (Qden q) in
        if z <? 0 then "-" +:+ decimal (- z) else decimal z
      else fractionToString q
  end.

(** ToString; an array is joined with commas, [null] and [undefined]
    elements giving the empty string. *)
Fixpoint ToString (v : value) : string :=
  match v with
  | VUndefined => "undefined"
  | VNull => "null"
  | VBool true => "true"
  | VBool false => "false"
  | VNum n => NumberToString n
  | VStr s => s
  | VArr elems =>
      (fix join (l : list value) : string :=
         match l with
         | [] => EmptyString
         | x :: rest =>
             let sx := if nullish x then EmptyString else ToString x in
             match rest with
             | [] => sx
             | _ => sx +:+ "," +:+ join rest
             end
         end) elems
  | VObj _ => "[object Object]"
  end.

(** [Number(v)]. *)
Definition Number (v : value) : number :=
  match v with
  | VUndefined => NaN
  | VNull => of_Z 0
  | VBool b => of_Z (if b then 1 else 0)
  | VNum n => n
  | VStr s => StringToNumber s
  | VArr _ | VObj _ => StringToNumber (ToString v)
  end.

End Values.

(** ** Dates *)

(** Time values are integral milliseconds since the epoch; a Date object is
    its time value, [None] when the Date is invalid (NaN). *)
Definition msPerDay : Z := 86400000.
Definition Day (t : Z) : Z := t / msPerDay.
Definition TimeWithinDay (t : Z) : Z := t mod msPerDay.

(** Year, month (1..12) and day of the month of a day number, in the
    proleptic Gregorian calendar (years counted from March inside a
    400-year era). *)
Definition civil_from_days (z : Z) : Z * Z * Z :=
  let z := z + 719468 in
  let era := z / 146097 in
  let doe := z - era * 146097 in
  let yoe := (doe - doe / 1460 + doe / 36524 - doe / 146096) / 365 in
  let doy := doe - (365 * yoe + yoe / 4 - yoe / 100) in
  let mp := (5 * doy + 2) / 153 in
  let d := doy - (153 * mp + 2) / 5 + 1 in
  let m := if mp <? 10 then mp + 3 else mp - 9 in
  ((yoe + era * 400) + (if m <=? 2 then 1 else 0), m, d).

Definition days_from_civil (y m d : Z) : Z :=
  let y := y - (if m <=? 2 then 1 else 0) in
  let era := y / 400 in
  let yoe := y - era * 400 in
  let doy := (153 * (if 2 <? m then m - 3 else m + 9) + 2) / 5 + d - 1 in
  let doe := yoe * 365 + yoe / 4 - yoe / 100 + doy in
  era * 146097 + doe - 719468.

Definition getUTCFullYear (t : Z) : Z := fst (fst (civil_from_days (Day t))).
Definition getUTCMonth (t : Z) : Z := snd (fst (civil_from_days (Day t))) - 1.
Definition getUTCDate (t : Z) : Z := snd (civil_from_days (Day t)).

(** MakeDay: the day number of the first of the month, plus [date - 1]. *)
Definition MakeDay (year month date : Z) : Z :=
  days_from_civil (year + month / 12) (month mod 12 + 1) 1 + date - 1.

Definition TimeClip (t : Z) : option Z :=
  if Z.abs t <=? 8640000000000000 then Some t else None.

(** [Date.UTC(year, month, date)]: a year in 0..99 means 1900 + year. *)
Definition Date_UTC (year month date : Z) : option Z :=
  let yr := if (0 <=? year) && (year <=? 99) then 1900 + year else year in
  TimeClip (MakeDay yr month date * msPerDay).

(** [d.setUTCDate(date)] on a valid Date; the result is the new time value. *)
Definition setUTCDate (t : Z) (date : Z) : option Z :=
  TimeClip (MakeDay (getUTCFullYear t) (getUTCMonth t) date * msPerDay + TimeWithinDay t).

Fixpoint zeros (n : nat) : string :=
  match n with O => EmptyString | S n' => String "0" (zeros n') end.

Section Dates.
Context {rt : Runtime}.

Definition pad (width : nat) (n : Z) : string :=
  let s := decimal n in zeros (width - String.length s) +:+ s.

(** The ISO rendering of a time value; years outside 0..9999 are written
    with a sign and six digits. *)
Definition iso_string (t : Z) : string :=
  let y := getUTCFullYear t in
  let ms := TimeWithinDay t in
  let year :=
    if (0 <=? y) && (y <=? 9999) then pad 4 y
    else (if y <? 0 then "-" else "+") +:+ pad 6 (Z.abs y) in
  year +:+ "-" +:+ pad 2 (getUTCMonth t + 1) +:+ "-" +:+ pad 2 (getUTCDate t)
  +:+ "T" +:+ pad 2 (ms / 3600000) +:+ ":" +:+ pad 2 (ms / 60000 mod 60)
  +:+ ":" +:+ pad 2 (ms / 1000 mod 60) +:+ "." +:+ pad 3 (ms mod 1000) +:+ "Z".

(** [d.toISOString()]: a RangeError on an invalid Date. *)
Definition toISOString (d : option Z) : outcome string :=
  match d with
  | None => Throw (RangeError "Invalid time value")
  | Some t => Ok (iso_string t)
  end.

(** [s.slice(0, 10)]. *)
Definition slice_0_10 (s : string) : string := String.substring 0 10 s.

(** Truncation towards zero (ToIntegerOrInfinity on a finite number). *)
Definition truncate (q : Q) : Z :=
  if Qnum q <? 0 then - Qfloor (Qopp q) else Qfloor q.

(** [new Date(v)]: a string is parsed, any other value is converted to a
    number and clipped. *)
Definition new_Date (v : value) : option Z :=
  match v with
  | VStr s => Date_parse s
  | VArr _ | VObj _ => Date_parse (ToString v)
  | _ =>
      match Number v with
      | Fin q => TimeClip (truncate q)
      | _ => None
      end
  end.

End Dates.

(** ** The TTL cache and the handler monad *)

(** [const cache: Record<string, CacheEntry> = {}], a finite map from keys to
    entries.  Every key the handlers use has a colon in it, so none meets a
    property that the object inherits from Object.prototype. *)
Record CacheEntry := { exp : Z; data : value }.

(** The state the handlers share: the cache object, the wall clock read by
    [Date.now()], and the requests sent to the upstream so far, each with the
    time it was sent at. *)
Record world := {
  cache : gmap string CacheEntry;
  clock : Z;
  fetched : list (Z * string);
}.

Definition M (A : Type) : Type := world -> outcome A * world.

Definition ret {A} (a : A) : M A := fun w => (Ok a, w).
Definition throw {A} (e : exn) : M A := fun w => (Throw e, w).
Definition bind {A B} (c : M A) (k : A -> M B) : M B :=
  fun w =>
    match c w with
    | (Ok a, w') => k a w'
    | (Throw e, w') => (Throw e, w')
    | (OutOfFuel, w') => (OutOfFuel, w')
    end.

(** Pure code that may throw. *)
Definition obind {A B} (c : outcome A) (k : A -> outcome B) : outcome B :=
  match c with
  | Ok a => k a
  | Throw e => Throw e
  | OutOfFuel => OutOfFuel
  end.

Definition lift {A} (c : outcome A) : M A := fun w => (c, w).

Notation "'let*' x ':=' c 'in' k" := (bind c (fun x => k))
  (at level 10, x name, c at level 200, k at level 200).
Notation "'let?' x ':=' c 'in' k" := (obind c (fun x => k))
  (at level 10, x name, c at level 200, k at level 200).

Definition Date_now : M Z := fun w => (Ok (clock w), w).

(** [function put(k, data, ttlMs = 5000)]. *)
Definition put (k : string) (data : value) (ttlMs : Z) : M unit :=
  fun w =>
    (Ok tt, {| cache := <[k := {| exp := clock w + ttlMs; data := data |}]> (cache w);
               clock := clock w;
               fetched := fetched w |}).

Definition put_default (k : string) (data : value) : M unit := put k data 5000.

(** [function get(k)]: [v && v.exp > Date.now() ? v.data : null]. *)
Definition get (k : string) : M value :=
  fun w =>
    (Ok match cache w !! k with
        | Some v => if clock w <? exp v then data v else VNull
        | None => VNull
        end, w).

(** The world at a later (or any other) reading of the clock. *)
Definition at_time (t : Z) (w : world) : world :=
  {| cache := cache w; clock := t; fetched := fetched w |}.

(** ** Normalising fixtures *)

Record score := { home : number; away : number }.

(** [s.replace(' ', 'T')]: a string pattern replaces its first occurrence. *)
Fixpoint replace_space_T (s : string) : string :=
  match s with
  | EmptyString => EmptyString
  | String c rest =>
      if Ascii.eqb c " " then String "T" rest else String c (replace_space_T rest)
  end.

(** The comparator's outcome on two time values, NaN being [None]. *)
Definition time_sub (a b : option Z) : option Z :=
  match a, b with
  | Some x, Some y => Some (x - y)
  | _, _ => None
  end.

Section Fixtures.
Context {rt : Runtime}.

(** One turn of the [for (const s of scores)] loop of [currentScore]. *)
Definition score_step (acc : score) (s : value) : outcome score :=
  if strict_eq_str (opt_prop s "description") "CURRENT" then
    let? h := (if strict_eq_str (opt_prop (opt_prop s "score") "participant") "home" then
             let? sc := prop s "score" in
             let? g := prop sc "goals" in
             Ok (Number (coalesce g (VNum (of_Z 0))))
           else Ok (home acc)) in
    let? a := (if strict_eq_str (opt_prop (opt_prop s "score") "participant") "away" then
             let? sc := prop s "score" in
             let? g := prop sc "goals" in
             Ok (Number (coalesce g (VNum (of_Z 0))))
           else Ok (away acc)) in
    Ok {| home := h; away := a |}
  else Ok acc.

Fixpoint score_loop (acc : score) (scores : list value) : outcome score :=
  match scores with
  | [] => Ok acc
  | s :: rest => let? acc' := score_step acc s in score_loop acc' rest
  end.

Definition currentScore (scores : value) : outcome score :=
  match scores with
  | VArr l => score_loop {| home := of_Z 0; away := of_Z 0 |} l
  | _ => Ok {| home := of_Z 0; away := of_Z 0 |}
  end.

(** [parts.find(pred)]: only an array has the method. *)
Definition find (parts : value) (pred : value -> bool) : outcome value :=
  match parts with
  | VArr l => Ok (match List.find pred l with Some p => p | None => VUndefined end)
  | _ => Throw (TypeError "parts.find is not a function")
  end.

(** [fx.starting_at.replace(' ', 'T')]: only a string has the method. *)
Definition replace (s : value) : outcome string :=
  match s with
  | VStr s => Ok (replace_space_T s)
  | _ => Throw (TypeError "fx.starting_at.replace is not a function")
  end.

Definition team (p : value) : value :=
  VObj [("id", opt_prop p "id"); ("name", opt_prop p "name");
        ("code", opt_prop p "short_code"); ("logo", opt_prop p "image_path")].

Definition mapFixture (fx : value) : outcome value :=
  let parts := or_else (opt_prop fx "participants") (VArr []) in
  let? h := find parts (fun p => strict_eq_str (opt_prop (opt_prop p "meta") "location") "home") in
  let home_team := or_else h (VObj []) in
  let? a := find parts (fun p => strict_eq_str (opt_prop (opt_prop p "meta") "location") "away") in
  let away_team := or_else a (VObj []) in
  let? sc := currentScore (or_else (opt_prop fx "scores") (VArr [])) in
  let league_name := coalesce (opt_prop (opt_prop fx "league") "name") VNull in
  let? kickoffUTC := (if truthy (opt_prop fx "starting_at") then
                    let? at_ := prop fx "starting_at" in
                    let? s := replace at_ in
                    Ok (VStr (s +:+ "Z"))
                  else Ok VNull) in
  let kickoffBahrain :=
    if truthy kickoffUTC then VStr (toLocaleString_ar_Bahrain (new_Date kickoffUTC))
    else VNull in
  Ok (VObj [("id", opt_prop fx "id");
            ("league_id", opt_prop fx "league_id");
            ("league_name", league_name);
            ("state_id", opt_prop fx "state_id");
            ("kickoff_utc", kickoffUTC);
            ("kickoff_bahrain", kickoffBahrain);
            ("home", team home_team);
            ("away", team away_team);
            ("score_home", VNum (home sc));
            ("score_away", VNum (away sc))]).

(** ** Ordering by kickoff *)

(** [new Date(a?.kickoff_utc || 0).getTime()]. *)
Definition kickoff_time (a : value) : option Z :=
  new_Date (or_else (opt_prop a "kickoff_utc") (VNum (of_Z 0))).

Definition comparefn (a b : value) : option Z :=
  time_sub (kickoff_time a) (kickoff_time b).

(** SortCompare of ECMA-262: [undefined] goes last without the comparator
    being called, and a NaN from the comparator counts as 0. *)
Definition SortCompare (x y : value) : Z :=
  match x, y with
  | VUndefined, VUndefined => 0
  | VUndefined, _ => 1
  | _, VUndefined => -1
  | _, _ => match comparefn x y with Some v => v | None => 0 end
  end.

(** [Array.prototype.sort] is stable; an element goes before the first one
    that does not sort strictly before it.  With a comparator that is a
    consistent ordering the standard fixes this result; with NaN keys the
    comparator is not one and the standard leaves the order to the engine.
    What is proved of the order below is therefore stated on fixtures whose
    kickoffs are dates or missing ([kickoff_known]). *)
Fixpoint sort_insert (x : value) (l : list value) : list value :=
  match l with
  | [] => [x]
  | y :: rest =>
      if SortCompare y x <? 0 then y :: sort_insert x rest
      else x :: y :: rest
  end.

Definition sortByKickoff (l : list value) : list value :=
  fold_right sort_insert [] l.

End Fixtures.

(** ** The upstream and the handlers *)

(** What undici's [request] gives for a URL: the promise rejects when the
    upstream cannot be reached; otherwise it resolves with the status code
    and the body, whatever the status is (no [throwOnError] is passed).
    [res.body.json()] rejects with a SyntaxError on a body that is not
    JSON. *)
Inductive body :=
| Json (v : value)
| NotJson.

Inductive reply :=
| Unreachable
| Response (statusCode : Z) (b : body).

Record exchange := { elapsed : Z; answer : reply }.

(** The configuration read from the environment at start-up and the
    upstream, which answers a URL asked at a given time. *)
Record Env := {
  API_BASE : string;
  API_KEY : string;
  upstream : Z -> string -> exchange;
}.

Fixpoint mapM (f : value -> outcome value) (l : list value) : outcome (list value) :=
  match l with
  | [] => Ok []
  | x :: rest =>
      let? y := f x in
      let? ys := mapM f rest in
      Ok (y :: ys)
  end.

(** [arr.map(f)]: only an array has the method. *)
Definition array_map (f : value -> outcome value) (arr : value) : outcome (list value) :=
  match arr with
  | VArr l => mapM f l
  | _ => Throw (TypeError "map is not a function")
  end.

Definition array_length (l : list value) : value := VNum (of_Z (Z.of_nat (List.length l))).

(** The routes that go through the cache. *)
Inductive endpoint :=
| Today
| Live
| ByDate (date : string)
| Tomorrow
| Upcoming (req : value)
| Match (id : string).

Section Server.
Context {rt : Runtime} (env : Env).

(** [await request(url)]: the URL is asked, time passes, and the response
    (status code and body) comes back unless the upstream is unreachable. *)
Definition request (url : string) : M (Z * body) :=
  fun w =>
    let x := upstream env (clock w) url in
    let w' := {| cache := cache w; clock := clock w + elapsed x;
                 fetched := (fetched w ++ [(clock w, url)])%list |} in
    match answer x with
    | Unreachable => (Throw NetworkError, w')
    | Response st b => (Ok (st, b), w')
    end.

(** [await res.body.json()]. *)
Definition body_json (res : Z * body) : M value :=
  match snd res with
  | Json v => ret v
  | NotJson => throw SyntaxError
  end.

Definition fixtures_url (date : string) : string :=
  API_BASE env +:+ "/fixtures/date/" +:+ date +:+
  "?api_token=" +:+ API_KEY env +:+ "&include=participants;league;scores&locale=ar".

Definition inplay_url : string :=
  API_BASE env +:+ "/livescores/inplay" +:+
  "?api_token=" +:+ API_KEY env +:+ "&include=participants;league;scores&locale=ar".

Definition match_url (id : string) : string :=
  API_BASE env +:+ "/fixtures/" +:+ id +:+
  "?api_token=" +:+ API_KEY env +:+ "&include=participants;events;scores&locale=ar".

(** [(raw?.data ?? []).map(mapFixture)]. *)
Definition map_fixtures (raw : value) : outcome (list value) :=
  array_map mapFixture (coalesce (opt_prop raw "data") (VArr [])).

(** GET /health *)
Definition health : M value := ret (VObj [("ok", VBool true)]).

(** GET /api/fixtures/today *)
Definition fixtures_today : M value :=
  let* c := get "fixtures:today:simple" in
  if truthy c then ret c else
  let* now := Date_now in
  let* iso := lift (toISOString (Some now)) in
  let todayUTC := slice_0_10 iso in
  let url := fixtures_url todayUTC in
  let* res := request url in
  let* raw := body_json res in
  let* mapped := lift (map_fixtures raw) in
  let fixtures := sortByKickoff mapped in
  let response := VObj [("date_utc", VStr todayUTC); ("fixtures", VArr fixtures)] in
  let* _ := put "fixtures:today:simple" response 60000 in
  ret response.

(** GET /api/live *)
Definition live : M value :=
  let* c := get "live:simple" in
  if truthy c then ret c else
  let url := inplay_url in
  let* res := request url in
  let* raw := body_json res in
  let* mapped := lift (map_fixtures raw) in
  let fixtures := sortByKickoff mapped in
  let response := VObj [("count", array_length fixtures); ("fixtures", VArr fixtures)] in
  let* _ := put "live:simple" response 5000 in
  ret response.

(** GET /api/fixtures/date/:date; a route parameter is a string. *)
Definition fixtures_date (date : string) : M value :=
  let key := "fixtures:date:" +:+ date in
  let* c := get key in
  if truthy c then ret c else
  let url := fixtures_url date in
  let* res := request url in
  let* raw := body_json res in
  let* mapped := lift (map_fixtures raw) in
  let fixtures := sortByKickoff mapped in
  let response := VObj [("date_utc", VStr date); ("fixtures", VArr fixtures)] in
  let* _ := put key response 60000 in
  ret response.

(** GET /api/fixtures/tomorrow *)
Definition fixtures_tomorrow : M value :=
  let* c := get "fixtures:tomorrow" in
  if truthy c then ret c else
  let* d := Date_now in
  let d := setUTCDate d (getUTCDate d + 1) in
  let* iso := lift (toISOString d) in
  let date := slice_0_10 iso in
  let url := fixtures_url date in
  let* res := request url in
  let* raw := body_json res in
  let* mapped := lift (map_fixtures raw) in
  let fixtures := sortByKickoff mapped in
  let response := VObj [("date_utc", VStr date); ("fixtures", VArr fixtures)] in
  let* _ := put "fixtures:tomorrow" response 60000 in
  ret response.

(** The [for (let i = 0; i < days; i++)] loop of the upcoming endpoint,
    from turn [i] on, with [out] as it stands. *)
Fixpoint upcoming_loop (fuel : nat) (today : Z) (days : number) (i : Z)
    (out : list value) : M (list value) :=
  match fuel with
  | O => fun w => (OutOfFuel, w)
  | S fuel' =>
      if number_ltb (of_Z i) days then
        let d := Date_UTC (getUTCFullYear today) (getUTCMonth today) (getUTCDate today + i) in
        let* iso := lift (toISOString d) in
        let date := slice_0_10 iso in
        let url := fixtures_url date in
        let* res := request url in
        let* raw := body_json res in
        let* fixtures := lift (map_fixtures raw) in
        let out' :=
          if truthy (array_length fixtures) then
            (out ++ [VObj [("date_utc", VStr date);
                           ("fixtures", VArr (sortByKickoff fixtures))]])%list
          else out in
        upcoming_loop fuel' today days (i + 1) out'
      else ret out
  end.

(** [Math.max(1, Math.min(14, Number(req?.query?.days ?? 7)))]. *)
Definition requested_days (req : value) : number :=
  Math_max (of_Z 1)
    (Math_min (of_Z 14)
       (Number (coalesce (opt_prop (opt_prop req "query") "days") (VNum (of_Z 7))))).

(** GET /api/fixtures/upcoming *)
Definition fixtures_upcoming (fuel : nat) (req : value) : M value :=
  let days := requested_days req in
  let key := "fixtures:upcoming:" +:+ NumberToString days in
  let* cached := get key in
  if truthy cached then ret cached else
  let* today := Date_now in
  let* out := upcoming_loop fuel today days 0 [] in
  let response := VObj [("days", VNum days); ("schedule", VArr out)] in
  let* _ := put key response 60000 in
  ret response.

(** GET /api/matches/:id *)
Definition matches (id : string) : M value :=
  let key := "match:" +:+ id in
  let* c := get key in
  if truthy c then ret c else
  let url := match_url id in
  let* res := request url in
  let* raw := body_json res in
  let* _ := put key raw 3000 in
  ret raw.

(** The router: the handler registered for each cached route. *)
Definition handle (fuel : nat) (e : endpoint) : M value :=
  match e with
  | Today => fixtures_today
  | Live => live
  | ByDate date => fixtures_date date
  | Tomorrow => fixtures_tomorrow
  | Upcoming req => fixtures_upcoming fuel req
  | Match id => matches id
  end.

(** The key each handler reads and writes, and the TTL it writes with. *)
Definition cache_key (e : endpoint) : string :=
  match e with
  | Today => "fixtures:today:simple"
  | Live => "live:simple"
  | ByDate date => "fixtures:date:" +:+ date
  | Tomorrow => "fixtures:tomorrow"
  | Upcoming req => "fixtures:upcoming:" +:+ NumberToString (requested_days req)
  | Match id => "match:" +:+ id
  end.

Definition ttl_of (e : endpoint) : Z :=
  match e with
  | Live => 5000
  | Match _ => 3000
  | _ => 60000
  end.

End Server.

(** ** A runtime and an upstream to run the code on

    [node] reads the strings and dates that the worked examples below use
    the way a JavaScript engine does: signed decimal literals (with a
    fraction, without an exponent) and "Infinity" as numbers, and UTC
    date-times written YYYY-MM-DDTHH:mm:ssZ.  On other inputs it answers NaN,
    which a real engine does not always do; the theorems hold for every
    [Runtime], and the examples stay inside what [node] reads faithfully. *)
Module Node.

Definition is_space (c : ascii) : bool :=
  let n := nat_of_ascii c in
  ((n =? 32) || (n =? 9) || (n =? 10) || (n =? 11) || (n =? 12) || (n =? 13))%nat.

Definition is_digit (c : ascii) : bool :=
  let n := nat_of_ascii c in ((48 <=? n) && (n <=? 57))%nat.

Definition digit_val (c : ascii) : Z := Z.of_nat (nat_of_ascii c) - 48.

Fixpoint trim_left (s : string) : string :=
  match s with
  | String c rest => if is_space c then trim_left rest else s
  | EmptyString => EmptyString
  end.

Fixpoint rev_string (s acc : string) : string :=
  match s with
  | EmptyString => acc
  | String c rest => rev_string rest (String c acc)
  end.

Definition trim (s : string) : string :=
  rev_string (trim_left (rev_string (trim_left s) EmptyString)) EmptyString.

(** Digits read so far as [num / 10^scale]; [seen_dot] once past the point. *)
Fixpoint read_decimal (s : string) (num : Z) (scale : nat) (seen_dot any_digit : bool)
    : option Q :=
  match s with
  | EmptyString =>
      if any_digit then Some (Qred (Qmake num (Pos.of_nat (Nat.pow 10 scale)))) else None
  | String c rest =>
      if is_digit c then
        read_decimal rest (10 * num + digit_val c) (if seen_dot then S scale else scale)
                     seen_dot true
      else if Ascii.eqb c "." && negb seen_dot then read_decimal rest num scale true any_digit
      else None
  end.

Definition unsigned_literal (negative : bool) (s : string) : number :=
  if String.eqb s "Infinity" then Infinity negative
  else match read_decimal s 0 0 false false with
       | Some q => Fin (if negative then Qred (Qopp q) else q)
       | None => NaN
       end.

Definition string_to_number (s : string) : number :=
  match trim s with
  | EmptyString => of_Z 0
  | String "-" rest => unsigned_literal true rest
  | String "+" rest => unsigned_literal false rest
  | s' => unsigned_literal false s'
  end.

(** The digits after the point of [r / den], [r < den], while they last. *)
Fixpoint fraction_digits (fuel : nat) (r den : Z) : option string :=
  if r =? 0 then Some EmptyString
  else match fuel with
       | O => None
       | S fuel' =>
           match fraction_digits fuel' (10 * r mod den) den with
           | Some ds => Some (String (digit_char (10 * r / den)) ds)
           | None => None
           end
       end.

Definition fraction_to_string (q : Q) : string :=
  let n := Z.abs (Qnum q) in
  let d := Zpos (Qden q) in
  match fraction_digits 1100 (n mod d) d with
  | Some ds => (if Qnum q <? 0 then "-" else EmptyString) +:+ decimal (n / d) +:+ "." +:+ ds
  | None => "NaN"
  end.

Fixpoint read_digits (n : nat) (s : string) (acc : Z) : option (Z * string) :=
  match n with
  | O => Some (acc, s)
  | S n' =>
      match s with
      | String c rest =>
          if is_digit c then read_digits n' rest (10 * acc + digit_val c) else None
      | EmptyString => None
      end
  end.

Definition expect (c : ascii) (s : string) : option string :=
  match s with
  | String c' rest => if Ascii.eqb c c' then Some rest else None
  | EmptyString => None
  end.

Definition days_in_month (y m : Z) : Z :=
  days_from_civil (y + m / 12) (m mod 12 + 1) 1 - days_from_civil y m 1.

(** YYYY-MM-DDTHH:mm:ssZ *)
Definition date_parse (s : string) : option Z :=
  '(y, s) ← read_digits 4 s 0;
  s ← expect "-" s;
  '(m, s) ← read_digits 2 s 0;
  s ← expect "-" s;
  '(d, s) ← read_digits 2 s 0;
  s ← expect "T" s;
  '(hh, s) ← read_digits 2 s 0;
  s ← expect ":" s;
  '(mm, s) ← read_digits 2 s 0;
  s ← expect ":" s;
  '(ss, s) ← read_digits 2 s 0;
  s ← expect "Z" s;
  if String.eqb s EmptyString && (1 <=? m) && (m <=? 12) && (1 <=? d) && (d <=? days_in_month y m)
     && (hh <=? 23) && (mm <=? 59) && (ss <=? 59)
  then Some (days_from_civil y m d * msPerDay + hh * 3600000 + mm * 60000 + ss * 1000)
  else None.

(** Hours and minutes at UTC+3, in ASCII digits; ICU writes them in the
    Arabic script, which nothing below depends on. *)
Definition to_locale_string (t : option Z) : string :=
  match t with
  | None => "Invalid Date"
  | Some t =>
      let ms := TimeWithinDay (t + 3 * 3600000) in
      let two n := (if n <? 10 then "0" else EmptyString) +:+ decimal n in
      two (ms / 3600000) +:+ ":" +:+ two (ms / 60000 mod 60)
  end.

#[export] Instance node : Runtime := {|
  StringToNumber := string_to_number;
  fractionToString := fraction_to_string;
  Date_parse := date_parse;
  toLocaleString_ar_Bahrain := to_locale_string;
|}.

End Node.

Import Node.


(** ** Statements *)

Definition outcome_of {A} (c : M A) (w : world) : outcome A := fst (c w).
Definition world_after {A} (c : M A) (w : world) : world := snd (c w).

(** The world the worked examples start from: nothing cached, nothing
    fetched, the clock at 2025-08-27T00:00:00Z. *)
Definition cold : world := {| cache := ∅; clock := 1756252800000; fetched := [] |}.

Section ScoreSpec.
Context {rt : Runtime}.

(** The score extractor in the words of its description: the records tagged
    CURRENT, the last of them for a side, its goals with 0 for a missing
    value. *)
Definition is_current (s : value) : bool :=
  strict_eq_str (opt_prop s "description") "CURRENT".

Definition tagged (side : string) (s : value) : bool :=
  strict_eq_str (opt_prop (opt_prop s "score") "participant") side.

Fixpoint last_where (p : value -> bool) (l : list value) : option value :=
  match l with
  | [] => None
  | s :: rest =>
      match last_where p rest with
      | Some s' => Some s'
      | None => if p s then Some s else None
      end
  end.

Definition goals_of (s : value) : number :=
  Number (coalesce (opt_prop (opt_prop s "score") "goals") (VNum (of_Z 0))).

Definition side_score (side : string) (l : list value) : number :=
  match last_where (fun s => is_current s && tagged side s) l with
  | Some s => goals_of s
  | None => of_Z 0
  end.

End ScoreSpec.

Definition score_record (description side : string) (goals : value) : value :=
  VObj [("description", VStr description);
        ("score", VObj [("participant", VStr side); ("goals", goals)])].

(** The scores of the specification's example, with an earlier CURRENT home
    record that the later one overrides. *)
Definition example_scores : list value :=
  [score_record "1ST_HALF" "home" (VNum (of_Z 9));
   score_record "CURRENT" "home" (VNum (of_Z 1));
   score_record "CURRENT" "home" (VNum (of_Z 2));
   score_record "CURRENT" "away" (VNum (of_Z 1));
   score_record "2ND_HALF" "away" (VNum (of_Z 8))].

(** A field [mapFixture] calls a method of: fine when it is falsy (the
    default or the [null] branch is taken) or of the type that has the
    method. *)
Definition falsy_or_array (v : value) : bool :=
  match v with VArr _ => true | _ => negb (truthy v) end.

Definition falsy_or_string (v : value) : bool :=
  match v with VStr _ => true | _ => negb (truthy v) end.

Definition placeholder_team : value :=
  VObj [("id", VUndefined); ("name", VUndefined);
        ("code", VUndefined); ("logo", VUndefined)].

Section KickoffSpec.
Context {rt : Runtime}.

(** A fixture whose kickoff the comparator can read: the element is not
    [undefined] and its kickoff_utc, when present, is a date the runtime
    parses. *)
Definition kickoff_known (a : value) : bool :=
  match a with
  | VUndefined => false
  | _ => match kickoff_time a with Some _ => true | None => false end
  end.

(** Ascending order of kickoff times. *)
Definition kickoff_leb (a b : value) : bool :=
  match kickoff_time a, kickoff_time b with
  | Some x, Some y => x <=? y
  | _, _ => false
  end.

Definition kicks_off_at (t : Z) (a : value) : bool :=
  match kickoff_time a with Some x => x =? t | None => false end.

End KickoffSpec.

Definition fixture_at (id : Z) (kickoff : value) : value :=
  VObj [("id", VNum (of_Z id)); ("kickoff_utc", kickoff)].

(** The three fixtures of the specification's ordering example, and a fourth
    that ties with the second. *)
Definition example_fixtures : list value :=
  [fixture_at 1 (VStr "2025-01-01T18:00:00Z");
   fixture_at 2 VNull;
   fixture_at 3 (VStr "2025-01-01T12:00:00Z");
   VObj [("id", VNum (of_Z 4))]].

(** ** The handlers as read-through caching *)

Definition with_cache (m : gmap string CacheEntry) (w : world) : world :=
  {| cache := m; clock := clock w; fetched := fetched w |}.

Section ReadThrough.
Context {rt : Runtime} (env : Env).

(** The fetch of every handler: [request] followed by [res.body.json()]. *)
Definition fetch_json (url : string) : M value :=
  let* res := request env url in
  body_json res.

(** The response for one day, from the fetch to the assembled object. *)
Definition day_response (date : string) : M value :=
  let* raw := fetch_json (fixtures_url env date) in
  let* mapped := lift (map_fixtures raw) in
  ret (VObj [("date_utc", VStr date); ("fixtures", VArr (sortByKickoff mapped))]).

(** What each handler does between a cache miss and its [put]. *)
Definition assemble (fuel : nat) (e : endpoint) : M value :=
  match e with
  | Today =>
      let* now := Date_now in
      let* iso := lift (toISOString (Some now)) in
      day_response (slice_0_10 iso)
  | Live =>
      let* raw := fetch_json (inplay_url env) in
      let* mapped := lift (map_fixtures raw) in
      let fixtures := sortByKickoff mapped in
      ret (VObj [("count", array_length fixtures); ("fixtures", VArr fixtures)])
  | ByDate date => day_response date
  | Tomorrow =>
      let* d := Date_now in
      let* iso := lift (toISOString (setUTCDate d (getUTCDate d + 1))) in
      day_response (slice_0_10 iso)
  | Upcoming req =>
      let* today := Date_now in
      let* out := upcoming_loop env fuel today (requested_days req) 0 [] in
      ret (VObj [("days", VNum (requested_days req)); ("schedule", VArr out)])
  | Match id => fetch_json (match_url env id)
  end.

(** The shape all six handlers have. *)
Definition read_through (key : string) (ttl : Z) (compute : M value) : M value :=
  let* c := get key in
  if truthy c then ret c else
  let* response := compute in
  let* _ := put key response ttl in
  ret response.

(** A request that the upstream answered with a JSON body. *)
Definition answered (x : Z * string) : Prop :=
  exists st raw, answer (upstream env (fst x) (snd x)) = Response st (Json raw).

(** A computation that never touches the cache, and whose fetches all got a
    JSON body except possibly the last one, after which it has thrown. *)
Definition assembling {A} (c : M A) : Prop :=
  forall w : world,
    (forall m, c (with_cache m w) = (fst (c w), with_cache m (snd (c w))))
    /\ exists new, fetched (snd (c w)) = (fetched w ++ new)%list
         /\ Forall answered (removelast new)
         /\ (forall a, fst (c w) = Ok a -> Forall answered new).

(** The UTC calendar date, as [toISOString().slice(0, 10)] writes it, of day
    number [day]. *)
Definition utc_date (day : Z) : string := slice_0_10 (iso_string (day * msPerDay)).

(** The schedule entry of a day and the fixtures fetched for it. *)
Definition schedule_entry (day : Z) (fixtures : list value) : value :=
  VObj [("date_utc", VStr (utc_date day)); ("fixtures", VArr (sortByKickoff fixtures))].

(** The entries of consecutive days from [day] on, one per list of fixtures,
    the days without fixtures left out. *)
Fixpoint schedule_of (day : Z) (per_day : list (list value)) : list value :=
  match per_day with
  | [] => []
  | fixtures :: rest =>
      match fixtures with
      | [] => schedule_of (day + 1) rest
      | _ => schedule_entry day fixtures :: schedule_of (day + 1) rest
      end
  end.

End ReadThrough.

(** A wall clock a server can have: after the epoch and two weeks and more
    before the last time value a Date can hold. *)
Definition sane_clock (t : Z) : Prop := 0 <= t <= 8640000000000000 - 15 * msPerDay.

(** Checks [f] on [n] consecutive integers from [z] on. *)
Fixpoint all_from (n : nat) (z : Z) (f : Z -> bool) : bool :=
  match n with
  | O => true
  | S n' => f z && all_from n' (z + 1) f
  end.

Definition civil_roundtrip (z : Z) : bool :=
  let '(y, m, d) := civil_from_days z in
  (days_from_civil y m d =? z) && (1 <=? m) && (m <=? 12) && (1 <=? d) && (d <=? 31).

(** The conforming dates of the by-date route: YYYY-MM-DD. *)
Definition is_YYYY_MM_DD (s : string) : bool :=
  match s with
  | String y1 (String y2 (String y3 (String y4 (String d1 (String m1 (String m2
      (String d2 (String a1 (String a2 EmptyString))))))))) =>
      is_digit y1 && is_digit y2 && is_digit y3 && is_digit y4 && Ascii.eqb d1 "-"
      && is_digit m1 && is_digit m2 && Ascii.eqb d2 "-" && is_digit a1 && is_digit a2
  | _ => false
  end.

(** ** Upstreams for the worked examples *)

Definition raw_fixture (id : Z) (starting_at : string) : value :=
  VObj [("id", VNum (of_Z id)); ("league_id", VNum (of_Z 8));
        ("starting_at", VStr starting_at);
        ("participants",
         VArr [VObj [("id", VNum (of_Z 10)); ("name", VStr "A");
                     ("meta", VObj [("location", VStr "away")])];
               VObj [("id", VNum (of_Z 11)); ("name", VStr "H");
                     ("meta", VObj [("location", VStr "home")])]]);
        ("scores", VArr example_scores)].

Definition payload (fixtures : list value) : value := VObj [("data", VArr fixtures)].

Definition contains (needle s : string) : bool :=
  match String.index 0 needle s with Some _ => true | None => false end.

(** Answers every URL after 120 ms with two fixtures (the later kickoff
    first), except that 2025-08-28 has none. *)
Definition serving : Env :=
  {| API_BASE := "https://api.sportmonks.com/v3/football";
     API_KEY := "KEY";
     upstream := fun _ url =>
       {| elapsed := 120;
          answer := Response 200 (Json (payload
            (if contains "/2025-08-28?" url then []
             else [raw_fixture 1 "2025-08-27 18:00:00";
                   raw_fixture 2 "2025-08-27 12:00:00"]))) |} |}.

(** Answers the first day and every other URL, and fails on 2025-08-28 with
    status 500 and a JSON error body. *)
Definition erring : Env :=
  {| API_BASE := "https://api.sportmonks.com/v3/football";
     API_KEY := "KEY";
     upstream := fun _ url =>
       {| elapsed := 120;
          answer :=
            if contains "/2025-08-28?" url
            then Response 500 (Json (VObj [("message", VStr "Server Error")]))
            else Response 200 (Json (payload [raw_fixture 1 "2025-08-27 18:00:00"])) |} |}.

(** Cannot be reached for 2025-08-28. *)
Definition unreachable : Env :=
  {| API_BASE := "https://api.sportmonks.com/v3/football";
     API_KEY := "KEY";
     upstream := fun _ url =>
       {| elapsed := 120;
          answer :=
            if contains "/2025-08-28?" url then Unreachable
            else Response 200 (Json (payload [raw_fixture 1 "2025-08-27 18:00:00"])) |} |}.

Definition days_query (days : value) : value := VObj [("query", VObj [("days", days)])].
Definition no_query : value := VObj [("query", VObj [])].

(** What [get] answers for a key: the entry's data while it is fresh. *)
Definition cached (k : string) (w : world) : value :=
  match cache w !! k with
  | Some v => if clock w <? exp v then data v else VNull
  | None => VNull
  end.

(** The world after a [put]. *)
Definition stored (k : string) (v : value) (ttl : Z) (w : world) : world :=
  {| cache := <[k := {| exp := clock w + ttl; data := v |}]> (cache w);
     clock := clock w;
     fetched := fetched w |}.

Section UpcomingSpec.
Context {rt : Runtime} (env : Env).

(** The URL of the upcoming loop's turn [i]. *)
Definition day_url (today i : Z) : string :=
  fixtures_url env (utc_date (Day today + i)).

(** The fixtures a request brought: the upstream's JSON body, normalised. *)
Definition fetched_fixtures (x : Z * string) (fixtures : list value) : Prop :=
  exists st raw,
    answer (upstream env (fst x) (snd x)) = Response st (Json raw)
    /\ map_fixtures raw = Ok fixtures.

End UpcomingSpec.

(** A later start for the examples: 2025-08-29T00:00:00Z. *)
Definition later : world := at_time (clock cold + 2 * msPerDay) cold.

(** Whether a day brought fixtures. *)
Definition has_fixtures (p : Z * list value) : bool :=
  match snd p with [] => false | _ => true end.

(** Whether [n] is written with exactly [width] characters by [pad]. *)
Definition pad_fits (width : nat) (n : Z) : bool :=
  (String.length (pad width n) =? width)%nat.

(** ** The first revision of the file

    The file holds two revisions of the server.  In the first one the cache,
    [currentScore] and [sortByKickoff] are written as in the second; its
    [mapFixture] has no [league_name]. *)
Module Rev1.
Section Fixtures.
Context {rt : Runtime}.

Definition mapFixture (fx : value) : outcome value :=
  let parts := or_else (opt_prop fx "participants") (VArr []) in
  let? h := find parts (fun p => strict_eq_str (opt_prop (opt_prop p "meta") "location") "home") in
  let home_team := or_else h (VObj []) in
  let? a := find parts (fun p => strict_eq_str (opt_prop (opt_prop p "meta") "location") "away") in
  let away_team := or_else a (VObj []) in
  let? sc := currentScore (or_else (opt_prop fx "scores") (VArr [])) in
  let? kickoffUTC := (if truthy (opt_prop fx "starting_at") then
                    let? at_ := prop fx "starting_at" in
                    let? s := replace at_ in
                    Ok (VStr (s +:+ "Z"))
                  else Ok VNull) in
  let kickoffBahrain :=
    if truthy kickoffUTC then VStr (toLocaleString_ar_Bahrain (new_Date kickoffUTC))
    else VNull in
  Ok (VObj [("id", opt_prop fx "id");
            ("league_id", opt_prop fx "league_id");
            ("state_id", opt_prop fx "state_id");
            ("kickoff_utc", kickoffUTC);
            ("kickoff_bahrain", kickoffBahrain);
            ("home", team home_team);
            ("away", team away_team);
            ("score_home", VNum (home sc));
            ("score_away", VNum (away sc))]).

End Fixtures.
End Rev1.

(** An object with a [league_name] property put in after its first two. *)
Definition with_league_name (name : value) (cf : value) : value :=
  match cf with
  | VObj (id :: league_id :: rest) => VObj (id :: league_id :: ("league_name", name) :: rest)
  | _ => cf
  end.

(** ** Start-up *)

(** What [start] does that can be seen from outside, in the order it does
    it. *)
Inductive event :=
| RegisterCors
| LogError (msg : string)
| LogInfo (msg : string)
| ConsoleError
| Exit (code : Z)
| Get (path : string)
| Listen (port : number) (host : string).

(** Whether [app.register(cors, ...)] resolves, and whether [app.listen]
    resolves on a port. *)
Record platform := { cors_registers : bool; listens : number -> bool }.

(** [process.env.NAME]: a string, or [undefined] for a variable that is not
    set. *)
Definition env_var (penv : gmap string string) (name : string) : value :=
  match penv !! name with
  | Some s => VStr s
  | None => VUndefined
  end.

Definition routes : list event :=
  [Get "/health"; Get "/api/fixtures/today"; Get "/api/live";
   Get "/api/fixtures/date/:date"; Get "/api/fixtures/tomorrow";
   Get "/api/fixtures/upcoming"; Get "/api/matches/:id"].

Section Start.
Context {rt : Runtime}.

Definition PORT (penv : gmap string string) : number :=
  Number (or_else (env_var penv "PORT") (VNum (of_Z 8080))).

Definition configured_API_BASE (penv : gmap string string) : string :=
  ToString (or_else (env_var penv "API_BASE")
                    (VStr "https://api.sportmonks.com/v3/football")).

(** [start()] with the [catch] that follows it: a rejection of [register] or
    of [listen] is written to the console and ends the process with status
    1, and so does a missing API_KEY, before any route is registered. *)
Definition start (pf : platform) (penv : gmap string string) : list event :=
  if cors_registers pf then
    if negb (truthy (env_var penv "API_KEY")) then
      [RegisterCors; LogError "Missing API_KEY in env"; Exit 1]
    else
      (RegisterCors :: routes ++
       (if listens pf (PORT penv) then
          [Listen (PORT penv) "0.0.0.0";
           LogInfo ("Server listening on port " +:+ NumberToString (PORT penv))]
        else [Listen (PORT penv) "0.0.0.0"; ConsoleError; Exit 1]))%list
  else [RegisterCors; ConsoleError; Exit 1].

(** The configuration the handlers close over once the server runs. *)
Definition configured (penv : gmap string string) (up : Z -> string -> exchange) : Env :=
  {| API_BASE := configured_API_BASE penv;
     API_KEY := ToString (env_var penv "API_KEY");
     upstream := up |}.

End Start.

(** ** Statements about the routes *)

Section RouteSpec.
Context {rt : Runtime}.

(** Two requests that read and write the same cache entry. *)
Definition same_entry (e1 e2 : endpoint) : Prop :=
  match e1, e2 with
  | Today, Today | Live, Live | Tomorrow, Tomorrow => True
  | ByDate d1, ByDate d2 => d1 = d2
  | Upcoming r1, Upcoming r2 =>
      NumberToString (requested_days r1) = NumberToString (requested_days r2)
  | Match i1, Match i2 => i1 = i2
  | _, _ => False
  end.

(** A raw fixture that [mapFixture] reads without trouble: participants
    missing, falsy or an array, and starting_at missing, falsy or a string
    that is a date for the runtime once converted. *)
Definition readable (fx : value) : Prop :=
  falsy_or_array (opt_prop fx "participants") = true
  /\ (truthy (opt_prop fx "starting_at") = false
      \/ exists s t, opt_prop fx "starting_at" = VStr s
                     /\ Date_parse (replace_space_T s +:+ "Z") = Some t).

End RouteSpec.

(** A clock between the epoch and the last day but one of the year 9999,
    for which [toISOString] writes four-digit years today and tomorrow. *)
Definition calendar_clock (t : Z) : Prop := 0 <= t < 253402300800000 - msPerDay.

Fixpoint has_space (s : string) : bool :=
  match s with
  | EmptyString => false
  | String c rest => Ascii.eqb c " " || has_space rest
  end.

Section CanonicalSpec.
Context {rt : Runtime}.

(** The first participant of a side, [undefined] when there is none. *)
Definition participant_of (side : string) (participants : value) : value :=
  match participants with
  | VArr l =>
      match List.find (fun p => strict_eq_str (opt_prop (opt_prop p "meta") "location") side) l with
      | Some p => p
      | None => VUndefined
      end
  | _ => VUndefined
  end.

(** starting_at as a UTC date-time: the first blank becomes a T and a Z is
    put at the end; [null] without a starting_at. *)
Definition kickoff_of (starting_at : value) : value :=
  match starting_at with
  | VStr s => if String.eqb s EmptyString then VNull else VStr (replace_space_T s +:+ "Z")
  | _ => VNull
  end.

Definition scores_of (scores : value) : score :=
  match scores with
  | VArr l => {| home := side_score "home" l; away := side_score "away" l |}
  | _ => {| home := of_Z 0; away := of_Z 0 |}
  end.

(** The canonical fixture of a raw fixture, field by field. *)
Definition canonical (fx : value) : value :=
  let kickoff := kickoff_of (opt_prop fx "starting_at") in
  VObj [("id", opt_prop fx "id");
        ("league_id", opt_prop fx "league_id");
        ("league_name", coalesce (opt_prop (opt_prop fx "league") "name") VNull);
        ("state_id", opt_prop fx "state_id");
        ("kickoff_utc", kickoff);
        ("kickoff_bahrain",
         match kickoff with
         | VStr k => VStr (toLocaleString_ar_Bahrain (Date_parse k))
         | _ => VNull
         end);
        ("home", team (or_else (participant_of "home" (opt_prop fx "participants")) (VObj [])));
        ("away", team (or_else (participant_of "away" (opt_prop fx "participants")) (VObj [])));
        ("score_home", VNum (home (scores_of (opt_prop fx "scores"))));
        ("score_away", VNum (away (scores_of (opt_prop fx "scores"))))].

End CanonicalSpec.

(** * Theorems *)

(** ** The TTL cache *)

Lemma get_eq (k : string) (w : world) :
  get k w =
  (Ok match cache w !! k with
      | Some v => if clock w <? exp v then data v else VNull
      | None => VNull
      end, w).
Proof. reflexivity. Qed.

(** C2. After [put k v ttl] at time [clock w], [get k] at any time [t] gives
    [v] exactly when [t] is strictly before [clock w + ttl], and [null]
    otherwise, as it does for a key that has no entry; [put] installs its
    entry whatever was stored under the key before, leaves the other keys
    alone, and a second [put] under the key replaces the first. *)
Theorem put_then_get (k : string) (v : value) (ttl : Z) (w : world) (t : Z) :
  let w1 := world_after (put k v ttl) w in
  outcome_of (get k) (at_time t w1) = Ok (if t <? clock w + ttl then v else VNull)
  /\ (forall w0 : world, cache w0 !! k = None -> outcome_of (get k) w0 = Ok VNull)
  /\ cache w1 !! k = Some {| exp := clock w + ttl; data := v |}
  /\ (forall k' : string, k' <> k -> cache w1 !! k' = cache w !! k')
  /\ (forall (v0 : value) (ttl0 : Z),
        cache (world_after (put k v ttl) (world_after (put k v0 ttl0) w)) = cache w1).
Proof.
  cbn. repeat split.
  - unfold outcome_of, get; cbn. rewrite lookup_insert_eq. reflexivity.
  - intros w0 H. unfold outcome_of, get; cbn. rewrite H. reflexivity.
  - apply lookup_insert_eq.
  - intros k' Hk. apply lookup_insert_ne. congruence.
  - intros v0 ttl0. apply insert_insert_eq.
Qed.

(** The entry of C2 at work: stored at midnight for 60 s, read back one
    millisecond before the expiry. *)
Lemma put_then_get_example :
  outcome_of (get "k") (at_time (clock cold + 59999)
                          (world_after (put "k" (VStr "v") 60000) cold))
  = Ok (VStr "v")
  /\ outcome_of (get "other") cold = Ok VNull.
Proof.
  destruct (put_then_get "k" (VStr "v") 60000 cold (clock cold + 59999))
    as (Hget & Habsent & _).
  split.
  - exact Hget.
  - apply (proj1 (proj2 (put_then_get "other" VNull 0 cold 0))). reflexivity.
Defined.

(** ** The score extractor *)

Section ScoreFacts.
Context {rt : Runtime}.

Lemma tagged_score_present (side : string) (s : value) :
  tagged side s = true ->
  prop s "score" = Ok (opt_prop s "score")
  /\ prop (opt_prop s "score") "goals" = Ok (opt_prop (opt_prop s "score") "goals").
Proof.
  unfold tagged, prop. intros H.
  assert (Hsc : nullish (opt_prop s "score") = false).
  { revert H. destruct (opt_prop s "score"); cbn; congruence. }
  assert (Hs : nullish s = false).
  { revert H. destruct s; cbn; congruence. }
  rewrite Hs, Hsc. split; reflexivity.
Qed.

Lemma score_step_eq (acc : score) (s : value) :
  score_step acc s =
  Ok (if is_current s then
        {| home := if tagged "home" s then goals_of s else home acc;
           away := if tagged "away" s then goals_of s else away acc |}
      else acc).
Proof.
  unfold score_step. fold (is_current s). fold (tagged "home" s). fold (tagged "away" s).
  destruct (is_current s); [|reflexivity].
  destruct (tagged "home" s) eqn:Hh, (tagged "away" s) eqn:Ha;
    try (destruct (tagged_score_present _ _ Hh) as [E1 E2]);
    try (destruct (tagged_score_present _ _ Ha) as [E1 E2]);
    try rewrite E1; cbn [obind]; try rewrite E2; reflexivity.
Qed.

Lemma score_loop_eq (l : list value) (acc : score) :
  score_loop acc l =
  Ok {| home := match last_where (fun s => is_current s && tagged "home" s) l with
                | Some s => goals_of s
                | None => home acc
                end;
        away := match last_where (fun s => is_current s && tagged "away" s) l with
                | Some s => goals_of s
                | None => away acc
                end |}.
Proof.
  revert acc. induction l as [|s rest IH]; intros acc.
  - destruct acc; reflexivity.
  - cbn [score_loop last_where]. rewrite score_step_eq. cbn [obind]. rewrite IH.
    destruct (last_where (fun s0 => is_current s0 && tagged "home" s0) rest),
             (last_where (fun s0 => is_current s0 && tagged "away" s0) rest),
             (is_current s), (tagged "home" s), (tagged "away" s); reflexivity.
Qed.

Lemma currentScore_eq (scores : value) :
  currentScore scores =
    Ok match scores with
       | VArr l => {| home := side_score "home" l; away := side_score "away" l |}
       | _ => {| home := of_Z 0; away := of_Z 0 |}
       end.
Proof.
  destruct scores; try reflexivity. unfold currentScore. rewrite score_loop_eq.
  reflexivity.
Qed.

Lemma last_where_none (p : value -> bool) (l : list value) :
  Forall (fun s => p s = false) l -> last_where p l = None.
Proof.
  induction 1 as [|s rest Hs _ IH]; [reflexivity|].
  cbn. rewrite IH, Hs. reflexivity.
Qed.

End ScoreFacts.

(** C3 (amended). [currentScore] never throws.  On an array it looks only at
    the records whose description is exactly "CURRENT"; the last of them
    tagged home gives the home score and the last tagged away the away
    score; on anything that is not an array, on the empty array and on an
    array without a CURRENT record the result is 0-0.  A goals value that is
    missing ([null] or [undefined]) counts as 0; any other goals value is
    taken through [Number]. *)
Theorem currentScore_spec {rt : Runtime} (scores : value) :
  currentScore scores =
    Ok match scores with
       | VArr l => {| home := side_score "home" l; away := side_score "away" l |}
       | _ => {| home := of_Z 0; away := of_Z 0 |}
       end
  /\ currentScore (VArr []) = Ok {| home := of_Z 0; away := of_Z 0 |}
  /\ (forall l : list value,
        Forall (fun s => is_current s = false) l ->
        currentScore (VArr l) = Ok {| home := of_Z 0; away := of_Z 0 |})
  /\ (forall s : value,
        goals_of s =
        if nullish (opt_prop (opt_prop s "score") "goals") then of_Z 0
        else Number (opt_prop (opt_prop s "score") "goals")).
Proof.
  repeat split.
  - apply currentScore_eq.
  - intros l Hl. unfold currentScore. rewrite score_loop_eq.
    rewrite !last_where_none; [reflexivity | |];
      (eapply Forall_impl; [exact Hl|]); cbn; intros s ->; reflexivity.
  - intros s. unfold goals_of, coalesce.
    destruct (nullish (opt_prop (opt_prop s "score") "goals")); reflexivity.
Qed.

Lemma currentScore_spec_witness :
  currentScore (VArr example_scores) = Ok {| home := of_Z 2; away := of_Z 1 |}
  /\ currentScore (VArr [score_record "1ST_HALF" "home" (VNum (of_Z 3))])
     = Ok {| home := of_Z 0; away := of_Z 0 |}
  /\ currentScore VUndefined = Ok {| home := of_Z 0; away := of_Z 0 |}
  /\ currentScore (VArr [score_record "CURRENT" "away" VNull])
     = Ok {| home := of_Z 0; away := of_Z 0 |}.
Proof.
  split; [|split; [|split]].
  - rewrite (proj1 (currentScore_spec (VArr example_scores))). reflexivity.
  - apply (proj1 (proj2 (proj2 (currentScore_spec VNull)))).
    repeat constructor.
  - rewrite (proj1 (currentScore_spec VUndefined)). reflexivity.
  - rewrite (proj1 (currentScore_spec _)). reflexivity.
Defined.

(** C3 as stated fails on goals that are present and not numeric: the string
    "abc" gives NaN and [true] gives 1, not 0. *)
Lemma currentScore_non_numeric_goals :
  currentScore (VArr [score_record "CURRENT" "home" (VStr "abc")])
  = Ok {| home := NaN; away := of_Z 0 |}
  /\ currentScore (VArr [score_record "CURRENT" "home" (VBool true)])
     = Ok {| home := of_Z 1; away := of_Z 0 |}
  /\ NaN <> of_Z 0 /\ of_Z 1 <> of_Z 0.
Proof. repeat split; try reflexivity; discriminate. Qed.

(** ** The fixture normalizer *)

Section MapFixtureFacts.
Context {rt : Runtime}.

Lemma currentScore_total (scores : value) : exists sc, currentScore scores = Ok sc.
Proof. eexists. apply currentScore_eq. Qed.

(** Where [mapFixture] is defensive: with participants missing, falsy or an
    array and starting_at missing, falsy or a string it returns a fixture;
    without a home (away) participant the team is the placeholder, and
    without starting_at both kickoff fields are [null]. *)
Lemma mapFixture_defensive (fx : value) :
  falsy_or_array (opt_prop fx "participants") = true ->
  falsy_or_string (opt_prop fx "starting_at") = true ->
  exists cf, mapFixture fx = Ok cf
    /\ (truthy (opt_prop fx "participants") = false ->
        opt_prop cf "home" = placeholder_team /\ opt_prop cf "away" = placeholder_team)
    /\ (truthy (opt_prop fx "starting_at") = false ->
        opt_prop cf "kickoff_utc" = VNull /\ opt_prop cf "kickoff_bahrain" = VNull).
Proof.
  intros Hp Hs. unfold mapFixture.
  destruct (currentScore_total (or_else (opt_prop fx "scores") (VArr []))) as [sc ->].
  assert (Hparts : exists l, or_else (opt_prop fx "participants") (VArr []) = VArr l
                     /\ (truthy (opt_prop fx "participants") = false -> l = [])).
  { unfold or_else, falsy_or_array in *.
    destruct (truthy (opt_prop fx "participants")) eqn:Ht; [|eauto].
    destruct (opt_prop fx "participants");
      try solve [cbn in Hp, Ht; try rewrite Ht in Hp; cbn in Hp; congruence].
    eexists; split; [reflexivity|discriminate]. }
  destruct Hparts as (l & -> & Hl). cbn [find obind].
  assert (Hk : exists k, (if truthy (opt_prop fx "starting_at")
                          then let? at_ := prop fx "starting_at" in
                               let? s := replace at_ in Ok (VStr (s +:+ "Z"))
                          else Ok VNull) = Ok k
                 /\ (truthy (opt_prop fx "starting_at") = false -> k = VNull)).
  { destruct (truthy (opt_prop fx "starting_at")) eqn:Ht; [|eauto].
    assert (Hn : nullish fx = false).
    { destruct fx; try reflexivity; discriminate Ht. }
    unfold prop, falsy_or_string in *. rewrite Hn. cbn [obind].
    destruct (opt_prop fx "starting_at");
      try solve [cbn in Hs, Ht; try rewrite Ht in Hs; cbn in Hs; congruence].
    eexists; split; [reflexivity|discriminate]. }
  destruct Hk as (k & -> & Hk). cbn [obind].
  eexists. split; [reflexivity|]. split.
  - intros Hf. rewrite (Hl Hf). split; reflexivity.
  - intros Hf. rewrite (Hk Hf). split; reflexivity.
Qed.

End MapFixtureFacts.

(** C4 fails on the code.  [mapFixture] calls [parts.find] on whatever truthy
    value the participants field holds and [replace] on whatever truthy value
    starting_at holds: a fixture whose participants is a string, or whose
    starting_at is a number, makes it throw a TypeError, and with it the
    [map] over the whole batch, whereas the scores field is checked with
    [Array.isArray] before it is walked. *)
Theorem mapFixture_throws_on_malformed_field {rt : Runtime} :
  mapFixture (VObj [("id", VNum (of_Z 1)); ("participants", VStr "none")])
  = Throw (TypeError "parts.find is not a function")
  /\ mapFixture (VObj [("id", VNum (of_Z 1)); ("starting_at", VNum (of_Z 1756252800))])
     = Throw (TypeError "fx.starting_at.replace is not a function")
  /\ array_map mapFixture
       (VArr [raw_fixture 1 "2025-08-27 18:00:00";
              VObj [("id", VNum (of_Z 2)); ("participants", VStr "none")];
              raw_fixture 3 "2025-08-27 20:00:00"])
     = Throw (TypeError "parts.find is not a function")
  /\ currentScore (VStr "none") = Ok {| home := of_Z 0; away := of_Z 0 |}.
Proof. repeat split; reflexivity. Qed.

(** ** The kickoff orderer *)

Section SortFacts.
Context {rt : Runtime}.

Lemma kickoff_time_missing (a : value) :
  truthy (opt_prop a "kickoff_utc") = false -> kickoff_time a = Some 0.
Proof. unfold kickoff_time, or_else. intros ->. reflexivity. Qed.

Lemma SortCompare_known (a b : value) :
  kickoff_known a = true -> kickoff_known b = true ->
  exists x y, kickoff_time a = Some x /\ kickoff_time b = Some y
              /\ SortCompare a b = x - y.
Proof.
  unfold kickoff_known. intros Ha Hb.
  destruct (kickoff_time a) as [x|] eqn:Ea; [|destruct a; discriminate].
  destruct (kickoff_time b) as [y|] eqn:Eb; [|destruct b; discriminate].
  exists x, y. repeat split.
  destruct a; try discriminate Ha; destruct b; try discriminate Hb;
    unfold SortCompare, comparefn; rewrite ?Ea, ?Eb; cbn; congruence.
Qed.

Lemma sort_insert_perm (x : value) (l : list value) :
  Permutation (x :: l) (sort_insert x l).
Proof.
  induction l as [|y rest IH]; cbn; [reflexivity|].
  destruct (SortCompare y x <? 0); [|reflexivity].
  rewrite <- IH. apply perm_swap.
Qed.

Lemma sortByKickoff_perm (l : list value) : Permutation l (sortByKickoff l).
Proof.
  induction l as [|x rest IH]; cbn; [reflexivity|].
  rewrite <- sort_insert_perm. constructor. exact IH.
Qed.

Lemma sortByKickoff_known (l : list value) :
  Forall (fun a => kickoff_known a = true) l ->
  Forall (fun a => kickoff_known a = true) (sortByKickoff l).
Proof. intros H. eapply Permutation_Forall; [apply sortByKickoff_perm | exact H]. Qed.

Lemma kickoff_leb_trans (a b c : value) :
  kickoff_leb a b = true -> kickoff_leb b c = true -> kickoff_leb a c = true.
Proof.
  unfold kickoff_leb.
  destruct (kickoff_time a), (kickoff_time b), (kickoff_time c); try discriminate.
  rewrite !Z.leb_le. lia.
Qed.

Lemma sort_insert_sorted (x : value) (l : list value) :
  kickoff_known x = true ->
  Forall (fun a => kickoff_known a = true) l ->
  StronglySorted (fun a b => kickoff_leb a b = true) l ->
  StronglySorted (fun a b => kickoff_leb a b = true) (sort_insert x l).
Proof.
  intros Hx Hl Hs. induction Hs as [|y rest Hs IH Hy]; cbn.
  - repeat constructor.
  - inversion Hl as [|? ? Hky Hrest]; subst.
    destruct (SortCompare_known y x Hky Hx) as (ty & tx & Ey & Ex & ->).
    destruct (ty - tx <? 0) eqn:Hlt.
    + constructor; [apply IH; exact Hrest|].
      eapply Permutation_Forall; [apply sort_insert_perm|].
      constructor; [|exact Hy].
      unfold kickoff_leb. rewrite Ey, Ex. apply Z.leb_le. apply Z.ltb_lt in Hlt. lia.
    + assert (Hxy : kickoff_leb x y = true).
      { unfold kickoff_leb. rewrite Ey, Ex. apply Z.leb_le. apply Z.ltb_ge in Hlt. lia. }
      constructor; [constructor; assumption|].
      constructor; [exact Hxy|].
      eapply Forall_impl; [exact Hy|]. cbn. intros c Hc.
      eapply kickoff_leb_trans; eassumption.
Qed.

(** Stability: the fixtures that kick off at one time keep their order. *)
Lemma sort_insert_stable (t : Z) (x : value) (l : list value) :
  kickoff_known x = true ->
  Forall (fun a => kickoff_known a = true) l ->
  List.filter (kicks_off_at t) (sort_insert x l) = List.filter (kicks_off_at t) (x :: l).
Proof.
  intros Hx Hl. induction Hl as [|y rest Hky Hrest IH]; [reflexivity|].
  cbn [sort_insert].
  destruct (SortCompare_known y x Hky Hx) as (ty & tx & Ey & Ex & ->).
  destruct (ty - tx <? 0) eqn:Hlt; [|reflexivity].
  apply Z.ltb_lt in Hlt.
  assert (Kx : kicks_off_at t x = (tx =? t)) by (unfold kicks_off_at; rewrite Ex; reflexivity).
  assert (Ky : kicks_off_at t y = (ty =? t)) by (unfold kicks_off_at; rewrite Ey; reflexivity).
  cbn [List.filter] in *. rewrite IH, !Kx, !Ky.
  destruct (tx =? t) eqn:E1, (ty =? t) eqn:E2; try reflexivity.
  apply Z.eqb_eq in E1, E2. lia.
Qed.

Lemma sortByKickoff_stable (t : Z) (l : list value) :
  Forall (fun a => kickoff_known a = true) l ->
  List.filter (kicks_off_at t) (sortByKickoff l) = List.filter (kicks_off_at t) l.
Proof.
  induction 1 as [|x rest Hx Hrest IH]; [reflexivity|].
  cbn [sortByKickoff fold_right]. fold (sortByKickoff rest).
  rewrite sort_insert_stable; [|exact Hx|apply sortByKickoff_known; exact Hrest].
  cbn [List.filter]. rewrite IH. reflexivity.
Qed.

End SortFacts.

(** C5. On fixtures whose kickoff_utc is missing, [null] or a date the
    runtime parses, [sortByKickoff] returns the same fixtures in ascending
    order of kickoff time, a missing or [null] kickoff_utc counting as time
    0 (so before every kickoff after the epoch); fixtures with the same
    kickoff keep their relative order. *)
Theorem sortByKickoff_ascending {rt : Runtime} (l : list value) :
  Forall (fun a => kickoff_known a = true) l ->
  Permutation l (sortByKickoff l)
  /\ StronglySorted (fun a b => kickoff_leb a b = true) (sortByKickoff l)
  /\ (forall a : value, nullish (opt_prop a "kickoff_utc") = true -> kickoff_time a = Some 0)
  /\ (forall t : Z,
        List.filter (kicks_off_at t) (sortByKickoff l) = List.filter (kicks_off_at t) l).
Proof.
  intros Hl. split; [apply sortByKickoff_perm|]. split; [|split].
  - induction Hl as [|x rest Hx Hrest IH]; [constructor|].
    cbn [sortByKickoff fold_right]. fold (sortByKickoff rest).
    apply sort_insert_sorted; [exact Hx| |exact IH].
    apply sortByKickoff_known. exact Hrest.
  - intros a Ha. apply kickoff_time_missing.
    destruct (opt_prop a "kickoff_utc"); try discriminate Ha; reflexivity.
  - intros t. apply sortByKickoff_stable. exact Hl.
Qed.

(** The specification's example: kickoffs 18:00, null, 12:00 (and a fixture
    without the field) come out as null, missing, 12:00, 18:00. *)
Lemma sortByKickoff_ascending_example :
  Forall (fun a => kickoff_known a = true) example_fixtures
  /\ sortByKickoff example_fixtures =
     [fixture_at 2 VNull;
      VObj [("id", VNum (of_Z 4))];
      fixture_at 3 (VStr "2025-01-01T12:00:00Z");
      fixture_at 1 (VStr "2025-01-01T18:00:00Z")]
  /\ StronglySorted (fun a b => kickoff_leb a b = true) (sortByKickoff example_fixtures).
Proof.
  assert (H : Forall (fun a => kickoff_known a = true) example_fixtures).
  { repeat constructor. }
  split; [exact H|]. split; [reflexivity|].
  exact (proj1 (proj2 (sortByKickoff_ascending example_fixtures H))).
Defined.

(** ** Calendar arithmetic *)

Lemma all_from_spec (f : Z -> bool) (n : nat) (z : Z) :
  all_from n z f = true -> forall k, z <= k < z + Z.of_nat n -> f k = true.
Proof.
  revert z. induction n as [|n IH]; intros z H k Hk; [lia|].
  cbn [all_from] in H. apply andb_prop in H as [Hz Hrest].
  destruct (Z.eq_dec k z) as [->|Hne]; [exact Hz|].
  apply (IH (z + 1) Hrest). lia.
Qed.

(** One 400-year era, checked day by day. *)
Lemma civil_roundtrip_era (z : Z) :
  -719468 <= z < -719468 + 146097 -> civil_roundtrip z = true.
Proof.
  intros Hz. apply (all_from_spec civil_roundtrip (Z.to_nat 146097) (-719468)); [|lia].
  vm_compute. reflexivity.
Qed.

Lemma civil_from_days_shift (z k : Z) :
  civil_from_days (z + 146097 * k) =
  let '(y, m, d) := civil_from_days z in (y + 400 * k, m, d).
Proof.
  unfold civil_from_days.
  replace (z + 146097 * k + 719468) with (z + 719468 + k * 146097) by lia.
  rewrite Z.div_add by lia.
  replace (z + 719468 + k * 146097 - ((z + 719468) / 146097 + k) * 146097)
    with (z + 719468 - (z + 719468) / 146097 * 146097) by lia.
  cbv zeta. f_equal. f_equal. lia.
Qed.

Lemma days_from_civil_shift (y m d k : Z) :
  days_from_civil (y + 400 * k) m d = days_from_civil y m d + 146097 * k.
Proof.
  unfold days_from_civil.
  replace (y + 400 * k - (if m <=? 2 then 1 else 0))
    with (y - (if m <=? 2 then 1 else 0) + k * 400) by lia.
  rewrite Z.div_add by lia. cbv zeta.
  replace (y - (if m <=? 2 then 1 else 0) + k * 400
           - ((y - (if m <=? 2 then 1 else 0)) / 400 + k) * 400)
    with (y - (if m <=? 2 then 1 else 0)
          - (y - (if m <=? 2 then 1 else 0)) / 400 * 400) by lia.
  lia.
Qed.

Lemma era_split (z : Z) : exists z0 k, z = z0 + 146097 * k /\ -719468 <= z0 < -719468 + 146097.
Proof.
  exists (z - 146097 * ((z + 719468) / 146097)), ((z + 719468) / 146097).
  pose proof (Z.div_mod (z + 719468) 146097 ltac:(lia)).
  pose proof (Z.mod_pos_bound (z + 719468) 146097 ltac:(lia)). lia.
Qed.

Lemma civil_roundtrip_shift (z0 k : Z) :
  civil_roundtrip z0 = true -> civil_roundtrip (z0 + 146097 * k) = true.
Proof.
  unfold civil_roundtrip. rewrite civil_from_days_shift.
  destruct (civil_from_days z0) as [[y m] d].
  rewrite days_from_civil_shift.
  rewrite !andb_true_iff, !Z.eqb_eq. intros ((((H1 & H2) & H3) & H4) & H5).
  repeat split; try assumption. lia.
Qed.

Lemma civil_roundtrip_all (z : Z) : civil_roundtrip z = true.
Proof.
  destruct (era_split z) as (z0 & k & -> & Hr).
  apply civil_roundtrip_shift, civil_roundtrip_era, Hr.
Qed.

Lemma civil_from_days_spec (z y m d : Z) :
  civil_from_days z = (y, m, d) ->
  days_from_civil y m d = z /\ 1 <= m <= 12 /\ 1 <= d <= 31.
Proof.
  intros E. generalize (civil_roundtrip_all z).
  unfold civil_roundtrip. rewrite E.
  intros H.
  apply andb_prop in H as [H H5]. apply andb_prop in H as [H H4].
  apply andb_prop in H as [H H3]. apply andb_prop in H as [H H2].
  apply Z.eqb_eq in H. apply Z.leb_le in H2, H3, H4, H5.
  repeat split; assumption.
Qed.

Lemma year_after_epoch (z : Z) : 0 <= z -> 1600 <= fst (fst (civil_from_days z)).
Proof.
  intros Hz. unfold civil_from_days. cbv zeta. cbn [fst].
  set (era := (z + 719468) / 146097).
  set (doe := z + 719468 - era * 146097).
  assert (He : 4 <= era) by (unfold era; apply Z.div_le_lower_bound; lia).
  assert (Hd : 0 <= doe < 146097).
  { unfold doe, era. pose proof (Z.div_mod (z + 719468) 146097 ltac:(lia)).
    pose proof (Z.mod_pos_bound (z + 719468) 146097 ltac:(lia)). lia. }
  assert (0 <= (doe - doe / 1460 + doe / 36524 - doe / 146096) / 365).
  { apply Z.div_pos; [|lia].
    pose proof (Z.div_le_upper_bound doe 1460 doe ltac:(lia) ltac:(lia)).
    pose proof (Z.div_pos doe 36524 ltac:(lia) ltac:(lia)).
    assert (doe / 146096 <= 1) by (apply Z.div_le_upper_bound; lia).
    assert (doe / 146096 = 1 -> 1 <= doe / 36524).
    { intros E. apply Z.div_le_lower_bound; [lia|].
      pose proof (Z.mul_div_le doe 146096 ltac:(lia)). lia. }
    lia. }
  destruct (_ <=? 2); lia.
Qed.


Lemma MakeDay_days_later (y m d i : Z) :
  1 <= m <= 12 -> MakeDay y (m - 1) (d + i) = days_from_civil y m d + i.
Proof.
  intros Hm. unfold MakeDay.
  rewrite Z.div_small, Z.mod_small by lia.
  replace (m - 1 + 1) with m by lia.
  unfold days_from_civil. rewrite Z.add_0_r. lia.
Qed.

Lemma Day_bounds (t : Z) : Day t * msPerDay <= t < Day t * msPerDay + msPerDay.
Proof.
  unfold Day, msPerDay.
  pose proof (Z.div_mod t 86400000 ltac:(lia)).
  pose proof (Z.mod_pos_bound t 86400000 ltac:(lia)). lia.
Qed.

(** The date that is [i] days after the UTC date of [t], as the upcoming
    loop builds it, is the UTC midnight of day [Day t + i]. *)
Lemma Date_UTC_days_later (t i : Z) :
  sane_clock t -> 0 <= i <= 14 ->
  Date_UTC (getUTCFullYear t) (getUTCMonth t) (getUTCDate t + i)
  = Some ((Day t + i) * msPerDay).
Proof.
  intros [Ht0 Ht1] Hi.
  pose proof (Day_bounds t) as HD.
  assert (HD0 : 0 <= Day t) by (unfold msPerDay in *; lia).
  pose proof (year_after_epoch (Day t) HD0) as Hy.
  unfold Date_UTC, getUTCFullYear, getUTCMonth, getUTCDate.
  destruct (civil_from_days (Day t)) as [[y m] d] eqn:E. cbn [fst snd] in Hy |- *.
  destruct (civil_from_days_spec _ _ _ _ E) as (Hrt & Hm & Hd).
  replace ((0 <=? y) && (y <=? 99)) with false
    by (symmetry; apply andb_false_iff; right; apply Z.leb_gt; lia).
  rewrite MakeDay_days_later, Hrt by exact Hm.
  unfold TimeClip.
  replace (Z.abs ((Day t + i) * msPerDay) <=? 8640000000000000) with true; [reflexivity|].
  symmetry. apply Z.leb_le. unfold msPerDay in *. lia.
Qed.

(** The Date of tomorrow's handler: a day later, same time of day. *)
Lemma setUTCDate_tomorrow (t : Z) :
  sane_clock t -> setUTCDate t (getUTCDate t + 1) = Some (t + msPerDay).
Proof.
  intros [Ht0 Ht1].
  pose proof (Day_bounds t) as HD.
  unfold setUTCDate, getUTCFullYear, getUTCMonth, getUTCDate.
  destruct (civil_from_days (Day t)) as [[y m] d] eqn:E. cbn [fst snd].
  destruct (civil_from_days_spec _ _ _ _ E) as (Hrt & Hm & Hd).
  rewrite MakeDay_days_later, Hrt by exact Hm.
  assert (Ht : (Day t + 1) * msPerDay + TimeWithinDay t = t + msPerDay).
  { unfold Day, TimeWithinDay, msPerDay.
    pose proof (Z.div_mod t 86400000 ltac:(lia)). lia. }
  rewrite Ht. unfold TimeClip.
  replace (Z.abs (t + msPerDay) <=? 8640000000000000) with true; [reflexivity|].
  symmetry. apply Z.leb_le. unfold msPerDay in *. lia.
Qed.

(** *** The date in the URL is the calendar date *)

Lemma append_assoc (a b c : string) : (a +:+ b) +:+ c = a +:+ (b +:+ c).
Proof.
  induction a as [|x a IH]; [reflexivity|].
  change (String x ((a +:+ b) +:+ c) = String x (a +:+ (b +:+ c))).
  f_equal. exact IH.
Qed.

Lemma length_append (a b : string) :
  String.length (a +:+ b) = (String.length a + String.length b)%nat.
Proof.
  induction a as [|x a IH]; [reflexivity|].
  change (S (String.length (a +:+ b)) = S (String.length a + String.length b)).
  f_equal. exact IH.
Qed.

Lemma substring_prefix (a b : string) :
  String.substring 0 (String.length a) (a +:+ b) = a.
Proof.
  induction a as [|x a IH].
  - destruct b; reflexivity.
  - change (String x (String.substring 0 (String.length a) (a +:+ b)) = String x a).
    f_equal. exact IH.
Qed.

Lemma pad_4_fits (y : Z) : 0 <= y <= 9999 -> String.length (pad 4 y) = 4%nat.
Proof.
  intros Hy. apply Nat.eqb_eq.
  apply (all_from_spec (pad_fits 4) (Z.to_nat 10000) 0); [vm_compute; reflexivity|lia].
Qed.

Lemma pad_2_fits (n : Z) : 1 <= n <= 31 -> String.length (pad 2 n) = 2%nat.
Proof.
  intros Hn. apply Nat.eqb_eq.
  apply (all_from_spec (pad_fits 2) (Z.to_nat 31) 1); [vm_compute; reflexivity|lia].
Qed.

(** For the years that are written with four digits, the date that
    [toISOString().slice(0, 10)] gives for a day is its year, month and day
    of the month. *)
Lemma utc_date_calendar (day y m d : Z) :
  civil_from_days day = (y, m, d) -> 0 <= y <= 9999 ->
  utc_date day = pad 4 y +:+ "-" +:+ pad 2 m +:+ "-" +:+ pad 2 d.
Proof.
  intros E Hy. destruct (civil_from_days_spec _ _ _ _ E) as (_ & Hm & Hd).
  unfold utc_date, slice_0_10, iso_string, getUTCFullYear, getUTCMonth, getUTCDate.
  replace (Day (day * msPerDay)) with day
    by (unfold Day, msPerDay; rewrite Z.div_mul; lia).
  rewrite E. cbn [fst snd].
  replace ((0 <=? y) && (y <=? 9999)) with true
    by (symmetry; apply andb_true_iff; split; apply Z.leb_le; lia).
  replace (m - 1 + 1) with m by lia.
  set (rest := "T" +:+ _).
  replace (pad 4 y +:+ "-" +:+ pad 2 m +:+ "-" +:+ pad 2 d +:+ rest)
    with ((pad 4 y +:+ "-" +:+ pad 2 m +:+ "-" +:+ pad 2 d) +:+ rest)
    by (rewrite !append_assoc; reflexivity).
  assert (Hlen : String.length (pad 4 y +:+ "-" +:+ pad 2 m +:+ "-" +:+ pad 2 d) = 10%nat).
  { rewrite !length_append, pad_4_fits, !pad_2_fits by lia. reflexivity. }
  rewrite <- Hlen at 1. apply substring_prefix.
Qed.

(** ** The handlers: what runs between a miss and the put *)

Section HandlerFacts.
Context {rt : Runtime} (env : Env).

Lemma bind_assoc {A B C} (c : M A) (f : A -> M B) (g : B -> M C) (w : world) :
  bind (bind c f) g w = bind c (fun a => bind (f a) g) w.
Proof. unfold bind. destruct (c w) as [[a|e|] w1]; reflexivity. Qed.

Lemma bind_ext {A B} (c : M A) (f g : A -> M B) (w : world) :
  (forall a w', f a w' = g a w') -> bind c f w = bind c g w.
Proof. intros H. unfold bind. destruct (c w) as [[a|e|] w1]; [apply H|reflexivity..]. Qed.

Lemma fetch_then {B} (url : string) (k : value -> M B) (w : world) :
  bind (request env url) (fun res => bind (body_json res) k) w
  = bind (fetch_json env url) k w.
Proof. unfold fetch_json. rewrite bind_assoc. reflexivity. Qed.

Lemma assembling_ext {A} (c1 c2 : M A) :
  (forall w, c1 w = c2 w) -> assembling env c1 -> assembling env c2.
Proof.
  intros E H w. destruct (H w) as (Hm & new & Hf & Hrl & Hok).
  rewrite <- !E. split.
  - intros m. rewrite <- E. apply Hm.
  - exists new. auto.
Qed.

Lemma assembling_pure {A} (c : outcome A) : assembling env (lift c).
Proof.
  intros w. split; [reflexivity|]. exists []. cbn. rewrite app_nil_r.
  repeat split; constructor.
Qed.

Lemma assembling_ret {A} (a : A) : assembling env (ret a).
Proof. apply (assembling_pure (Ok a)). Qed.

Lemma assembling_Date_now : assembling env Date_now.
Proof.
  intros w. split; [reflexivity|]. exists []. cbn. rewrite app_nil_r.
  repeat split; constructor.
Qed.

Lemma assembling_bind {A B} (c : M A) (k : A -> M B) :
  assembling env c -> (forall a, assembling env (k a)) -> assembling env (bind c k).
Proof.
  intros Hc Hk w. destruct (Hc w) as (Hm & new & Hf & Hrl & Hok).
  unfold bind.
  destruct (c w) as [[a|e|] w1] eqn:E; cbn [fst snd] in *.
  - destruct (Hk a w1) as (Hm2 & new2 & Hf2 & Hrl2 & Hok2). split.
    + intros m. rewrite Hm. apply Hm2.
    + exists (new ++ new2)%list. split; [rewrite Hf2, Hf, app_assoc; reflexivity|].
      split.
      * destruct new2 as [|x new2'].
        -- rewrite app_nil_r. exact Hrl.
        -- rewrite removelast_app by discriminate.
           apply Forall_app. split; [apply (Hok a); reflexivity|exact Hrl2].
      * intros b Hb. apply Forall_app. split; [apply (Hok a); reflexivity|].
        apply (Hok2 b). exact Hb.
  - split; [intros m; rewrite Hm; reflexivity|].
    exists new. repeat split; auto. discriminate.
  - split; [intros m; rewrite Hm; reflexivity|].
    exists new. repeat split; auto. discriminate.
Qed.

Lemma assembling_fetch_json (url : string) : assembling env (fetch_json env url).
Proof.
  intros w. unfold fetch_json, bind, request, body_json, ret, throw.
  cbn [clock with_cache cache fetched].
  destruct (answer (upstream env (clock w) url)) as [|st [v|]] eqn:E; cbn [fst snd].
  - split; [reflexivity|]. exists [(clock w, url)]. cbn.
    repeat split; [constructor|discriminate].
  - split; [reflexivity|]. exists [(clock w, url)]. cbn.
    repeat split; [constructor|]. intros _ _. repeat constructor.
    exists st, v. exact E.
  - split; [reflexivity|]. exists [(clock w, url)]. cbn.
    repeat split; [constructor|discriminate].
Qed.

Lemma assembling_upcoming_loop (fuel : nat) (today : Z) (days : number) :
  forall (i : Z) (out : list value),
    assembling env (upcoming_loop env fuel today days i out).
Proof.
  induction fuel as [|fuel IH]; intros i out.
  - intros w. split; [reflexivity|]. exists []. cbn. rewrite app_nil_r.
    repeat split; [constructor|discriminate].
  - cbn [upcoming_loop]. destruct (number_ltb (of_Z i) days); [|apply assembling_ret].
    apply assembling_bind; [apply assembling_pure|]. intros iso.
    eapply assembling_ext; [intros w; symmetry; apply fetch_then|].
    apply assembling_bind; [apply assembling_fetch_json|]. intros raw.
    apply assembling_bind; [apply assembling_pure|]. intros fixtures.
    apply IH.
Qed.

Lemma assembling_day_response (date : string) : assembling env (day_response env date).
Proof.
  unfold day_response.
  apply assembling_bind; [apply assembling_fetch_json|]. intros raw.
  apply assembling_bind; [apply assembling_pure|]. intros mapped.
  apply assembling_ret.
Qed.

Lemma assembling_assemble (fuel : nat) (e : endpoint) :
  assembling env (assemble env fuel e).
Proof.
  destruct e; cbn [assemble].
  - apply assembling_bind; [apply assembling_Date_now|]. intros now.
    apply assembling_bind; [apply assembling_pure|]. intros iso.
    apply assembling_day_response.
  - apply assembling_bind; [apply assembling_fetch_json|]. intros raw.
    apply assembling_bind; [apply assembling_pure|]. intros mapped.
    apply assembling_ret.
  - apply assembling_day_response.
  - apply assembling_bind; [apply assembling_Date_now|]. intros now.
    apply assembling_bind; [apply assembling_pure|]. intros iso.
    apply assembling_day_response.
  - apply assembling_bind; [apply assembling_Date_now|]. intros now.
    apply assembling_bind; [apply assembling_upcoming_loop|]. intros out.
    apply assembling_ret.
  - apply assembling_fetch_json.
Qed.

(** Every handler is [read_through] of its key, its TTL and its assembly. *)
Lemma handle_read_through (fuel : nat) (e : endpoint) (w : world) :
  handle env fuel e w
  = read_through (cache_key e) (ttl_of e) (assemble env fuel e) w.
Proof.
  unfold read_through.
  destruct e; cbn [handle cache_key ttl_of assemble];
    unfold fixtures_today, live, fixtures_date, fixtures_tomorrow, fixtures_upcoming,
      matches, day_response;
    apply bind_ext; intros c w1; destruct (truthy c); try reflexivity;
    rewrite ?bind_assoc;
    repeat (apply bind_ext; intros ? ?; rewrite ?bind_assoc);
    try rewrite <- fetch_then;
    repeat (apply bind_ext; intros ? ?; rewrite ?bind_assoc);
    try reflexivity.
Qed.

End HandlerFacts.

(** ** Numbers of days *)

Lemma number_ltb_of_Z (i d : Z) : number_ltb (of_Z i) (of_Z d) = (i <? d).
Proof.
  unfold number_ltb, of_Z, Qcompare, inject_Z, Z.ltb. cbn [Qnum Qden].
  rewrite !Z.mul_1_r. reflexivity.
Qed.

Lemma Math_min_of_Z (a b : Z) : Math_min (of_Z a) (of_Z b) = of_Z (Z.min a b).
Proof.
  unfold Math_min. rewrite number_ltb_of_Z. cbn [of_Z].
  destruct (b <? a) eqn:E; [apply Z.ltb_lt in E|apply Z.ltb_ge in E];
    f_equal; lia.
Qed.

Lemma Math_max_of_Z (a b : Z) : Math_max (of_Z a) (of_Z b) = of_Z (Z.max a b).
Proof.
  unfold Math_max. rewrite number_ltb_of_Z. cbn [of_Z].
  destruct (a <? b) eqn:E; [apply Z.ltb_lt in E|apply Z.ltb_ge in E];
    f_equal; lia.
Qed.

Lemma number_ltb_Fin (a b : Q) : number_ltb (Fin a) (Fin b) = true <-> (a < b)%Q.
Proof.
  unfold number_ltb. rewrite Qlt_alt.
  destruct (Qcompare a b); split; congruence.
Qed.

(** Whatever is asked for, the clamp leaves NaN or a number up to 14. *)
Lemma clamp_at_most_14 (x : number) :
  number_ltb (of_Z 14) (Math_max (of_Z 1) (Math_min (of_Z 14) x)) = false.
Proof.
  destruct x as [|[|]|q]; try reflexivity.
  unfold of_Z, Math_min.
  destruct (number_ltb (Fin q) (Fin (inject_Z 14))) eqn:E1; [|reflexivity].
  unfold Math_max.
  destruct (number_ltb (Fin (inject_Z 1)) (Fin q)) eqn:E2; [|reflexivity].
  apply number_ltb_Fin in E1.
  apply not_true_is_false. intros E3. apply number_ltb_Fin in E3.
  apply (Qlt_irrefl q). eapply Qlt_trans; eassumption.
Qed.

Lemma below_clamped (i : Z) (days : number) :
  number_ltb (of_Z 14) days = false -> number_ltb (of_Z i) days = true -> i < 14.
Proof.
  destruct days as [|[|]|q]; try discriminate.
  intros H14 Hi. apply number_ltb_Fin in Hi.
  destruct (Z_lt_le_dec i 14) as [|Hge]; [assumption|exfalso].
  apply not_true_iff_false in H14. apply H14. apply number_ltb_Fin.
  eapply Qle_lt_trans; [|exact Hi]. rewrite <- Zle_Qle. exact Hge.
Qed.

Lemma truthy_array_length (l : list value) :
  truthy (array_length l) = match l with [] => false | _ => true end.
Proof. destruct l; reflexivity. Qed.

(** ** Reading through the cache *)

Section ReadThroughFacts.
Context {rt : Runtime} (env : Env).

Lemma get_cached (k : string) (w : world) : get k w = (Ok (cached k w), w).
Proof. reflexivity. Qed.

Lemma read_through_hit (k : string) (ttl : Z) (compute : M value) (w : world) :
  truthy (cached k w) = true ->
  read_through k ttl compute w = (Ok (cached k w), w).
Proof.
  intros H. unfold read_through, bind. rewrite get_cached, H. reflexivity.
Qed.

Lemma read_through_miss (k : string) (ttl : Z) (compute : M value) (w : world) :
  truthy (cached k w) = false ->
  read_through k ttl compute w =
  match compute w with
  | (Ok r, w1) => (Ok r, stored k r ttl w1)
  | (Throw e, w1) => (Throw e, w1)
  | (OutOfFuel, w1) => (OutOfFuel, w1)
  end.
Proof.
  intros H. unfold read_through, bind. rewrite get_cached, H.
  destruct (compute w) as [[r|e|] w1]; reflexivity.
Qed.

Lemma fetch_json_run (url : string) (w : world) :
  fetch_json env url w =
  (match answer (upstream env (clock w) url) with
   | Unreachable => Throw NetworkError
   | Response _ (Json v) => Ok v
   | Response _ NotJson => Throw SyntaxError
   end,
   {| cache := cache w;
      clock := clock w + elapsed (upstream env (clock w) url);
      fetched := (fetched w ++ [(clock w, url)])%list |}).
Proof.
  unfold fetch_json, bind, request, body_json, ret, throw.
  destruct (answer (upstream env (clock w) url)) as [|st [v|]]; reflexivity.
Qed.

Lemma score_end (scores : value) : currentScore scores <> OutOfFuel.
Proof. rewrite currentScore_eq. discriminate. Qed.

(** Normalising is pure code without loops of its own: it never runs out of
    fuel. *)
Lemma mapFixture_end (fx : value) : mapFixture fx <> OutOfFuel.
Proof.
  unfold mapFixture, find, replace, prop.
  destruct (or_else (opt_prop fx "participants") (VArr [])); cbn [obind];
    try discriminate.
  destruct (currentScore_total (or_else (opt_prop fx "scores") (VArr []))) as [sc ->].
  cbn [obind].
  destruct (truthy (opt_prop fx "starting_at")); [|discriminate].
  destruct (nullish fx); cbn [obind]; [discriminate|].
  destruct (opt_prop fx "starting_at"); discriminate.
Qed.

Lemma mapM_end (l : list value) : mapM mapFixture l <> OutOfFuel.
Proof.
  induction l as [|x rest IH]; cbn [mapM]; [discriminate|].
  pose proof (mapFixture_end x).
  destruct (mapFixture x); cbn [obind]; try congruence.
  destruct (mapM mapFixture rest); cbn [obind]; congruence.
Qed.

Lemma map_fixtures_end (raw : value) : map_fixtures raw <> OutOfFuel.
Proof.
  unfold map_fixtures, array_map.
  destruct (coalesce (opt_prop raw "data") (VArr [])); try discriminate.
  apply mapM_end.
Qed.

(** With enough fuel the upcoming loop ends: a clamped number of days is at
    most 14, and the counter starts at 0. *)
Lemma upcoming_loop_fuel (today : Z) (days : number) :
  number_ltb (of_Z 14) days = false ->
  forall (fuel : nat) (i : Z) (out : list value) (w : world),
    0 <= i <= 14 -> 15 <= i + Z.of_nat fuel ->
    fst (upcoming_loop env fuel today days i out w) <> OutOfFuel.
Proof.
  intros Hd. induction fuel as [|fuel IH]; intros i out w Hi Hf; [lia|].
  cbn [upcoming_loop].
  destruct (number_ltb (of_Z i) days) eqn:Hlt; [|discriminate].
  pose proof (below_clamped i days Hd Hlt) as Hi14.
  unfold bind at 1. unfold lift at 1, toISOString.
  destruct (Date_UTC _ _ _) as [t|]; cbn [fst]; try discriminate.
  rewrite fetch_then. unfold bind at 1. rewrite fetch_json_run.
  destruct (answer (upstream env (clock w) _)) as [|st [raw|]]; cbn [fst];
    try discriminate.
  unfold bind at 1. unfold lift at 1.
  destruct (map_fixtures raw) as [fixtures|e|] eqn:Em; cbn [fst]; try discriminate.
  - apply IH; lia.
  - exfalso. exact (map_fixtures_end raw Em).
Qed.

Lemma seqZ_S (i : Z) (n : nat) :
  seqZ i (Z.of_nat (S n)) = i :: seqZ (i + 1) (Z.of_nat n).
Proof.
  rewrite seqZ_cons by lia. f_equal. f_equal; lia.
Qed.

(** The upcoming loop on a whole number [d] of days, from turn [i] on with
    [n] turns to go: it asks for the days [i], [i+1], ... in this order, stops
    at the first turn that throws, and when it ends normally it has asked
    for all of them and appended the entries of those that have fixtures. *)
Lemma upcoming_loop_days (today d : Z) :
  sane_clock today -> d <= 14 ->
  forall (n : nat) (i : Z) (out : list value) (fuel : nat) (w : world)
         (r : outcome (list value)) (w' : world),
    0 <= i -> i + Z.of_nat n = d -> (n < fuel)%nat ->
    upcoming_loop env fuel today (of_Z d) i out w = (r, w') ->
    exists new,
      fetched w' = (fetched w ++ new)%list
      /\ map snd new `prefix_of` map (day_url env today) (seqZ i (Z.of_nat n))
      /\ match r with
         | Ok out' =>
             map snd new = map (day_url env today) (seqZ i (Z.of_nat n))
             /\ exists per_day, Forall2 (fetched_fixtures env) new per_day
                  /\ out' = (out ++ schedule_of (Day today + i) per_day)%list
         | Throw _ => True
         | OutOfFuel => False
         end.
Proof.
  intros Hs Hd. induction n as [|n IH]; intros i out fuel w r w' Hi Hn Hf Hrun.
  - destruct fuel as [|fuel]; [lia|]. cbn [upcoming_loop] in Hrun.
    rewrite number_ltb_of_Z in Hrun.
    replace (i <? d) with false in Hrun by (symmetry; apply Z.ltb_ge; lia).
    injection Hrun as <- <-.
    exists []. rewrite app_nil_r.
    split; [reflexivity|]. split; [apply prefix_nil|].
    split; [reflexivity|].
    exists []. split; [constructor|]. cbn [schedule_of]. rewrite app_nil_r. reflexivity.
  - destruct fuel as [|fuel]; [lia|]. cbn [upcoming_loop] in Hrun.
    rewrite number_ltb_of_Z in Hrun.
    replace (i <? d) with true in Hrun by (symmetry; apply Z.ltb_lt; lia).
    rewrite Date_UTC_days_later in Hrun by (try assumption; lia).
    unfold bind at 1 in Hrun. unfold lift at 1, toISOString in Hrun.
    change (slice_0_10 (iso_string ((Day today + i) * msPerDay)))
      with (utc_date (Day today + i)) in Hrun.
    change (fixtures_url env (utc_date (Day today + i)))
      with (day_url env today i) in Hrun.
    rewrite fetch_then in Hrun. unfold bind at 1 in Hrun.
    rewrite fetch_json_run in Hrun.
    rewrite seqZ_S. cbn [map].
    set (w1 := {| cache := cache w;
                  clock := clock w + elapsed (upstream env (clock w) (day_url env today i));
                  fetched := (fetched w ++ [(clock w, day_url env today i)])%list |}) in *.
    destruct (answer (upstream env (clock w) (day_url env today i)))
      as [|st [raw|]] eqn:Ea.
    + injection Hrun as <- <-.
      exists [(clock w, day_url env today i)].
      split; [reflexivity|]. split; [apply prefix_cons, prefix_nil|exact I].
    + unfold bind at 1 in Hrun. unfold lift at 1 in Hrun.
      destruct (map_fixtures raw) as [fixtures|e|] eqn:Em.
      * set (out' := if truthy (array_length fixtures) then _ else out) in Hrun.
        destruct (IH (i + 1) out' fuel w1 r w' ltac:(lia) ltac:(lia) ltac:(lia) Hrun)
          as (new & Hnew & Hpre & Hres).
        exists ((clock w, day_url env today i) :: new).
        split; [rewrite Hnew; unfold w1; cbn [fetched]; rewrite <- app_assoc; reflexivity|].
        split; [cbn [map snd]; apply prefix_cons; exact Hpre|].
        destruct r as [out''| |]; [|exact I|exact Hres].
        destruct Hres as (Hall & per_day & Hfetched & ->).
        split; [cbn [map snd]; rewrite Hall; reflexivity|].
        exists (fixtures :: per_day). split.
        -- constructor; [|exact Hfetched]. exists st, raw. split; assumption.
        -- unfold out'. rewrite truthy_array_length. cbn [schedule_of].
           replace (Day today + (i + 1)) with (Day today + i + 1) by lia.
           destruct fixtures; [reflexivity|].
           rewrite <- app_assoc. reflexivity.
      * injection Hrun as <- <-.
        exists [(clock w, day_url env today i)].
        split; [reflexivity|]. split; [apply prefix_cons, prefix_nil|exact I].
      * exfalso. exact (map_fixtures_end raw Em).
    + injection Hrun as <- <-.
      exists [(clock w, day_url env today i)].
      split; [reflexivity|]. split; [apply prefix_cons, prefix_nil|exact I].
Qed.

(** When the upstream has fixtures to give for each of the days, whenever
    it is asked, the loop ends normally. *)
Lemma upcoming_loop_succeeds (today d : Z) :
  sane_clock today -> d <= 14 ->
  (forall t i : Z, 0 <= i < d ->
     exists fixtures, fetched_fixtures env (t, day_url env today i) fixtures) ->
  forall (n : nat) (i : Z) (out : list value) (fuel : nat) (w : world),
    0 <= i -> i + Z.of_nat n = d -> (n < fuel)%nat ->
    exists out' w', upcoming_loop env fuel today (of_Z d) i out w = (Ok out', w').
Proof.
  intros Hs Hd Hup. induction n as [|n IH]; intros i out fuel w Hi Hn Hf.
  - destruct fuel as [|fuel]; [lia|]. cbn [upcoming_loop].
    rewrite number_ltb_of_Z. replace (i <? d) with false by (symmetry; apply Z.ltb_ge; lia).
    exists out, w. reflexivity.
  - destruct fuel as [|fuel]; [lia|]. cbn [upcoming_loop].
    rewrite number_ltb_of_Z. replace (i <? d) with true by (symmetry; apply Z.ltb_lt; lia).
    rewrite Date_UTC_days_later by (try assumption; lia).
    unfold bind at 1. unfold lift at 1, toISOString.
    change (slice_0_10 (iso_string ((Day today + i) * msPerDay)))
      with (utc_date (Day today + i)).
    change (fixtures_url env (utc_date (Day today + i))) with (day_url env today i).
    rewrite fetch_then. unfold bind at 1. rewrite fetch_json_run.
    destruct (Hup (clock w) i ltac:(lia)) as (fixtures & st & raw & Ha & Hm).
    cbn [fst snd] in Ha. rewrite Ha.
    unfold bind at 1. unfold lift at 1. rewrite Hm.
    apply IH; lia.
Qed.

End ReadThroughFacts.

Section CacheFacts.
Context {rt : Runtime} (env : Env).

Lemma with_cache_same (w : world) : with_cache (cache w) w = w.
Proof. destruct w; reflexivity. Qed.

Lemma assembling_cache {A} (c : M A) (w : world) :
  assembling env c -> cache (snd (c w)) = cache w.
Proof.
  intros H. destruct (H w) as (Hm & _). specialize (Hm (cache w)).
  rewrite with_cache_same in Hm.
  destruct (c w) as [r w1]. cbn [fst snd] in *.
  injection Hm as ->. reflexivity.
Qed.

Lemma day_response_run (date : string) (w : world) :
  day_response env date w =
  (match answer (upstream env (clock w) (fixtures_url env date)) with
   | Unreachable => Throw NetworkError
   | Response _ (Json raw) =>
       match map_fixtures raw with
       | Ok mapped =>
           Ok (VObj [("date_utc", VStr date); ("fixtures", VArr (sortByKickoff mapped))])
       | Throw e => Throw e
       | OutOfFuel => OutOfFuel
       end
   | Response _ NotJson => Throw SyntaxError
   end,
   {| cache := cache w;
      clock := clock w + elapsed (upstream env (clock w) (fixtures_url env date));
      fetched := (fetched w ++ [(clock w, fixtures_url env date)])%list |}).
Proof.
  unfold day_response. unfold bind at 1. rewrite fetch_json_run.
  destruct (answer _) as [|st [raw|]]; try reflexivity.
  unfold bind, lift, ret. destruct (map_fixtures raw); reflexivity.
Qed.

Lemma read_through_miss_fetched (k : string) (ttl : Z) (compute : M value) (w : world) :
  truthy (cached k w) = false ->
  fst (read_through k ttl compute w) = fst (compute w)
  /\ fetched (snd (read_through k ttl compute w)) = fetched (snd (compute w))
  /\ clock (snd (read_through k ttl compute w)) = clock (snd (compute w)).
Proof.
  intros H. rewrite (read_through_miss k ttl compute w H).
  destruct (compute w) as [[r|e|] w1]; repeat split; reflexivity.
Qed.

Lemma cached_stored (k : string) (v : value) (ttl t : Z) (w : world) :
  cached k (at_time t (stored k v ttl w)) = if t <? clock w + ttl then v else VNull.
Proof. unfold cached, at_time, stored. cbn. rewrite lookup_insert_eq. reflexivity. Qed.

(** A handler that finds a truthy value under its key returns it and does
    nothing else. *)
Lemma handle_hit (fuel : nat) (e : endpoint) (w : world) :
  truthy (cached (cache_key e) w) = true ->
  handle env fuel e w = (Ok (cached (cache_key e) w), w).
Proof. intros H. rewrite handle_read_through. apply read_through_hit, H. Qed.


(** The by-date handler on a miss: one request, for the URL that carries the
    date as it came. *)
Lemma fixtures_date_miss (date : string) (w : world) :
  truthy (cached ("fixtures:date:" +:+ date) w) = false ->
  fixtures_date env date w =
  match day_response env date w with
  | (Ok r, w1) => (Ok r, stored ("fixtures:date:" +:+ date) r 60000 w1)
  | (Throw e, w1) => (Throw e, w1)
  | (OutOfFuel, w1) => (OutOfFuel, w1)
  end.
Proof.
  intros H. change (fixtures_date env date) with (handle env 0 (ByDate date)).
  rewrite handle_read_through. apply (read_through_miss _ _ _ _ H).
Qed.

Lemma fixtures_date_miss_fetched (date : string) (w : world) :
  truthy (cached ("fixtures:date:" +:+ date) w) = false ->
  fetched (snd (fixtures_date env date w))
  = (fetched w ++ [(clock w, fixtures_url env date)])%list.
Proof.
  intros H. rewrite (fixtures_date_miss date w H), day_response_run.
  destruct (answer _) as [|st [raw|]]; try reflexivity.
  destruct (map_fixtures raw); reflexivity.
Qed.

End CacheFacts.



(** C9 (amended). The by-date endpoint does not look at the form of its date
    parameter: for every string, conforming to YYYY-MM-DD or not, a request
    that misses the cache issues exactly one upstream fetch, to the URL that
    carries the string as it came, and when the upstream answers with
    fixtures the request succeeds with that string as [date_utc]. *)
Theorem fixtures_date_forwards_any_date {rt : Runtime} (env : Env)
    (date : string) (w : world) :
  truthy (cached ("fixtures:date:" +:+ date) w) = false ->
  fetched (world_after (fixtures_date env date) w)
  = (fetched w ++
     [(clock w,
       API_BASE env +:+ "/fixtures/date/" +:+ date +:+ "?api_token=" +:+ API_KEY env
       +:+ "&include=participants;league;scores&locale=ar")])%list
  /\ (forall (st : Z) (raw : value) (fs : list value),
        answer (upstream env (clock w) (fixtures_url env date)) = Response st (Json raw) ->
        map_fixtures raw = Ok fs ->
        outcome_of (fixtures_date env date) w
        = Ok (VObj [("date_utc", VStr date); ("fixtures", VArr (sortByKickoff fs))])).
Proof.
  intros Hmiss. split.
  - apply (fixtures_date_miss_fetched env date w Hmiss).
  - intros st raw fs Ha Hm. unfold outcome_of.
    rewrite (fixtures_date_miss env date w Hmiss), day_response_run, Ha, Hm. reflexivity.
Qed.

Lemma fixtures_date_forwards_any_date_example :
  is_YYYY_MM_DD "2025-08-27" = true
  /\ fetched (world_after (fixtures_date serving "2025-08-27") cold)
     = [(clock cold,
         "https://api.sportmonks.com/v3/football/fixtures/date/2025-08-27?api_token=KEY&include=participants;league;scores&locale=ar")].
Proof.
  split; [reflexivity|].
  exact (proj1 (fixtures_date_forwards_any_date serving "2025-08-27" cold eq_refl)).
Defined.

(** C9 as stated fails: the date "garbage" is not of the form YYYY-MM-DD, yet
    the request is answered normally and the string has been sent to the
    upstream inside the URL. *)
Lemma fixtures_date_accepts_garbage :
  is_YYYY_MM_DD "garbage" = false
  /\ (exists fixtures,
        outcome_of (fixtures_date serving "garbage") cold
        = Ok (VObj [("date_utc", VStr "garbage"); ("fixtures", VArr fixtures)]))
  /\ fetched (world_after (fixtures_date serving "garbage") cold)
     = [(clock cold,
         "https://api.sportmonks.com/v3/football/fixtures/date/garbage?api_token=KEY&include=participants;league;scores&locale=ar")].
Proof.
  split; [reflexivity|]. split; [|reflexivity].
  eexists. vm_compute. reflexivity.
Qed.

(** ** Failing fetches *)

Section FailureFacts.
Context {rt : Runtime} (env : Env).

Lemma day_response_end (date : string) (w : world) :
  fst (day_response env date w) <> OutOfFuel.
Proof.
  rewrite day_response_run. cbn [fst].
  destruct (answer _) as [|st [raw|]]; try discriminate.
  pose proof (map_fixtures_end raw).
  destruct (map_fixtures raw); congruence.
Qed.

Lemma fetch_json_end (url : string) (w : world) :
  fst (fetch_json env url w) <> OutOfFuel.
Proof.
  rewrite fetch_json_run. cbn [fst].
  destruct (answer _) as [|st [raw|]]; discriminate.
Qed.

(** With fuel for fifteen turns no handler is cut short. *)
Lemma assemble_end (fuel : nat) (e : endpoint) (w : world) :
  (15 <= fuel)%nat -> fst (assemble env fuel e w) <> OutOfFuel.
Proof.
  intros Hf. destruct e; cbn [assemble].
  - apply day_response_end.
  - unfold bind at 1. pose proof (fetch_json_end (inplay_url env) w) as H.
    destruct (fetch_json env (inplay_url env) w) as [[raw|e|] w1]; cbn [fst] in *;
      try congruence.
    unfold bind, lift, ret. pose proof (map_fixtures_end raw).
    destruct (map_fixtures raw); cbn [fst]; congruence.
  - apply day_response_end.
  - unfold bind at 1, Date_now. unfold bind at 1, lift, toISOString.
    destruct (setUTCDate _ _); [apply day_response_end|discriminate].
  - unfold bind at 1, Date_now. unfold bind at 1.
    pose proof (upcoming_loop_fuel env (clock w) (requested_days req)
                  (clamp_at_most_14 _) fuel 0 [] w ltac:(lia) ltac:(lia)) as H.
    destruct (upcoming_loop _ _ _ _ _ _ _) as [[out|e|] w1]; cbn [fst] in *;
      try congruence. discriminate.
  - apply fetch_json_end.
Qed.

End FailureFacts.

(** C8 (amended). A fetch fails when the upstream cannot be reached or its
    body is not JSON.  In every handler, such a failure ends the request with
    an exception and leaves the cache as it was: whenever a handler ends with
    an exception the cache is unchanged; a handler that returns normally has
    had every one of its fetches answered with a JSON body; and no fetch is
    issued after a failed one, so in the multi-day aggregation the first
    failure aborts the remaining days.  (A response with a non-success status
    and a JSON body is not a failure for the code: the handlers never read
    the status code.) *)
Theorem failed_fetch_fails_request {rt : Runtime} (env : Env)
    (fuel : nat) (e : endpoint) (w : world) :
  (15 <= fuel)%nat ->
  exists new : list (Z * string),
    fetched (world_after (handle env fuel e) w) = (fetched w ++ new)%list
    /\ Forall (answered env) (removelast new)
    /\ match outcome_of (handle env fuel e) w with
       | Ok _ => Forall (answered env) new
       | Throw _ => cache (world_after (handle env fuel e) w) = cache w
       | OutOfFuel => False
       end.
Proof.
  intros Hf. unfold world_after, outcome_of. rewrite handle_read_through.
  destruct (truthy (cached (cache_key e) w)) eqn:Hc.
  - rewrite (read_through_hit _ _ _ _ Hc). exists []. cbn [fst snd].
    rewrite app_nil_r. repeat split; constructor.
  - rewrite (read_through_miss _ _ _ _ Hc).
    destruct (assembling_assemble env fuel e w) as (_ & new & Hnew & Hrl & Hok).
    pose proof (assembling_cache env (assemble env fuel e) w
                  (assembling_assemble env fuel e)) as Hcache.
    pose proof (assemble_end env fuel e w Hf) as Hend.
    destruct (assemble env fuel e w) as [[r|ex|] w1]; cbn [fst snd] in *.
    + exists new. repeat split; [exact Hnew|exact Hrl|]. apply (Hok r). reflexivity.
    + exists new. repeat split; assumption.
    + congruence.
Qed.

(** The aggregation over three days with the second day unreachable: the
    request fails, nothing is cached, and the third day is never asked for. *)
Lemma failed_fetch_fails_request_example :
  let run := handle unreachable 15 (Upcoming (days_query (VStr "3"))) in
  outcome_of run cold = Throw NetworkError
  /\ cache (world_after run cold) = cache cold
  /\ map snd (fetched (world_after run cold))
     = [fixtures_url unreachable "2025-08-27"; fixtures_url unreachable "2025-08-28"].
Proof.
  cbv zeta.
  assert (Hout : outcome_of (handle unreachable 15 (Upcoming (days_query (VStr "3")))) cold
                 = Throw NetworkError) by (vm_compute; reflexivity).
  destruct (failed_fetch_fails_request unreachable 15
              (Upcoming (days_query (VStr "3"))) cold ltac:(lia))
    as (new & Hnew & _ & Hres).
  rewrite Hout in Hres.
  split; [exact Hout|]. split; [exact Hres|]. vm_compute. reflexivity.
Defined.

(** C8 as stated fails for a non-success status: the upstream answers the
    request for 2025-08-28 with status 500 and a JSON error body; the
    by-date handler answers normally with no fixtures and caches that, and
    the three-day aggregation returns a schedule from which the day is
    missing as if it had no fixtures. *)
Lemma error_status_is_cached :
  answer (upstream erring (clock cold) (fixtures_url erring "2025-08-28"))
  = Response 500 (Json (VObj [("message", VStr "Server Error")]))
  /\ outcome_of (fixtures_date erring "2025-08-28") cold
     = Ok (VObj [("date_utc", VStr "2025-08-28"); ("fixtures", VArr [])])
  /\ cached "fixtures:date:2025-08-28" (world_after (fixtures_date erring "2025-08-28") cold)
     = VObj [("date_utc", VStr "2025-08-28"); ("fixtures", VArr [])]
  /\ (exists first third,
        outcome_of (fixtures_upcoming erring 15 (days_query (VStr "3"))) cold
        = Ok (VObj [("days", VNum (of_Z 3));
                    ("schedule",
                     VArr [VObj [("date_utc", VStr "2025-08-27"); ("fixtures", first)];
                           VObj [("date_utc", VStr "2025-08-29"); ("fixtures", third)]])])).
Proof.
  split; [reflexivity|]. split; [vm_compute; reflexivity|].
  split; [vm_compute; reflexivity|].
  do 2 eexists. vm_compute. reflexivity.
Qed.

(** ** Falsy cache contents *)

(** The clamp gives NaN or a number from 1 to 14, never an infinity. *)
Lemma clamp_range (x : number) :
  match Math_max (of_Z 1) (Math_min (of_Z 14) x) with
  | NaN => x = NaN
  | Infinity _ => False
  | Fin q => (1 <= q <= 14)%Q
  end.
Proof.
  destruct x as [|[|]|q]; try reflexivity; try (cbn; split; discriminate).
  unfold of_Z, Math_min.
  destruct (number_ltb (Fin q) (Fin (inject_Z 14))) eqn:E1.
  - unfold Math_max.
    destruct (number_ltb (Fin (inject_Z 1)) (Fin q)) eqn:E2.
    + apply number_ltb_Fin in E1, E2. split; apply Qlt_le_weak; assumption.
    + split; discriminate.
  - cbn. split; discriminate.
Qed.

Section MissFacts.
Context {rt : Runtime} (env : Env).

Lemma cached_deleted (k : string) (w : world) :
  cached k (with_cache (delete k (cache w)) w) = VNull.
Proof. unfold cached, with_cache. cbn. rewrite lookup_delete_eq. reflexivity. Qed.

(** A handler whose key holds nothing truthy runs as if the key were absent. *)
Lemma handle_miss_as_absent (fuel : nat) (e : endpoint) (w : world) :
  truthy (cached (cache_key e) w) = false ->
  outcome_of (handle env fuel e) w
  = outcome_of (handle env fuel e) (with_cache (delete (cache_key e) (cache w)) w)
  /\ fetched (world_after (handle env fuel e) w)
     = fetched (world_after (handle env fuel e) (with_cache (delete (cache_key e) (cache w)) w)).
Proof.
  intros Hc. unfold outcome_of, world_after. rewrite !handle_read_through.
  set (w0 := with_cache (delete (cache_key e) (cache w)) w).
  assert (Hc0 : truthy (cached (cache_key e) w0) = false).
  { unfold w0. rewrite cached_deleted. reflexivity. }
  destruct (read_through_miss_fetched (cache_key e) (ttl_of e) (assemble env fuel e) w Hc)
    as (-> & -> & _).
  destruct (read_through_miss_fetched (cache_key e) (ttl_of e) (assemble env fuel e) w0 Hc0)
    as (-> & -> & _).
  destruct (assembling_assemble env fuel e w) as (Hm & _).
  unfold w0. rewrite Hm. split; reflexivity.
Qed.

(** With at least one day to ask for, the first turn of the upcoming loop
    fetches today's fixtures, whatever comes after. *)
Lemma upcoming_loop_first_fetch (fuel : nat) (today : Z) (q : Q)
    (out : list value) (w : world) :
  sane_clock today -> (1 <= q)%Q ->
  exists rest,
    fetched (snd (upcoming_loop env (S fuel) today (Fin q) 0 out w))
    = (fetched w ++ (clock w, day_url env today 0) :: rest)%list.
Proof.
  intros Hs Hq. unfold day_url, utc_date. cbn [upcoming_loop].
  replace (number_ltb (of_Z 0) (Fin q)) with true
    by (symmetry; apply number_ltb_Fin; eapply Qlt_le_trans; [|exact Hq]; reflexivity).
  rewrite Date_UTC_days_later by (try assumption; lia).
  unfold bind at 1. unfold lift at 1, toISOString.
  rewrite fetch_then. unfold bind at 1. rewrite fetch_json_run.
  destruct (answer _) as [|st [raw|]]; try (exists []; reflexivity).
  unfold bind at 1. unfold lift at 1.
  destruct (map_fixtures raw) as [fixtures|ex|]; try (exists []; reflexivity).
  match goal with
  | |- context [upcoming_loop env fuel today (Fin q) ?i ?o ?w1] =>
      destruct (assembling_upcoming_loop env fuel today (Fin q) i o w1)
        as (_ & new & Hnew & _)
  end.
  exists new. rewrite Hnew. cbn [fetched]. rewrite <- app_assoc. reflexivity.
Qed.

(** On a miss every handler fetches anew: the handlers with a single fetch
    issue it, and the upcoming handler fetches today's fixtures first,
    unless its number of days is NaN, when its loop runs no turn. *)
Lemma handle_miss_fetches (fuel : nat) (e : endpoint) (w : world) :
  truthy (cached (cache_key e) w) = false ->
  sane_clock (clock w) ->
  match e with
  | Upcoming req =>
      (1 <= fuel)%nat ->
      match requested_days req with
      | NaN => fetched (world_after (handle env fuel e) w) = fetched w
      | _ => exists rest,
               fetched (world_after (handle env fuel e) w)
               = (fetched w ++ (clock w, day_url env (clock w) 0) :: rest)%list
      end
  | _ => exists url,
           fetched (world_after (handle env fuel e) w) = (fetched w ++ [(clock w, url)])%list
  end.
Proof.
  intros Hc Hs. unfold world_after. rewrite handle_read_through.
  destruct (read_through_miss_fetched (cache_key e) (ttl_of e) (assemble env fuel e) w Hc)
    as (_ & Hf & _).
  destruct e; rewrite Hf; cbn [assemble].
  - eexists. unfold bind at 1, Date_now. unfold bind at 1, lift, toISOString.
    rewrite day_response_run. reflexivity.
  - eexists. unfold bind at 1. rewrite fetch_json_run.
    destruct (answer _) as [|st [raw|]]; try reflexivity.
    unfold bind, lift, ret. destruct (map_fixtures raw); reflexivity.
  - eexists. rewrite day_response_run. reflexivity.
  - eexists. unfold bind at 1, Date_now. rewrite (setUTCDate_tomorrow _ Hs).
    unfold bind at 1, lift, toISOString. rewrite day_response_run. reflexivity.
  - intros Hfuel.
    assert (Hrun : fetched (snd (assemble env fuel (Upcoming req) w))
                   = fetched (snd (upcoming_loop env fuel (clock w) (requested_days req) 0 [] w))).
    { cbn [assemble]. unfold bind, Date_now, ret.
      destruct (upcoming_loop env fuel (clock w) (requested_days req) 0 [] w)
        as [[out|ex|] w1]; reflexivity. }
    cbn [assemble] in Hrun. rewrite Hrun.
    pose proof (clamp_range
                  (Number (coalesce (opt_prop (opt_prop req "query") "days")
                                    (VNum (of_Z 7))))) as Hr.
    fold (requested_days req) in Hr.
    destruct fuel as [|fuel]; [lia|].
    destruct (requested_days req) as [| |q]; [reflexivity|destruct Hr|].
    apply upcoming_loop_first_fetch; [exact Hs|apply Hr].
  - eexists. rewrite fetch_json_run. reflexivity.
Qed.

End MissFacts.

(** C10 (amended). [get] returns [null] for a missing entry and for an
    expired one, and returns the stored value itself for a fresh one, so a
    stored falsy value comes back as that falsy value ([null] only when
    [null] was stored).  Every handler takes a falsy result of [get] for a
    miss: with a falsy value under its key it runs, returns and fetches as it
    does with no entry under the key.  The next request therefore fetches
    anew: the handlers with a single fetch issue it, and the upcoming
    handler fetches today's fixtures first; the one exception is the
    upcoming handler with a number of days that is NaN, whose loop runs no
    turn and which fetches nothing on any miss. *)
Theorem falsy_entry_is_a_miss {rt : Runtime} (env : Env) :
  (forall (k : string) (w : world),
      cache w !! k = None -> outcome_of (get k) w = Ok VNull)
  /\ (forall (k : string) (w : world) (v : CacheEntry),
        cache w !! k = Some v -> exp v <= clock w -> outcome_of (get k) w = Ok VNull)
  /\ (forall (k : string) (w : world) (v : CacheEntry),
        cache w !! k = Some v -> clock w < exp v -> outcome_of (get k) w = Ok (data v))
  /\ (forall (fuel : nat) (e : endpoint) (w : world),
        truthy (cached (cache_key e) w) = false ->
        outcome_of (handle env fuel e) w
        = outcome_of (handle env fuel e) (with_cache (delete (cache_key e) (cache w)) w)
        /\ fetched (world_after (handle env fuel e) w)
           = fetched (world_after (handle env fuel e)
                        (with_cache (delete (cache_key e) (cache w)) w)))
  /\ (forall (fuel : nat) (e : endpoint) (w : world),
        truthy (cached (cache_key e) w) = false ->
        sane_clock (clock w) ->
        match e with
        | Upcoming req =>
            (1 <= fuel)%nat ->
            match requested_days req with
            | NaN => fetched (world_after (handle env fuel e) w) = fetched w
            | _ => exists rest,
                     fetched (world_after (handle env fuel e) w)
                     = (fetched w ++ (clock w, day_url env (clock w) 0) :: rest)%list
            end
        | _ => exists url,
                 fetched (world_after (handle env fuel e) w)
                 = (fetched w ++ [(clock w, url)])%list
        end).
Proof.
  split; [|split; [|split; [|split]]].
  - intros k w H. unfold outcome_of, get. cbn [fst]. rewrite H. reflexivity.
  - intros k w v H Hexp. unfold outcome_of, get. cbn [fst]. rewrite H.
    replace (clock w <? exp v) with false; [reflexivity|].
    symmetry. apply Z.ltb_ge. exact Hexp.
  - intros k w v H Hexp. unfold outcome_of, get. cbn [fst]. rewrite H.
    replace (clock w <? exp v) with true; [reflexivity|].
    symmetry. apply Z.ltb_lt. exact Hexp.
  - apply handle_miss_as_absent.
  - apply handle_miss_fetches.
Qed.

(** The single-match handler after the upstream's body [false] was cached
    under its key: the entry is fresh, [get] gives [false], and the handler
    fetches again.  So does the upcoming handler with [false] under the key
    of its seven days, starting with today's date. *)
Lemma falsy_entry_is_a_miss_example :
  let w := world_after (put "match:7" (VBool false) 3000) cold in
  let w7 := world_after (put "fixtures:upcoming:7" (VBool false) 60000) cold in
  outcome_of (get "match:7") w = Ok (VBool false)
  /\ fetched (world_after (handle serving 15 (Match "7")) w)
     = fetched (world_after (handle serving 15 (Match "7")) cold)
  /\ List.length (fetched (world_after (handle serving 15 (Match "7")) w)) = 1%nat
  /\ exists rest,
       fetched (world_after (handle serving 15 (Upcoming no_query)) w7)
       = (clock cold, fixtures_url serving "2025-08-27") :: rest.
Proof.
  cbv zeta.
  destruct (falsy_entry_is_a_miss serving) as (_ & _ & Hfresh & Hmiss & Hone).
  split; [|split; [|split]].
  - apply (Hfresh "match:7" _ {| exp := clock cold + 3000; data := VBool false |});
      [reflexivity|vm_compute; reflexivity].
  - rewrite (proj2 (Hmiss 15%nat (Match "7")
                      (world_after (put "match:7" (VBool false) 3000) cold) eq_refl)).
    reflexivity.
  - destruct (Hone 15%nat (Match "7")
                (world_after (put "match:7" (VBool false) 3000) cold) eq_refl)
      as [url ->]; [|reflexivity].
    split; vm_compute; discriminate.
  - assert (Hc : truthy (cached (cache_key (Upcoming no_query))
                           (world_after (put "fixtures:upcoming:7" (VBool false) 60000) cold))
                 = false) by (vm_compute; reflexivity).
    assert (Hs : sane_clock
                   (clock (world_after (put "fixtures:upcoming:7" (VBool false) 60000) cold)))
      by (split; vm_compute; discriminate).
    pose proof (Hone 15%nat (Upcoming no_query) _ Hc Hs ltac:(lia)) as H.
    assert (Hd : requested_days no_query = of_Z 7) by (vm_compute; reflexivity).
    rewrite Hd in H. destruct H as [rest H]. exists rest. rewrite H.
    assert (Hu : day_url serving
                   (clock (world_after (put "fixtures:upcoming:7" (VBool false) 60000) cold)) 0
                 = fixtures_url serving "2025-08-27") by (vm_compute; reflexivity).
    rewrite Hu. reflexivity.
Defined.

(** C10 as stated fails in two places.  For a fresh entry that holds
    [false] (or 0, or the empty string) [get] returns that value, not
    [null].  And a request after a falsy value was stored does not always
    fetch: with [false] under the upcoming handler's key for a days
    parameter that is no number, the request misses the cache and fetches
    nothing. *)
Lemma get_returns_stored_falsy_value :
  outcome_of (get "k") (world_after (put "k" (VBool false) 60000) cold) = Ok (VBool false)
  /\ outcome_of (get "k") (world_after (put "k" (VNum (of_Z 0)) 60000) cold)
     = Ok (VNum (of_Z 0))
  /\ outcome_of (get "k") (world_after (put "k" (VStr EmptyString) 60000) cold) = Ok (VStr EmptyString)
  /\ outcome_of (get "missing") cold = Ok VNull
  /\ VBool false <> VNull /\ VNum (of_Z 0) <> VNull /\ VStr EmptyString <> VNull
  /\ cache_key (Upcoming (days_query (VStr "abc"))) = "fixtures:upcoming:NaN"
  /\ fetched (world_after (handle serving 15 (Upcoming (days_query (VStr "abc"))))
                (world_after (put "fixtures:upcoming:NaN" (VBool false) 60000) cold))
     = [].
Proof. repeat split; try (vm_compute; reflexivity); discriminate. Qed.

(** ** The upcoming schedule *)

Section UpcomingFacts.
Context {rt : Runtime} (env : Env).

Lemma fixtures_upcoming_miss (fuel : nat) (req : value) (w : world) :
  truthy (cached (cache_key (Upcoming req)) w) = false ->
  fixtures_upcoming env fuel req w =
  match upcoming_loop env fuel (clock w) (requested_days req) 0 [] w with
  | (Ok out, w1) =>
      (Ok (VObj [("days", VNum (requested_days req)); ("schedule", VArr out)]),
       stored (cache_key (Upcoming req))
         (VObj [("days", VNum (requested_days req)); ("schedule", VArr out)]) 60000 w1)
  | (Throw e, w1) => (Throw e, w1)
  | (OutOfFuel, w1) => (OutOfFuel, w1)
  end.
Proof.
  intros H. change (fixtures_upcoming env fuel req) with (handle env fuel (Upcoming req)).
  rewrite handle_read_through, (read_through_miss _ _ _ _ H). cbn [assemble ttl_of].
  unfold bind at 1, Date_now. unfold bind at 1.
  destruct (upcoming_loop _ _ _ _ _ _ _) as [[out|e|] w1]; reflexivity.
Qed.

Lemma requested_days_whole (req : value) (n : Z) :
  Number (coalesce (opt_prop (opt_prop req "query") "days") (VNum (of_Z 7))) = of_Z n ->
  requested_days req = of_Z (Z.max 1 (Z.min 14 n)).
Proof.
  intros H. unfold requested_days. rewrite H, Math_min_of_Z, Math_max_of_Z. reflexivity.
Qed.

Lemma schedule_of_length (day : Z) (per_day : list (list value)) :
  (List.length (schedule_of day per_day) <= List.length per_day)%nat.
Proof.
  revert day. induction per_day as [|fs rest IH]; intros day; cbn [schedule_of];
    [simpl; lia|].
  specialize (IH (day + 1)). destruct fs; simpl List.length; lia.
Qed.

(** The schedule is the list of all the days in order, each with what was
    fetched for it, from which the days without fixtures are removed. *)
Lemma schedule_of_filter (day : Z) (per_day : list (list value)) :
  schedule_of day per_day =
  map (fun p => schedule_entry (fst p) (snd p))
      (List.filter has_fixtures
         (combine (seqZ day (Z.of_nat (List.length per_day))) per_day)).
Proof.
  revert day. induction per_day as [|fs rest IH]; intros day; [reflexivity|].
  cbn [List.length]. rewrite seqZ_S. cbn [combine List.filter schedule_of].
  rewrite IH. unfold has_fixtures at 1. cbn [snd].
  destruct fs; reflexivity.
Qed.

End UpcomingFacts.

(** C6 (amended). When the days parameter is absent or converts to a whole
    number [n], the upcoming endpoint works with [d = clamp(n, 1, 14)] days,
    7 when the parameter is absent.  A request that misses the cache then
    asks the upstream for the UTC calendar days today, today + 1, ... in this
    order, stops at the first day that throws, and when it answers normally
    it has asked for exactly these [d] days and reports [d] as [days]. *)
Theorem upcoming_day_count {rt : Runtime} (env : Env) (req : value) (n : Z) :
  Number (coalesce (opt_prop (opt_prop req "query") "days") (VNum (of_Z 7))) = of_Z n ->
  let d := Z.max 1 (Z.min 14 n) in
  requested_days req = of_Z d
  /\ (nullish (opt_prop (opt_prop req "query") "days") = true -> d = 7)
  /\ (forall (fuel : nat) (w w' : world) (r : outcome value),
        (15 <= fuel)%nat -> sane_clock (clock w) ->
        truthy (cached (cache_key (Upcoming req)) w) = false ->
        fixtures_upcoming env fuel req w = (r, w') ->
        r <> OutOfFuel
        /\ exists new : list (Z * string),
             fetched w' = (fetched w ++ new)%list
             /\ map snd new `prefix_of` map (day_url env (clock w)) (seqZ 0 d)
             /\ (forall resp : value, r = Ok resp ->
                   map snd new = map (day_url env (clock w)) (seqZ 0 d)
                   /\ Z.of_nat (List.length new) = d
                   /\ opt_prop resp "days" = VNum (of_Z d))).
Proof.
  intros Hn d. pose proof (requested_days_whole req n Hn) as Hd. fold d in Hd.
  split; [exact Hd|]. split.
  - intros Hnull. unfold coalesce in Hn. rewrite Hnull in Hn.
    injection Hn as Hn. unfold d. lia.
  - intros fuel w w' r Hf Hs Hmiss Hrun.
    rewrite (fixtures_upcoming_miss env fuel req w Hmiss), Hd in Hrun.
    destruct (upcoming_loop env fuel (clock w) (of_Z d) 0 [] w) as [r1 w1] eqn:Eloop.
    destruct (upcoming_loop_days env (clock w) d Hs ltac:(unfold d; lia)
                (Z.to_nat d) 0 [] fuel w r1 w1 ltac:(lia) ltac:(unfold d; lia)
                ltac:(unfold d; lia) Eloop) as (new & Hnew & Hpre & Hres).
    replace (Z.of_nat (Z.to_nat d)) with d in * by (unfold d; lia).
    destruct r1 as [out|e|]; [| |contradiction].
    + injection Hrun as <- <-. split; [discriminate|].
      exists new. split; [exact Hnew|]. split; [exact Hpre|].
      intros resp [= <-]. destruct Hres as (Hall & _).
      split; [exact Hall|]. split; [|reflexivity].
      rewrite <- (length_map snd), Hall, length_map, length_seqZ. unfold d. lia.
    + injection Hrun as <- <-. split; [discriminate|].
      exists new. split; [exact Hnew|]. split; [exact Hpre|]. discriminate.
Qed.

(** The clamp at work: days=0 is one day, days=99 is fourteen, no parameter
    is seven, and a cold request for days=99 asks for fourteen days. *)
Lemma upcoming_day_count_example :
  requested_days (days_query (VStr "0")) = of_Z 1
  /\ requested_days (days_query (VStr "99")) = of_Z 14
  /\ requested_days no_query = of_Z 7
  /\ List.length (fetched (world_after (fixtures_upcoming serving 15 (days_query (VStr "99")))
                             cold)) = 14%nat.
Proof.
  assert (H0 : Number (coalesce (opt_prop (opt_prop (days_query (VStr "0")) "query") "days")
                         (VNum (of_Z 7))) = of_Z 0) by (vm_compute; reflexivity).
  assert (H99 : Number (coalesce (opt_prop (opt_prop (days_query (VStr "99")) "query") "days")
                          (VNum (of_Z 7))) = of_Z 99) by (vm_compute; reflexivity).
  split; [exact (proj1 (upcoming_day_count serving (days_query (VStr "0")) 0 H0))|].
  split; [exact (proj1 (upcoming_day_count serving (days_query (VStr "99")) 99 H99))|].
  split; [exact (proj1 (upcoming_day_count serving no_query 7 eq_refl))|].
  destruct (upcoming_day_count serving (days_query (VStr "99")) 99 H99) as (_ & _ & H).
  assert (Hs : sane_clock (clock cold)) by (split; vm_compute; discriminate).
  destruct (H 15%nat cold _ _ ltac:(lia) Hs eq_refl (surjective_pairing _))
    as (_ & new & Hnew & _ & Hok).
  unfold world_after. rewrite Hnew. cbn [fetched cold app].
  assert (Hr : exists resp, fst (fixtures_upcoming serving 15 (days_query (VStr "99")) cold)
                            = Ok resp) by (eexists; vm_compute; reflexivity).
  destruct Hr as [resp Hr]. destruct (Hok resp Hr) as (_ & Hlen & _).
  apply Nat2Z.inj. rewrite Hlen. reflexivity.
Defined.

(** C6 as stated fails on a days parameter that is not a number, and on one
    that is not whole: "abc" gives NaN days, for which no day at all is
    asked, and "2.5" gives 2.5 days, for which three days are asked. *)
Lemma upcoming_days_not_a_number :
  requested_days (days_query (VStr "abc")) = NaN
  /\ fixtures_upcoming serving 15 (days_query (VStr "abc")) cold
     = (Ok (VObj [("days", VNum NaN); ("schedule", VArr [])]),
        stored "fixtures:upcoming:NaN"
          (VObj [("days", VNum NaN); ("schedule", VArr [])]) 60000 cold)
  /\ fetched (world_after (fixtures_upcoming serving 15 (days_query (VStr "abc"))) cold) = []
  /\ requested_days (days_query (VStr "2.5")) = Fin (5 # 2)
  /\ List.length (fetched (world_after (fixtures_upcoming serving 15
                                          (days_query (VStr "2.5"))) cold)) = 3%nat.
Proof. repeat split; vm_compute; reflexivity. Qed.

(** C7 (amended).  When the days parameter is absent or converts to a whole
    number, so that [d = clamp(n, 1, 14)] days are aggregated, a request that
    misses the cache answers normally whenever the upstream has fixtures
    (possibly none) to give for each of the [d] days; and a request that
    answers normally has fetched each of the [d] days once, and its schedule
    is the list of these days in order, each with the sorted fixtures
    fetched for it, from which every day with zero fixtures is left out; the
    schedule has at most [d] entries. *)
Theorem upcoming_schedule_omits_empty_days {rt : Runtime} (env : Env)
    (req : value) (n : Z) (fuel : nat) (w : world) :
  Number (coalesce (opt_prop (opt_prop req "query") "days") (VNum (of_Z 7))) = of_Z n ->
  (15 <= fuel)%nat -> sane_clock (clock w) ->
  truthy (cached (cache_key (Upcoming req)) w) = false ->
  let d := Z.max 1 (Z.min 14 n) in
  let today := Day (clock w) in
  ((forall t i : Z, 0 <= i < d ->
      exists fixtures, fetched_fixtures env (t, day_url env (clock w) i) fixtures) ->
   exists resp w', fixtures_upcoming env fuel req w = (Ok resp, w'))
  /\ (forall (resp : value) (w' : world),
        fixtures_upcoming env fuel req w = (Ok resp, w') ->
        exists (new : list (Z * string)) (per_day : list (list value)),
          fetched w' = (fetched w ++ new)%list
          /\ map snd new = map (day_url env (clock w)) (seqZ 0 d)
          /\ Forall2 (fetched_fixtures env) new per_day
          /\ resp = VObj [("days", VNum (of_Z d));
                          ("schedule", VArr (schedule_of today per_day))]
          /\ schedule_of today per_day
             = map (fun p => schedule_entry (fst p) (snd p))
                   (List.filter has_fixtures (combine (seqZ today d) per_day))
          /\ Z.of_nat (List.length (schedule_of today per_day)) <= d).
Proof.
  intros Hn Hf Hs Hmiss d today.
  pose proof (requested_days_whole req n Hn) as Hd. fold d in Hd.
  split.
  - intros Hup.
    rewrite (fixtures_upcoming_miss env fuel req w Hmiss), Hd.
    destruct (upcoming_loop_succeeds env (clock w) d Hs ltac:(unfold d; lia) Hup
                (Z.to_nat d) 0 [] fuel w ltac:(lia) ltac:(unfold d; lia)
                ltac:(unfold d; lia)) as (out & w1 & ->).
    eauto.
  - intros resp w' Hrun.
    rewrite (fixtures_upcoming_miss env fuel req w Hmiss), Hd in Hrun.
    destruct (upcoming_loop env fuel (clock w) (of_Z d) 0 [] w) as [r1 w1] eqn:Eloop.
    destruct (upcoming_loop_days env (clock w) d Hs ltac:(unfold d; lia)
                (Z.to_nat d) 0 [] fuel w r1 w1 ltac:(lia) ltac:(unfold d; lia)
                ltac:(unfold d; lia) Eloop) as (new & Hnew & Hpre & Hres).
    replace (Z.of_nat (Z.to_nat d)) with d in * by (unfold d; lia).
    destruct r1 as [out|e|]; try discriminate Hrun.
    injection Hrun as <- <-.
    destruct Hres as (Hall & per_day & Hfetched & ->).
    replace (Day (clock w) + 0) with today by (unfold today; lia).
    assert (Hlen : Z.of_nat (List.length per_day) = d).
    { rewrite <- (Forall2_length _ _ _ Hfetched).
      rewrite <- (length_map snd), Hall, length_map, length_seqZ. unfold d. lia. }
    exists new, per_day. cbn [app].
    split; [exact Hnew|]. split; [exact Hall|]. split; [exact Hfetched|].
    split; [reflexivity|]. split.
    + rewrite schedule_of_filter, Hlen. reflexivity.
    + pose proof (schedule_of_length today per_day). lia.
Qed.

(** Three days from 2025-08-27, of which 2025-08-28 has no fixtures: the
    schedule has the first and the third day. *)
Lemma upcoming_schedule_omits_empty_days_example :
  exists per_day : list (list value),
    outcome_of (fixtures_upcoming serving 15 (days_query (VStr "3"))) cold
    = Ok (VObj [("days", VNum (of_Z 3));
                ("schedule", VArr (schedule_of (Day (clock cold)) per_day))])
    /\ Z.of_nat (List.length (schedule_of (Day (clock cold)) per_day)) <= 3
    /\ map (fun e => opt_prop e "date_utc") (schedule_of (Day (clock cold)) per_day)
       = [VStr "2025-08-27"; VStr "2025-08-29"].
Proof.
  assert (Hs : sane_clock (clock cold)) by (split; vm_compute; discriminate).
  assert (H3 : Number (coalesce (opt_prop (opt_prop (days_query (VStr "3")) "query") "days")
                         (VNum (of_Z 7))) = of_Z 3) by (vm_compute; reflexivity).
  destruct (upcoming_schedule_omits_empty_days serving (days_query (VStr "3")) 3 15
              cold H3 ltac:(lia) Hs eq_refl) as (Hruns & Hsched).
  destruct Hruns as (resp & w' & Hrun).
  { intros t i Hi. unfold fetched_fixtures. cbn [fst snd serving upstream answer].
    destruct (contains "/2025-08-28?" (day_url serving (clock cold) i)).
    - exists [], 200, (payload []). split; reflexivity.
    - eexists. exists 200. eexists. split; [reflexivity|]. vm_compute. reflexivity. }
  destruct (Hsched resp w' Hrun) as (new & per_day & _ & _ & _ & Hresp & _ & Hlen).
  exists per_day. unfold outcome_of. rewrite Hrun. cbn [fst].
  assert (Hc : exists a b,
             fst (fixtures_upcoming serving 15 (days_query (VStr "3")) cold)
             = Ok (VObj [("days", VNum (of_Z 3));
                         ("schedule",
                          VArr [VObj [("date_utc", VStr "2025-08-27"); ("fixtures", a)];
                                VObj [("date_utc", VStr "2025-08-29"); ("fixtures", b)]])]))
    by (do 2 eexists; vm_compute; reflexivity).
  destruct Hc as (a & b & Hc). rewrite Hrun in Hc. cbn [fst] in Hc.
  rewrite Hresp in Hc |- *. injection Hc as Hc.
  change (clock cold) with 1756252800000 in *. rewrite Hc.
  split; [reflexivity|]. split; [rewrite <- Hc; exact Hlen|reflexivity].
Defined.

(** C7 as stated fails on a days parameter that is not whole: for days=2.5,
    from 2025-08-29 on, three days are fetched and all three have fixtures,
    so the schedule has 3 entries while [days] is 2.5. *)
Lemma upcoming_schedule_longer_than_days :
  exists e1 e2 e3,
    outcome_of (fixtures_upcoming serving 15 (days_query (VStr "2.5"))) later
    = Ok (VObj [("days", VNum (Fin (5 # 2))); ("schedule", VArr [e1; e2; e3])])
    /\ number_ltb (Fin (5 # 2)) (of_Z (Z.of_nat (List.length [e1; e2; e3]))) = true.
Proof. do 3 eexists. split; vm_compute; reflexivity. Qed.

(** * Further properties of the code *)

(** ** Sorting what is sorted *)

Section MoreSortFacts.
Context {rt : Runtime}.

Lemma sort_insert_head (x : value) (l : list value) :
  kickoff_known x = true ->
  Forall (fun a => kickoff_known a = true) l ->
  Forall (fun y => kickoff_leb x y = true) l ->
  sort_insert x l = x :: l.
Proof.
  intros Hx Hl Hle. destruct l as [|y rest]; [reflexivity|].
  cbn [sort_insert]. inversion Hl as [|? ? Hy _]; subst.
  inversion Hle as [|? ? Hxy _]; subst.
  destruct (SortCompare_known y x Hy Hx) as (ty & tx & Ey & Ex & ->).
  unfold kickoff_leb in Hxy. rewrite Ex, Ey in Hxy. apply Z.leb_le in Hxy.
  replace (ty - tx <? 0) with false; [reflexivity|].
  symmetry. apply Z.ltb_ge. lia.
Qed.

Lemma sortByKickoff_fixed (l : list value) :
  Forall (fun a => kickoff_known a = true) l ->
  StronglySorted (fun a b => kickoff_leb a b = true) l ->
  sortByKickoff l = l.
Proof.
  intros Hl Hs. induction Hs as [|x rest Hs IH Hx]; [reflexivity|].
  inversion Hl as [|? ? Hkx Hrest]; subst.
  cbn [sortByKickoff fold_right]. fold (sortByKickoff rest).
  rewrite (IH Hrest). apply sort_insert_head; assumption.
Qed.

Lemma sortByKickoff_sorted (l : list value) :
  Forall (fun a => kickoff_known a = true) l ->
  StronglySorted (fun a b => kickoff_leb a b = true) (sortByKickoff l).
Proof.
  induction 1 as [|x rest Hx Hrest IH]; [constructor|].
  cbn [sortByKickoff fold_right]. fold (sortByKickoff rest).
  apply sort_insert_sorted; [exact Hx| |exact IH].
  apply sortByKickoff_known. exact Hrest.
Qed.

End MoreSortFacts.

(** X2. Sorting is idempotent on fixtures whose kickoffs can be read: a
    list that is in ascending order of kickoff comes back unchanged, and so
    sorting a sorted list again changes nothing. *)
Theorem sortByKickoff_idempotent {rt : Runtime} (l : list value) :
  Forall (fun a => kickoff_known a = true) l ->
  (StronglySorted (fun a b => kickoff_leb a b = true) l -> sortByKickoff l = l)
  /\ sortByKickoff (sortByKickoff l) = sortByKickoff l.
Proof.
  intros Hl. split; [apply sortByKickoff_fixed; exact Hl|].
  apply sortByKickoff_fixed; [apply sortByKickoff_known|apply sortByKickoff_sorted]; exact Hl.
Qed.

Lemma sortByKickoff_idempotent_example :
  sortByKickoff (sortByKickoff example_fixtures) = sortByKickoff example_fixtures.
Proof.
  apply (sortByKickoff_idempotent example_fixtures). repeat constructor.
Defined.

(** ** The score extractor on joined inputs *)

Section MoreScoreFacts.
Context {rt : Runtime}.

Lemma last_where_app (p : value -> bool) (l1 l2 : list value) :
  last_where p (l1 ++ l2) =
  match last_where p l2 with
  | Some s => Some s
  | None => last_where p l1
  end.
Proof.
  induction l1 as [|x l1 IH]; cbn [app last_where].
  - destruct (last_where p l2); reflexivity.
  - rewrite IH. destruct (last_where p l2); reflexivity.
Qed.

Lemma last_where_filter (p q : value -> bool) (l : list value) :
  (forall s, p s = true -> q s = true) ->
  last_where p (List.filter q l) = last_where p l.
Proof.
  intros Hpq. induction l as [|x l IH]; [reflexivity|].
  cbn [List.filter last_where]. destruct (q x) eqn:Hq.
  - cbn [last_where]. rewrite IH. reflexivity.
  - rewrite IH. destruct (last_where p l); [reflexivity|].
    destruct (p x) eqn:Hp; [|reflexivity].
    rewrite (Hpq x Hp) in Hq. discriminate.
Qed.

End MoreScoreFacts.

(** X3. Later score records override earlier ones also across two batches:
    the score of [l1] followed by [l2] has, for each side, the score of [l2]
    when [l2] has a CURRENT record for that side and the score of [l1]
    otherwise.  Records that are not tagged CURRENT can be left out without
    changing the result. *)
Theorem currentScore_later_batch_wins {rt : Runtime} (l1 l2 : list value) :
  (forall side : string,
     side_score side (l1 ++ l2) =
     match last_where (fun s => is_current s && tagged side s) l2 with
     | Some _ => side_score side l2
     | None => side_score side l1
     end)
  /\ currentScore (VArr (l1 ++ l2)) =
     Ok {| home := match last_where (fun s => is_current s && tagged "home" s) l2 with
                   | Some _ => side_score "home" l2
                   | None => side_score "home" l1
                   end;
           away := match last_where (fun s => is_current s && tagged "away" s) l2 with
                   | Some _ => side_score "away" l2
                   | None => side_score "away" l1
                   end |}
  /\ currentScore (VArr (List.filter is_current l1)) = currentScore (VArr l1).
Proof.
  assert (Hside : forall side : string,
             side_score side (l1 ++ l2) =
             match last_where (fun s => is_current s && tagged side s) l2 with
             | Some _ => side_score side l2
             | None => side_score side l1
             end).
  { intros side. unfold side_score. rewrite last_where_app.
    destruct (last_where _ l2); reflexivity. }
  split; [exact Hside|]. split.
  - rewrite currentScore_eq, !Hside. reflexivity.
  - rewrite !currentScore_eq. unfold side_score.
    rewrite !last_where_filter; [reflexivity| |];
      intros s Hs; apply andb_prop in Hs; tauto.
Qed.

(** ** Normalising one fixture and a batch *)

Section MoreMapFacts.
Context {rt : Runtime}.

Lemma append_Z_truthy (s : string) : truthy (VStr (s +:+ "Z")) = true.
Proof. destruct s; reflexivity. Qed.

Lemma find_participant (side : string) (p : value) :
  falsy_or_array p = true ->
  find (or_else p (VArr []))
       (fun x => strict_eq_str (opt_prop (opt_prop x "meta") "location") side)
  = Ok (participant_of side p).
Proof.
  unfold falsy_or_array, or_else. intros H.
  destruct p; try (apply negb_true_iff in H; rewrite H); try reflexivity.
Qed.

Lemma find_not_array (side : string) (p : value) :
  falsy_or_array p = false ->
  find (or_else p (VArr []))
       (fun x => strict_eq_str (opt_prop (opt_prop x "meta") "location") side)
  = Throw (TypeError "parts.find is not a function").
Proof.
  unfold falsy_or_array, or_else. intros H.
  destruct p; try discriminate H; apply negb_false_iff in H; rewrite H; reflexivity.
Qed.

Lemma kickoff_run (fx : value) :
  falsy_or_string (opt_prop fx "starting_at") = true ->
  (if truthy (opt_prop fx "starting_at") then
     let? at_ := prop fx "starting_at" in
     let? s := replace at_ in Ok (VStr (s +:+ "Z"))
   else Ok VNull) = Ok (kickoff_of (opt_prop fx "starting_at")).
Proof.
  intros Hs. unfold kickoff_of, prop.
  destruct (truthy (opt_prop fx "starting_at")) eqn:Ht.
  - assert (Hn : nullish fx = false) by (destruct fx; try reflexivity; discriminate Ht).
    rewrite Hn. cbn [obind].
    destruct (opt_prop fx "starting_at") as [| | | |s| |];
      try solve [cbn in Hs, Ht; try rewrite Ht in Hs; cbn in Hs; congruence].
    cbn [replace obind]. cbn in Ht. apply negb_true_iff in Ht. rewrite Ht. reflexivity.
  - destruct (opt_prop fx "starting_at") as [| | | |s| |]; try reflexivity;
      try solve [cbn in Hs, Ht; congruence].
    cbn in Ht. apply negb_false_iff in Ht. rewrite Ht. reflexivity.
Qed.

Lemma kickoff_throws (fx : value) :
  falsy_or_string (opt_prop fx "starting_at") = false ->
  (if truthy (opt_prop fx "starting_at") then
     let? at_ := prop fx "starting_at" in
     let? s := replace at_ in Ok (VStr (s +:+ "Z"))
   else Ok VNull) = Throw (TypeError "fx.starting_at.replace is not a function").
Proof.
  intros Hs. unfold prop.
  assert (Ht : truthy (opt_prop fx "starting_at") = true).
  { unfold falsy_or_string in Hs. destruct (opt_prop fx "starting_at");
      try discriminate Hs; apply negb_false_iff in Hs; exact Hs. }
  rewrite Ht.
  assert (Hn : nullish fx = false) by (destruct fx; try reflexivity; discriminate Ht).
  rewrite Hn. cbn [obind].
  destruct (opt_prop fx "starting_at"); try reflexivity. discriminate Hs.
Qed.

(** On a raw fixture whose participants and starting_at have a usable type
    [mapFixture] returns the canonical fixture. *)
Lemma mapFixture_canonical (fx : value) :
  falsy_or_array (opt_prop fx "participants") = true ->
  falsy_or_string (opt_prop fx "starting_at") = true ->
  mapFixture fx = Ok (canonical fx).
Proof.
  intros Hp Hs. unfold mapFixture.
  rewrite !(find_participant _ _ Hp). cbn [obind].
  rewrite currentScore_eq. cbn [obind].
  rewrite (kickoff_run fx Hs). cbn [obind].
  unfold canonical, scores_of.
  assert (Hb : (if truthy (kickoff_of (opt_prop fx "starting_at"))
                then VStr (toLocaleString_ar_Bahrain
                             (new_Date (kickoff_of (opt_prop fx "starting_at"))))
                else VNull)
               = match kickoff_of (opt_prop fx "starting_at") with
                 | VStr k => VStr (toLocaleString_ar_Bahrain (Date_parse k))
                 | _ => VNull
                 end).
  { unfold kickoff_of. destruct (opt_prop fx "starting_at") as [| | | |s| |];
      try reflexivity.
    destruct (String.eqb s EmptyString); [reflexivity|].
    rewrite append_Z_truthy. reflexivity. }
  rewrite Hb.
  destruct (or_else (opt_prop fx "scores") (VArr [])) eqn:Esc;
    unfold or_else in Esc;
    destruct (opt_prop fx "scores") eqn:Eraw; cbn in Esc;
    repeat match type of Esc with
           | (if ?c then _ else _) = _ => destruct c
           end;
    try discriminate Esc; try (injection Esc as <-); reflexivity.
Qed.

Lemma mapM_ok (f : value -> outcome value) (l l' : list value) :
  mapM f l = Ok l' <-> Forall2 (fun x y => f x = Ok y) l l'.
Proof.
  revert l'. induction l as [|x l IH]; intros l'; cbn [mapM].
  - split; [intros [= <-]; constructor|intros H; inversion H; reflexivity].
  - split.
    + destruct (f x) as [y| |] eqn:Ex; cbn [obind]; try discriminate.
      destruct (mapM f l) as [ys| |] eqn:El; cbn [obind]; try discriminate.
      intros [= <-]. constructor; [exact Ex|]. apply IH. reflexivity.
    + intros H. inversion H as [|? y ? ys Hx Hrest]; subst.
      rewrite Hx. cbn [obind]. apply IH in Hrest. rewrite Hrest. reflexivity.
Qed.

Lemma mapM_first_error (f : value -> outcome value) (l1 l2 : list value)
    (x : value) (e : exn) :
  Forall (fun y => exists v, f y = Ok v) l1 -> f x = Throw e ->
  mapM f (l1 ++ x :: l2) = Throw e.
Proof.
  intros H Hx. induction H as [|y l1 [v Hy] _ IH]; cbn [app mapM].
  - rewrite Hx. reflexivity.
  - rewrite Hy. cbn [obind]. rewrite IH. reflexivity.
Qed.

End MoreMapFacts.

(** X4. [mapFixture] returns a fixture exactly when the participants field
    is missing, falsy or an array and the starting_at field is missing,
    falsy or a string, whatever the other fields hold, the scores field
    included; it then returns the canonical fixture, and otherwise it throws
    a TypeError. *)
Theorem mapFixture_returns_iff {rt : Runtime} (fx : value) :
  ((exists cf, mapFixture fx = Ok cf)
   <-> falsy_or_array (opt_prop fx "participants") = true
       /\ falsy_or_string (opt_prop fx "starting_at") = true)
  /\ (forall cf, mapFixture fx = Ok cf -> cf = canonical fx)
  /\ ((exists cf, mapFixture fx = Ok cf) \/ exists what, mapFixture fx = Throw (TypeError what)).
Proof.
  destruct (falsy_or_array (opt_prop fx "participants")) eqn:Hp.
  - destruct (falsy_or_string (opt_prop fx "starting_at")) eqn:Hs.
    + pose proof (mapFixture_canonical fx Hp Hs) as H. rewrite H.
      split; [split; eauto|]. split; [intros cf [= <-]; reflexivity|eauto].
    + assert (H : mapFixture fx = Throw (TypeError "fx.starting_at.replace is not a function")).
      { unfold mapFixture. rewrite !(find_participant _ _ Hp). cbn [obind].
        rewrite currentScore_eq. cbn [obind]. rewrite (kickoff_throws fx Hs). reflexivity. }
      rewrite H. split; [split; [intros [cf Hcf]; discriminate|intros [_ Hf]; discriminate]|].
      split; [intros cf Hcf; discriminate|eauto].
  - assert (H : mapFixture fx = Throw (TypeError "parts.find is not a function")).
    { unfold mapFixture. rewrite (find_not_array _ _ Hp). reflexivity. }
    rewrite H. split; [split; [intros [cf Hcf]; discriminate|intros [Hf _]; discriminate]|].
    split; [intros cf Hcf; discriminate|eauto].
Qed.

Lemma mapFixture_returns_iff_example :
  (exists cf, mapFixture (raw_fixture 1 "2025-08-27 18:00:00") = Ok cf)
  /\ mapFixture (VObj [("scores", VStr "n/a"); ("participants", VNum (of_Z 0))])
     = Ok (canonical (VObj [("scores", VStr "n/a"); ("participants", VNum (of_Z 0))])).
Proof.
  split.
  - apply (proj1 (mapFixture_returns_iff (raw_fixture 1 "2025-08-27 18:00:00"))).
    split; reflexivity.
  - destruct (proj2 (proj1 (mapFixture_returns_iff
                (VObj [("scores", VStr "n/a"); ("participants", VNum (of_Z 0))])))
                (conj eq_refl eq_refl)) as [cf Hcf].
    rewrite Hcf. f_equal.
    exact (proj1 (proj2 (mapFixture_returns_iff _)) cf Hcf).
Defined.

Section KickoffFacts.
Context {rt : Runtime}.

Lemma mapFixture_inv (fx cf : value) :
  mapFixture fx = Ok cf ->
  cf = canonical fx
  /\ falsy_or_array (opt_prop fx "participants") = true
  /\ falsy_or_string (opt_prop fx "starting_at") = true.
Proof.
  intros H.
  destruct (falsy_or_array (opt_prop fx "participants")) eqn:Hp.
  - destruct (falsy_or_string (opt_prop fx "starting_at")) eqn:Hs.
    + rewrite (mapFixture_canonical fx Hp Hs) in H. injection H as <-. auto.
    + unfold mapFixture in H. rewrite !(find_participant _ _ Hp) in H. cbn [obind] in H.
      rewrite currentScore_eq in H. cbn [obind] in H.
      rewrite (kickoff_throws fx Hs) in H. discriminate H.
  - unfold mapFixture in H. rewrite (find_not_array _ _ Hp) in H. discriminate H.
Qed.

Lemma replace_space_T_first (a b : string) :
  has_space a = false -> replace_space_T (a +:+ " " +:+ b) = a +:+ "T" +:+ b.
Proof.
  induction a as [|c a IH]; intros H; [reflexivity|].
  cbn [has_space] in H. apply orb_false_iff in H as [Hc Ha].
  change (String c a +:+ " " +:+ b) with (String c (a +:+ " " +:+ b)).
  cbn [replace_space_T]. rewrite Hc, (IH Ha). reflexivity.
Qed.

Lemma replace_space_T_none (s : string) :
  has_space s = false -> replace_space_T s = s.
Proof.
  induction s as [|c s IH]; intros H; [reflexivity|].
  cbn [has_space] in H. apply orb_false_iff in H as [Hc Hs].
  cbn [replace_space_T]. rewrite Hc, (IH Hs). reflexivity.
Qed.

Lemma kickoff_time_canonical (fx : value) :
  kickoff_time (canonical fx) =
  match kickoff_of (opt_prop fx "starting_at") with
  | VStr k => Date_parse k
  | _ => Some 0
  end.
Proof.
  unfold kickoff_time, canonical.
  change (opt_prop (VObj _) "kickoff_utc") with (kickoff_of (opt_prop fx "starting_at")).
  unfold kickoff_of. destruct (opt_prop fx "starting_at") as [| | | |s| |]; try reflexivity.
  destruct (String.eqb s EmptyString); [reflexivity|].
  unfold or_else. rewrite append_Z_truthy. reflexivity.
Qed.

(** A readable raw fixture maps to a fixture whose kickoff the comparator
    can read. *)
Lemma readable_known (fx : value) :
  readable fx -> mapFixture fx = Ok (canonical fx) /\ kickoff_known (canonical fx) = true.
Proof.
  intros [Hp Hs].
  assert (Hstr : falsy_or_string (opt_prop fx "starting_at") = true).
  { destruct Hs as [Hf|(s & t & -> & _)]; [|reflexivity].
    unfold falsy_or_string. destruct (opt_prop fx "starting_at"); try reflexivity;
      rewrite Hf; reflexivity. }
  split; [apply mapFixture_canonical; assumption|].
  unfold kickoff_known. rewrite kickoff_time_canonical. unfold canonical, kickoff_of.
  destruct Hs as [Hf|(s & t & -> & Ht)].
  - destruct (opt_prop fx "starting_at") as [| | | |s| |]; try reflexivity.
    cbn in Hf. apply negb_false_iff in Hf. rewrite Hf. reflexivity.
  - destruct (String.eqb s EmptyString); [reflexivity|]. rewrite Ht. reflexivity.
Qed.

End KickoffFacts.

(** X5. The kickoff of a canonical fixture: a non-empty string starting_at
    gets its first blank, and only the first, replaced by a T and a Z put
    at its end, and this string is what the kickoff orderer parses as the
    fixture's time; a missing or falsy starting_at gives [null], which the
    orderer takes as time 0. *)
Theorem kickoff_utc_of_starting_at {rt : Runtime} :
  (forall a b : string,
      has_space a = false -> replace_space_T (a +:+ " " +:+ b) = a +:+ "T" +:+ b)
  /\ (forall s : string, has_space s = false -> replace_space_T s = s)
  /\ (forall (fx cf : value) (s : string),
        opt_prop fx "starting_at" = VStr s -> s <> EmptyString ->
        mapFixture fx = Ok cf ->
        opt_prop cf "kickoff_utc" = VStr (replace_space_T s +:+ "Z")
        /\ kickoff_time cf = Date_parse (replace_space_T s +:+ "Z"))
  /\ (forall fx cf : value,
        truthy (opt_prop fx "starting_at") = false ->
        mapFixture fx = Ok cf ->
        opt_prop cf "kickoff_utc" = VNull /\ kickoff_time cf = Some 0).
Proof.
  split; [apply replace_space_T_first|]. split; [apply replace_space_T_none|]. split.
  - intros fx cf s Hs Hne Hcf. destruct (mapFixture_inv fx cf Hcf) as (-> & _ & _).
    rewrite kickoff_time_canonical. unfold canonical.
    change (opt_prop (VObj _) "kickoff_utc") with (kickoff_of (opt_prop fx "starting_at")).
    rewrite Hs. unfold kickoff_of.
    replace (String.eqb s EmptyString) with false; [split; reflexivity|].
    symmetry. apply String.eqb_neq. exact Hne.
  - intros fx cf Hf Hcf. destruct (mapFixture_inv fx cf Hcf) as (-> & _ & _).
    rewrite kickoff_time_canonical. unfold canonical.
    change (opt_prop (VObj _) "kickoff_utc") with (kickoff_of (opt_prop fx "starting_at")).
    unfold kickoff_of. destruct (opt_prop fx "starting_at") as [| | | |s| |];
      try (split; reflexivity).
    cbn in Hf. apply negb_false_iff in Hf. rewrite Hf. split; reflexivity.
Qed.

(** Sportmonks writes "2025-08-27 18:00:00"; a second blank stays. *)
Lemma kickoff_utc_of_starting_at_example :
  replace_space_T "2025-08-27 18:00:00" = "2025-08-27T18:00:00"
  /\ replace_space_T "2025-08-27 18:00:00 CET" = "2025-08-27T18:00:00 CET"
  /\ (forall cf, mapFixture (raw_fixture 1 "2025-08-27 18:00:00") = Ok cf ->
        opt_prop cf "kickoff_utc" = VStr "2025-08-27T18:00:00Z"
        /\ kickoff_time cf = Some 1756317600000).
Proof.
  destruct (@kickoff_utc_of_starting_at node) as (Hfirst & _ & Hmap & _).
  split; [exact (Hfirst "2025-08-27" "18:00:00" eq_refl)|].
  split; [exact (Hfirst "2025-08-27" "18:00:00 CET" eq_refl)|].
  intros cf Hcf.
  exact (Hmap (raw_fixture 1 "2025-08-27 18:00:00") cf "2025-08-27 18:00:00"
           eq_refl ltac:(discriminate) Hcf).
Defined.

(** X6. The second revision's [mapFixture] is the first revision's with the
    league name added: on every input it throws what the first one throws,
    and where the first one returns a fixture it returns that fixture with
    [league_name] put in after [league_id], holding the fixture's
    [league.name], or [null] when that is missing. *)
Theorem mapFixture_adds_league_name {rt : Runtime} (fx : value) :
  mapFixture fx =
  let? cf := Rev1.mapFixture fx in
  Ok (with_league_name (coalesce (opt_prop (opt_prop fx "league") "name") VNull) cf).
Proof.
  unfold mapFixture, Rev1.mapFixture.
  destruct (find _ _) as [h| |]; cbn [obind]; try reflexivity.
  destruct (find _ _) as [a| |]; cbn [obind]; try reflexivity.
  destruct (currentScore _) as [sc| |]; cbn [obind]; try reflexivity.
  destruct (if truthy (opt_prop fx "starting_at") then _ else _) as [k| |];
    cbn [obind]; reflexivity.
Qed.

(** X7. A batch is normalised as a whole or not at all.  Without a [data]
    property ([null] or [undefined]) the batch is empty; with an array, the
    result has one canonical fixture per record, in the order of the
    records, and the first record that throws makes the batch throw what it
    throws; a [data] that is present and not an array, falsy values such as
    0 or [false] included, throws a TypeError. *)
Theorem map_fixtures_all_or_nothing {rt : Runtime} (raw : value) :
  (forall mapped : list value,
      map_fixtures raw = Ok mapped <->
      (nullish (opt_prop raw "data") = true /\ mapped = [])
      \/ exists l, opt_prop raw "data" = VArr l
                   /\ Forall2 (fun x y => mapFixture x = Ok y) l mapped)
  /\ (forall (l1 l2 : list value) (x : value) (e : exn),
        opt_prop raw "data" = VArr (l1 ++ x :: l2) ->
        Forall (fun y => exists v, mapFixture y = Ok v) l1 ->
        mapFixture x = Throw e ->
        map_fixtures raw = Throw e)
  /\ (nullish (opt_prop raw "data") = false ->
      (forall l, opt_prop raw "data" <> VArr l) ->
      map_fixtures raw = Throw (TypeError "map is not a function")).
Proof.
  unfold map_fixtures, coalesce. split; [|split].
  - intros mapped. destruct (opt_prop raw "data") as [| |b|n|s|l|f] eqn:Ed; cbn.
    1,2: split; [intros [= <-]; left; auto
                |intros [[_ ->]|(l & Hl & _)]; [reflexivity|discriminate Hl]].
    1,2,3,5: split; [discriminate
                    |intros [[Hn _]|(l & Hl & _)]; [discriminate Hn|discriminate Hl]].
    rewrite mapM_ok. split.
    + intros H. right. exists l. auto.
    + intros [[Hn _]|(l' & [= <-] & H)]; [discriminate Hn|exact H].
  - intros l1 l2 x e -> Hl1 Hx. cbn. apply mapM_first_error; assumption.
  - intros Hn Hna. destruct (opt_prop raw "data") as [| |b|n|s|l|f];
      try discriminate Hn; try reflexivity.
    exfalso. apply (Hna l). reflexivity.
Qed.

Lemma map_fixtures_all_or_nothing_example :
  map_fixtures (VObj [("message", VStr "Server Error")]) = Ok []
  /\ map_fixtures (VObj [("data", VBool false)]) = Throw (TypeError "map is not a function")
  /\ map_fixtures (payload [raw_fixture 1 "2025-08-27 18:00:00";
                            VObj [("starting_at", VNum (of_Z 5))];
                            VObj [("participants", VStr "none")]])
     = Throw (TypeError "fx.starting_at.replace is not a function").
Proof.
  split; [|split].
  - apply (proj1 (map_fixtures_all_or_nothing (VObj [("message", VStr "Server Error")]))).
    left. split; reflexivity.
  - apply (proj2 (proj2 (map_fixtures_all_or_nothing (VObj [("data", VBool false)]))));
      [reflexivity|intros l; discriminate].
  - apply (proj1 (proj2 (map_fixtures_all_or_nothing _))
             [raw_fixture 1 "2025-08-27 18:00:00"] [VObj [("participants", VStr "none")]]
             (VObj [("starting_at", VNum (of_Z 5))]));
      [reflexivity| |reflexivity].
    constructor; [|constructor]. eexists. vm_compute. reflexivity.
Defined.

Section SortedResponseFacts.
Context {rt : Runtime} (env : Env).

Lemma mapM_readable (l : list value) :
  Forall readable l ->
  mapM mapFixture l = Ok (map canonical l)
  /\ Forall (fun a => kickoff_known a = true) (map canonical l).
Proof.
  induction 1 as [|x l Hx _ [IH1 IH2]]; [split; [reflexivity|constructor]|].
  destruct (readable_known x Hx) as [Hm Hk].
  cbn [mapM map]. rewrite Hm. cbn [obind]. rewrite IH1. cbn [obind].
  split; [reflexivity|constructor; assumption].
Qed.

Lemma handle_miss_run (fuel : nat) (e : endpoint) (w : world) :
  truthy (cached (cache_key e) w) = false ->
  handle env fuel e w =
  match assemble env fuel e w with
  | (Ok r, w1) => (Ok r, stored (cache_key e) r (ttl_of e) w1)
  | (Throw ex, w1) => (Throw ex, w1)
  | (OutOfFuel, w1) => (OutOfFuel, w1)
  end.
Proof. intros H. rewrite handle_read_through. apply read_through_miss, H. Qed.

End SortedResponseFacts.

(** X8. The schedule of a day is sorted.  When a by-date request misses the
    cache and the upstream answers with readable records (participants
    missing or an array, starting_at missing or a date the runtime parses
    once converted), the response carries one canonical fixture per record,
    in ascending order of kickoff, and it is what the cache then holds for
    the date. *)
Theorem by_date_response_sorted {rt : Runtime} (env : Env)
    (date : string) (w : world) (st : Z) (raw : value) (l : list value) :
  truthy (cached ("fixtures:date:" +:+ date) w) = false ->
  answer (upstream env (clock w) (fixtures_url env date)) = Response st (Json raw) ->
  opt_prop raw "data" = VArr l ->
  Forall readable l ->
  let fixtures := sortByKickoff (map canonical l) in
  outcome_of (fixtures_date env date) w
  = Ok (VObj [("date_utc", VStr date); ("fixtures", VArr fixtures)])
  /\ Permutation (map canonical l) fixtures
  /\ List.length fixtures = List.length l
  /\ StronglySorted (fun a b => kickoff_leb a b = true) fixtures
  /\ cached ("fixtures:date:" +:+ date) (world_after (fixtures_date env date) w)
     = VObj [("date_utc", VStr date); ("fixtures", VArr fixtures)].
Proof.
  intros Hmiss Ha Hd Hl fixtures.
  destruct (mapM_readable l Hl) as [Hm Hk].
  assert (Hmap : map_fixtures raw = Ok (map canonical l)).
  { unfold map_fixtures, coalesce. rewrite Hd. exact Hm. }
  assert (Hrun : fixtures_date env date w =
                 (Ok (VObj [("date_utc", VStr date); ("fixtures", VArr fixtures)]),
                  stored ("fixtures:date:" +:+ date)
                    (VObj [("date_utc", VStr date); ("fixtures", VArr fixtures)]) 60000
                    {| cache := cache w;
                       clock := clock w + elapsed (upstream env (clock w)
                                                     (fixtures_url env date));
                       fetched := (fetched w ++ [(clock w, fixtures_url env date)])%list |})).
  { rewrite (fixtures_date_miss env date w Hmiss), day_response_run, Ha, Hmap. reflexivity. }
  unfold outcome_of, world_after. rewrite Hrun. cbn [fst snd].
  split; [reflexivity|]. split; [apply sortByKickoff_perm|].
  split.
  - unfold fixtures. rewrite <- (Permutation_length (sortByKickoff_perm _)).
    apply length_map.
  - split; [apply sortByKickoff_sorted; exact Hk|].
    unfold cached, stored. cbn [cache clock]. rewrite lookup_insert_eq.
    cbn [exp data].
    replace (_ <? _) with true; [reflexivity|]. symmetry. apply Z.ltb_lt. lia.
Qed.

Lemma by_date_response_sorted_example :
  exists fixtures,
    outcome_of (fixtures_date serving "2025-08-27") cold
    = Ok (VObj [("date_utc", VStr "2025-08-27"); ("fixtures", VArr fixtures)])
    /\ map (fun cf => opt_prop cf "kickoff_utc") fixtures
       = [VStr "2025-08-27T12:00:00Z"; VStr "2025-08-27T18:00:00Z"].
Proof.
  eexists. split.
  - refine (proj1 (by_date_response_sorted serving "2025-08-27" cold 200 _
                     [raw_fixture 1 "2025-08-27 18:00:00";
                      raw_fixture 2 "2025-08-27 12:00:00"] eq_refl eq_refl eq_refl _)).
    assert (Hr : forall id s, (exists t, Date_parse (replace_space_T s +:+ "Z") = Some t) ->
                 readable (raw_fixture id s)).
    { intros id s [t Ht]. split; [reflexivity|]. right. exists s, t. split; [reflexivity|exact Ht]. }
    constructor; [|constructor; [|constructor]]; apply Hr; eexists; vm_compute; reflexivity.
  - vm_compute. reflexivity.
Defined.

(** ** The cache entries of the routes *)

Section EntryFacts.
Context {rt : Runtime} (env : Env).

Lemma append_prefix_inj (p a b : string) : p +:+ a = p +:+ b -> a = b.
Proof.
  induction p as [|c p IH]; intros H; [exact H|].
  change (String c (p +:+ a) = String c (p +:+ b)) in H.
  injection H as H. apply IH, H.
Qed.

Lemma handle_miss_ok (fuel : nat) (e : endpoint) (w w' : world) (r : value) :
  truthy (cached (cache_key e) w) = false ->
  handle env fuel e w = (Ok r, w') ->
  exists w1, assemble env fuel e w = (Ok r, w1)
             /\ w' = stored (cache_key e) r (ttl_of e) w1.
Proof.
  intros Hmiss Hrun. rewrite (handle_miss_run env fuel e w Hmiss) in Hrun.
  destruct (assemble env fuel e w) as [[r1|ex|] w1]; try discriminate Hrun.
  injection Hrun as <- <-. eauto.
Qed.

(** Every response but the raw one of the single-match route is an object. *)
Lemma assemble_truthy (fuel : nat) (e : endpoint) (w w1 : world) (r : value) :
  assemble env fuel e w = (Ok r, w1) ->
  match e with Match _ => True | _ => truthy r = true end.
Proof.
  destruct e; cbn [assemble]; try exact (fun _ => I).
  - intros H. change (day_response env (slice_0_10 (iso_string (clock w))) w = (Ok r, w1)) in H.
    rewrite day_response_run in H. destruct (answer _) as [|st [raw|]]; try discriminate H.
    destruct (map_fixtures raw); try discriminate H. injection H as <- _. reflexivity.
  - unfold bind at 1. rewrite fetch_json_run.
    destruct (answer _) as [|st [raw|]]; try discriminate.
    unfold bind, lift, ret. destruct (map_fixtures raw); try discriminate.
    intros [= <- _]. reflexivity.
  - rewrite day_response_run. destruct (answer _) as [|st [raw|]]; try discriminate.
    destruct (map_fixtures raw); try discriminate. intros [= <- _]. reflexivity.
  - unfold bind at 1, Date_now. unfold bind at 1, lift, toISOString.
    destruct (setUTCDate _ _); [|discriminate].
    rewrite day_response_run. destruct (answer _) as [|st [raw|]]; try discriminate.
    destruct (map_fixtures raw); try discriminate. intros [= <- _]. reflexivity.
  - unfold bind at 1, Date_now. unfold bind at 1.
    destruct (upcoming_loop _ _ _ _ _ _ _) as [[out|ex|] w2]; try discriminate.
    unfold ret. intros [= <- _]. reflexivity.
Qed.

Lemma stored_hit (fuel : nat) (e : endpoint) (w1 : world) (r : value) (t : Z) :
  truthy r = true -> t < clock w1 + ttl_of e ->
  handle env fuel e (at_time t (stored (cache_key e) r (ttl_of e) w1))
  = (Ok r, at_time t (stored (cache_key e) r (ttl_of e) w1)).
Proof.
  intros Hr Ht.
  assert (Hc : cached (cache_key e) (at_time t (stored (cache_key e) r (ttl_of e) w1)) = r).
  { rewrite cached_stored. replace (t <? clock w1 + ttl_of e) with true; [reflexivity|].
    symmetry. apply Z.ltb_lt. exact Ht. }
  rewrite handle_hit; rewrite Hc; [reflexivity|exact Hr].
Qed.

End EntryFacts.

(** X9. The routes keep their cache entries apart: two requests use the
    same cache key only when they are requests to the same route with the
    same date, the same match id, or day counts that are written the same
    after clamping.  So no request to one route is answered from what
    another route has stored. *)
Theorem cache_keys_apart {rt : Runtime} (e1 e2 : endpoint) :
  cache_key e1 = cache_key e2 <-> same_entry e1 e2.
Proof.
  destruct e1, e2; cbn [cache_key same_entry]; split; intros H;
    try exact I; try reflexivity; try contradiction;
    try (subst; reflexivity); try (rewrite H; reflexivity);
    try (apply append_prefix_inj in H; exact H);
    try (exfalso; unfold String.append in H; cbn in H; discriminate H).
Qed.

Lemma cache_keys_apart_example :
  cache_key (Upcoming (days_query (VStr "99"))) = cache_key (Upcoming (days_query (VStr "14")))
  /\ cache_key (ByDate "today:simple") <> cache_key Today
  /\ cache_key (Match "7") <> cache_key (ByDate "7").
Proof.
  split; [|split].
  - apply (proj2 (cache_keys_apart _ _)). vm_compute. reflexivity.
  - intros H. exact (proj1 (cache_keys_apart _ _) H).
  - intros H. exact (proj1 (cache_keys_apart _ _) H).
Defined.

(** X10. A handler writes no cache entry but its own and removes none: after
    any request, successful or not, every other key holds what it held
    before, and every key that had an entry still has one. *)
Theorem handlers_write_own_key {rt : Runtime} (env : Env)
    (fuel : nat) (e : endpoint) (w : world) :
  (forall k : string,
      k <> cache_key e ->
      cache (world_after (handle env fuel e) w) !! k = cache w !! k)
  /\ (forall k : string,
        is_Some (cache w !! k) ->
        is_Some (cache (world_after (handle env fuel e) w) !! k)).
Proof.
  unfold world_after.
  pose proof (assembling_cache env (assemble env fuel e) w
                (assembling_assemble env fuel e)) as Hc.
  destruct (truthy (cached (cache_key e) w)) eqn:Hhit.
  - rewrite (handle_hit env fuel e w Hhit). cbn [snd]. auto.
  - rewrite (handle_miss_run env fuel e w Hhit).
    destruct (assemble env fuel e w) as [[r|ex|] w1]; cbn [fst snd] in *;
      try (rewrite Hc; auto).
    unfold stored. cbn [cache]. rewrite Hc. split.
    + intros k Hk. apply lookup_insert_ne. congruence.
    + intros k Hk. destruct (decide (k = cache_key e)) as [->|Hne].
      * rewrite lookup_insert_eq. eauto.
      * rewrite lookup_insert_ne by congruence. exact Hk.
Qed.

Lemma handlers_write_own_key_example :
  let w := world_after (put "match:7" (VStr "raw") 3000) cold in
  cache (world_after (handle serving 15 (ByDate "2025-08-27")) w) !! "match:7"
  = Some {| exp := clock cold + 3000; data := VStr "raw" |}.
Proof.
  cbv zeta.
  rewrite (proj1 (handlers_write_own_key serving 15 (ByDate "2025-08-27") _) "match:7").
  - reflexivity.
  - intros H. unfold cache_key, String.append in H. cbn in H. discriminate H.
Defined.

(** X11. The TTL of each route: 5 s for the live route, 3 s for the
    single-match route, 60 s for the others, counted from the [put].  After
    a request that missed and answered normally, the same request at any
    time before the entry expires gets the same response with nothing
    fetched, and from the expiry on the entry reads as absent.  (The
    responses of all routes but the single-match one are objects, hence
    truthy; the raw payload of the single-match route has to be truthy for
    the hit.) *)
Theorem fresh_entry_is_served {rt : Runtime} (env : Env)
    (fuel : nat) (e : endpoint) (w w' : world) (r : value) :
  truthy (cached (cache_key e) w) = false ->
  handle env fuel e w = (Ok r, w') ->
  match e with Match _ => truthy r = true | _ => True end ->
  truthy r = true
  /\ (forall (fuel' : nat) (t : Z),
        t < clock w' + ttl_of e ->
        handle env fuel' e (at_time t w') = (Ok r, at_time t w'))
  /\ (forall t : Z,
        clock w' + ttl_of e <= t -> cached (cache_key e) (at_time t w') = VNull).
Proof.
  intros Hmiss Hrun Hraw.
  destruct (handle_miss_ok env fuel e w w' r Hmiss Hrun) as (w1 & Hasm & ->).
  assert (Hr : truthy r = true).
  { pose proof (assemble_truthy env fuel e w w1 r Hasm) as H.
    destruct e; assumption. }
  split; [exact Hr|]. split.
  - intros fuel' t Ht. apply stored_hit; assumption.
  - intros t Ht. rewrite cached_stored.
    replace (t <? clock w1 + ttl_of e) with false; [reflexivity|].
    symmetry. apply Z.ltb_ge. exact Ht.
Qed.

(** The live route, asked again 4.9 s and 5 s after its [put]. *)
Lemma fresh_entry_is_served_example :
  let first := handle serving 15 Live cold in
  fst (handle serving 15 Live (at_time (clock (snd first) + 4999) (snd first))) = fst first
  /\ List.length (fetched (snd (handle serving 15 Live
                                  (at_time (clock (snd first) + 4999) (snd first))))) = 1%nat
  /\ List.length (fetched (snd (handle serving 15 Live
                                  (at_time (clock (snd first) + 5000) (snd first))))) = 2%nat.
Proof.
  cbv zeta.
  assert (Hr : exists r, fst (handle serving 15 Live cold) = Ok r)
    by (eexists; vm_compute; reflexivity).
  destruct Hr as [r Hr].
  destruct (fresh_entry_is_served serving 15 Live cold (snd (handle serving 15 Live cold)) r
              eq_refl) as (_ & Hhit & _).
  { rewrite <- Hr. apply surjective_pairing. }
  { exact I. }
  split; [|split].
  - rewrite Hhit, Hr; [reflexivity|]. change (ttl_of Live) with 5000. lia.
  - rewrite Hhit; [vm_compute; reflexivity|]. change (ttl_of Live) with 5000. lia.
  - vm_compute. reflexivity.
Defined.

(** X12. The upcoming route caches by the clamped number of days: after a
    request that missed and answered normally, any request whose days
    parameter clamps to the same number is answered from that entry while it
    is fresh, whatever was written in the parameter. *)
Theorem upcoming_shares_entry {rt : Runtime} (env : Env)
    (fuel fuel' : nat) (req1 req2 : value) (w w' : world) (r : value) (t : Z) :
  requested_days req1 = requested_days req2 ->
  truthy (cached (cache_key (Upcoming req1)) w) = false ->
  fixtures_upcoming env fuel req1 w = (Ok r, w') ->
  t < clock w' + 60000 ->
  fixtures_upcoming env fuel' req2 (at_time t w') = (Ok r, at_time t w').
Proof.
  intros Hd Hmiss Hrun Ht.
  destruct (handle_miss_ok env fuel (Upcoming req1) w w' r Hmiss Hrun) as (w1 & Hasm & ->).
  pose proof (assemble_truthy env fuel (Upcoming req1) w w1 r Hasm) as Hr.
  change (fixtures_upcoming env fuel' req2) with (handle env fuel' (Upcoming req2)).
  replace (cache_key (Upcoming req1)) with (cache_key (Upcoming req2))
    by (cbn [cache_key]; rewrite Hd; reflexivity).
  apply (stored_hit env fuel' (Upcoming req2)); assumption.
Qed.

(** days=99 first; days=14 and days=20 half a minute later. *)
Lemma upcoming_shares_entry_example :
  let first := fixtures_upcoming serving 15 (days_query (VStr "99")) cold in
  let w := at_time (clock cold + 30000) (snd first) in
  fst (fixtures_upcoming serving 15 (days_query (VStr "14")) w) = fst first
  /\ fetched (snd (fixtures_upcoming serving 15 (days_query (VStr "20")) w))
     = fetched (snd first).
Proof.
  cbv zeta.
  assert (Hr : exists r, fst (fixtures_upcoming serving 15 (days_query (VStr "99")) cold) = Ok r)
    by (eexists; vm_compute; reflexivity).
  destruct Hr as [r Hr].
  assert (Ht : clock cold + 30000
               < clock (snd (fixtures_upcoming serving 15 (days_query (VStr "99")) cold)) + 60000)
    by (vm_compute; reflexivity).
  assert (H14 : requested_days (days_query (VStr "99"))
                = requested_days (days_query (VStr "14"))) by (vm_compute; reflexivity).
  assert (H20 : requested_days (days_query (VStr "99"))
                = requested_days (days_query (VStr "20"))) by (vm_compute; reflexivity).
  assert (Hmiss : truthy (cached (cache_key (Upcoming (days_query (VStr "99")))) cold) = false)
    by (vm_compute; reflexivity).
  destruct (fixtures_upcoming serving 15 (days_query (VStr "99")) cold) as [o w1] eqn:Hrun.
  cbn [fst snd] in Hr, Ht |- *. subst o.
  split.
  - rewrite (upcoming_shares_entry serving 15 15 (days_query (VStr "99"))
               (days_query (VStr "14")) cold w1 r _ H14 Hmiss Hrun Ht).
    reflexivity.
  - rewrite (upcoming_shares_entry serving 15 15 (days_query (VStr "99"))
               (days_query (VStr "20")) cold w1 r _ H20 Hmiss Hrun Ht).
    reflexivity.
Defined.


(** ** The upcoming loop on any number of days *)

Lemma below_ceiling (i : Z) (q : Q) :
  number_ltb (of_Z i) (Fin q) = (i <? Qceiling q).
Proof.
  destruct (i <? Qceiling q) eqn:E.
  - apply number_ltb_Fin. apply Z.ltb_lt in E.
    eapply Qle_lt_trans; [|apply Qceiling_lt].
    rewrite <- Zle_Qle. lia.
  - apply not_true_is_false. intros H. apply number_ltb_Fin in H.
    apply Z.ltb_ge in E.
    assert (Hlt : (inject_Z i < inject_Z (Qceiling q))%Q).
    { eapply Qlt_le_trans; [exact H|apply Qle_ceiling]. }
    rewrite <- Zlt_Qlt in Hlt. lia.
Qed.

Section CeilingFacts.
Context {rt : Runtime} (env : Env).

Lemma upcoming_loop_same_turns (days1 days2 : number) (today : Z) :
  (forall i : Z, number_ltb (of_Z i) days1 = number_ltb (of_Z i) days2) ->
  forall (fuel : nat) (i : Z) (out : list value) (w : world),
    upcoming_loop env fuel today days1 i out w = upcoming_loop env fuel today days2 i out w.
Proof.
  intros H. induction fuel as [|fuel IH]; intros i out w; [reflexivity|].
  cbn [upcoming_loop]. rewrite H. destruct (number_ltb (of_Z i) days2); [|reflexivity].
  apply bind_ext. intros iso w1. apply bind_ext. intros res w2.
  apply bind_ext. intros raw w3. apply bind_ext. intros fixtures w4. apply IH.
Qed.

Lemma upcoming_loop_NaN (fuel : nat) (today i : Z) (out : list value) (w : world) :
  upcoming_loop env (S fuel) today NaN i out w = (Ok out, w).
Proof. reflexivity. Qed.

End CeilingFacts.

(** X13. The number of days the upcoming route asks for, for every days
    parameter.  The clamped value is NaN or a number [q] from 1 to 14.  For
    [q], whole or not, a request that misses the cache asks for the days
    today, today + 1, ... up to the smallest whole number of days that is
    not below [q] (three days for 2.5), stopping early only at a day that
    throws, and reports [q] itself as [days].  For NaN it asks for no day
    and answers with an empty schedule. *)
Theorem upcoming_iterates_ceiling {rt : Runtime} (env : Env)
    (req : value) (fuel : nat) (w w' : world) (r : outcome value) :
  (15 <= fuel)%nat -> sane_clock (clock w) ->
  truthy (cached (cache_key (Upcoming req)) w) = false ->
  fixtures_upcoming env fuel req w = (r, w') ->
  match requested_days req with
  | Fin q =>
      (1 <= q <= 14)%Q
      /\ r <> OutOfFuel
      /\ exists new : list (Z * string),
           fetched w' = (fetched w ++ new)%list
           /\ map snd new `prefix_of` map (day_url env (clock w)) (seqZ 0 (Qceiling q))
           /\ (forall resp : value, r = Ok resp ->
                 map snd new = map (day_url env (clock w)) (seqZ 0 (Qceiling q))
                 /\ opt_prop resp "days" = VNum (Fin q))
  | NaN =>
      r = Ok (VObj [("days", VNum NaN); ("schedule", VArr [])])
      /\ fetched w' = fetched w
  | Infinity _ => False
  end.
Proof.
  intros Hf Hs Hmiss Hrun.
  rewrite (fixtures_upcoming_miss env fuel req w Hmiss) in Hrun.
  pose proof (clamp_range
                (Number (coalesce (opt_prop (opt_prop req "query") "days") (VNum (of_Z 7)))))
    as Hrange.
  fold (requested_days req) in Hrange.
  destruct (requested_days req) as [|b|q]; [| |].
  - destruct fuel as [|fuel]; [lia|]. rewrite upcoming_loop_NaN in Hrun.
    injection Hrun as <- <-. split; reflexivity.
  - exact Hrange.
  - split; [exact Hrange|]. destruct Hrange as [H1 H14].
    assert (Hc1 : 1 <= Qceiling q).
    { rewrite Zle_Qle. eapply Qle_trans; [exact H1|apply Qle_ceiling]. }
    assert (Hc14 : Qceiling q <= 14).
    { rewrite <- (Qceiling_Z 14). apply Qceiling_resp_le. exact H14. }
    rewrite (upcoming_loop_same_turns env (Fin q) (of_Z (Qceiling q)) (clock w)) in Hrun
      by (intros i; rewrite below_ceiling, number_ltb_of_Z; reflexivity).
    destruct (upcoming_loop env fuel (clock w) (of_Z (Qceiling q)) 0 [] w)
      as [r1 w1] eqn:Eloop.
    destruct (upcoming_loop_days env (clock w) (Qceiling q) Hs Hc14
                (Z.to_nat (Qceiling q)) 0 [] fuel w r1 w1 ltac:(lia) ltac:(lia)
                ltac:(lia) Eloop) as (new & Hnew & Hpre & Hres).
    replace (Z.of_nat (Z.to_nat (Qceiling q))) with (Qceiling q) in * by lia.
    destruct r1 as [out|ex|]; [| |contradiction].
    + injection Hrun as <- <-. split; [discriminate|].
      exists new. split; [exact Hnew|]. split; [exact Hpre|].
      intros resp [= <-]. destruct Hres as (Hall & _). split; [exact Hall|reflexivity].
    + injection Hrun as <- <-. split; [discriminate|].
      exists new. split; [exact Hnew|]. split; [exact Hpre|]. discriminate.
Qed.

(** days=2.5 asks for three days, days=abc for none. *)
Lemma upcoming_iterates_ceiling_example :
  map snd (fetched (snd (fixtures_upcoming serving 15 (days_query (VStr "2.5")) cold)))
  = map (day_url serving (clock cold)) [0; 1; 2]
  /\ fetched (snd (fixtures_upcoming serving 15 (days_query (VStr "abc")) cold)) = [].
Proof.
  assert (Hs : sane_clock (clock cold)) by (split; vm_compute; discriminate).
  split.
  - pose proof (upcoming_iterates_ceiling serving (days_query (VStr "2.5")) 15 cold _ _
                  ltac:(lia) Hs eq_refl (surjective_pairing _)) as H.
    assert (Hq : requested_days (days_query (VStr "2.5")) = Fin (5 # 2))
      by (vm_compute; reflexivity).
    rewrite Hq in H. destruct H as (_ & _ & new & Hnew & _ & Hok).
    assert (Hr : exists resp, fst (fixtures_upcoming serving 15 (days_query (VStr "2.5")) cold)
                              = Ok resp) by (eexists; vm_compute; reflexivity).
    destruct Hr as [resp Hr]. destruct (Hok resp Hr) as [Hall _].
    rewrite Hnew. cbn [fetched cold app]. exact Hall.
  - pose proof (upcoming_iterates_ceiling serving (days_query (VStr "abc")) 15 cold _ _
                  ltac:(lia) Hs eq_refl (surjective_pairing _)) as H.
    assert (Hq : requested_days (days_query (VStr "abc")) = NaN)
      by (vm_compute; reflexivity).
    rewrite Hq in H. exact (proj2 H).
Defined.

(** ** The live and the single-match routes *)

Section LiveFacts.
Context {rt : Runtime} (env : Env).

Lemma live_miss_run (w : world) :
  truthy (cached "live:simple" w) = false ->
  live env w =
  match fetch_json env (inplay_url env) w with
  | (Ok raw, w1) =>
      match map_fixtures raw with
      | Ok mapped =>
          let response := VObj [("count", array_length (sortByKickoff mapped));
                                ("fixtures", VArr (sortByKickoff mapped))] in
          (Ok response, stored "live:simple" response 5000 w1)
      | Throw ex => (Throw ex, w1)
      | OutOfFuel => (OutOfFuel, w1)
      end
  | (Throw ex, w1) => (Throw ex, w1)
  | (OutOfFuel, w1) => (OutOfFuel, w1)
  end.
Proof.
  intros H. change (live env) with (handle env 0 Live).
  rewrite (handle_miss_run env 0 Live w H). cbn [assemble cache_key ttl_of].
  unfold bind at 1.
  destruct (fetch_json env (inplay_url env) w) as [[raw|ex|] w1]; try reflexivity.
  unfold bind, lift, ret. destruct (map_fixtures raw); reflexivity.
Qed.

Lemma matches_miss_run (id : string) (w : world) :
  truthy (cached ("match:" +:+ id) w) = false ->
  matches env id w =
  match fetch_json env (match_url env id) w with
  | (Ok raw, w1) => (Ok raw, stored ("match:" +:+ id) raw 3000 w1)
  | (Throw ex, w1) => (Throw ex, w1)
  | (OutOfFuel, w1) => (OutOfFuel, w1)
  end.
Proof.
  intros H. change (matches env id) with (handle env 0 (Match id)).
  apply (handle_miss_run env 0 (Match id) w H).
Qed.

End LiveFacts.

(** X14. The count of the live route is the number of records the upstream
    sent: on a miss with a JSON body whose records all normalise, the
    response carries the sorted canonical fixtures, as many as there are
    records in [data], and [count] is that number; a body without [data]
    gives count 0 and no fixtures. *)
Theorem live_counts_records {rt : Runtime} (env : Env)
    (w : world) (st : Z) (raw : value) (mapped : list value) :
  truthy (cached "live:simple" w) = false ->
  answer (upstream env (clock w) (inplay_url env)) = Response st (Json raw) ->
  map_fixtures raw = Ok mapped ->
  outcome_of (live env) w
  = Ok (VObj [("count", VNum (of_Z (Z.of_nat (List.length mapped))));
              ("fixtures", VArr (sortByKickoff mapped))])
  /\ Permutation mapped (sortByKickoff mapped)
  /\ (forall l, opt_prop raw "data" = VArr l -> List.length mapped = List.length l)
  /\ (nullish (opt_prop raw "data") = true -> mapped = []).
Proof.
  intros Hmiss Ha Hm. unfold outcome_of.
  rewrite (live_miss_run env w Hmiss), fetch_json_run, Ha, Hm. cbn [fst].
  split.
  - unfold array_length.
    rewrite <- (Permutation_length (sortByKickoff_perm mapped)). reflexivity.
  - split; [apply sortByKickoff_perm|]. unfold map_fixtures, coalesce in Hm. split.
    + intros l Hl. rewrite Hl in Hm. cbn in Hm. apply mapM_ok in Hm.
      symmetry. eapply Forall2_length. exact Hm.
    + intros Hn. rewrite Hn in Hm. injection Hm as <-. reflexivity.
Qed.

Lemma live_counts_records_example :
  exists fixtures,
    outcome_of (live serving) cold
    = Ok (VObj [("count", VNum (of_Z 2)); ("fixtures", VArr fixtures)]).
Proof.
  assert (Hm : exists mapped,
             map_fixtures (payload [raw_fixture 1 "2025-08-27 18:00:00";
                                    raw_fixture 2 "2025-08-27 12:00:00"]) = Ok mapped
             /\ List.length mapped = 2%nat)
    by (eexists; split; vm_compute; reflexivity).
  destruct Hm as (mapped & Hm & Hlen).
  exists (sortByKickoff mapped).
  rewrite (proj1 (live_counts_records serving cold 200 _ mapped eq_refl eq_refl Hm)).
  rewrite Hlen. reflexivity.
Defined.

(** X15. The single-match route hands the upstream's JSON body on as it is:
    on a miss it fetches the match URL once, returns the body whatever its
    shape (an error body, [null], a number) without normalising it, stores
    it for 3 s, and fails only when the upstream cannot be reached or the
    body is not JSON. *)
Theorem matches_returns_raw {rt : Runtime} (env : Env) (id : string) (w : world) :
  truthy (cached ("match:" +:+ id) w) = false ->
  outcome_of (matches env id) w
  = match answer (upstream env (clock w) (match_url env id)) with
    | Unreachable => Throw NetworkError
    | Response _ (Json raw) => Ok raw
    | Response _ NotJson => Throw SyntaxError
    end
  /\ fetched (world_after (matches env id) w)
     = (fetched w ++ [(clock w, match_url env id)])%list
  /\ (forall (st : Z) (raw : value),
        answer (upstream env (clock w) (match_url env id)) = Response st (Json raw) ->
        cache (world_after (matches env id) w) !! ("match:" +:+ id)
        = Some {| exp := clock (world_after (matches env id) w) + 3000; data := raw |}).
Proof.
  intros Hmiss. unfold outcome_of, world_after.
  rewrite (matches_miss_run env id w Hmiss), fetch_json_run.
  destruct (answer _) as [|st [raw|]]; cbn [fst snd stored fetched cache clock].
  - repeat split. intros st0 raw0 H. discriminate H.
  - repeat split. intros st' raw' [= _ <-]. apply lookup_insert_eq.
  - repeat split. intros st0 raw0 H. discriminate H.
Qed.

Lemma matches_returns_raw_example :
  outcome_of (matches erring "2025-08-28?") cold
  = Ok (VObj [("message", VStr "Server Error")])
  /\ List.length (fetched (world_after (matches erring "2025-08-28?") cold)) = 1%nat.
Proof.
  destruct (matches_returns_raw erring "2025-08-28?" cold eq_refl) as (Hout & Hf & _).
  split; [rewrite Hout; reflexivity|rewrite Hf; reflexivity].
Defined.

(** ** The dates of the today and tomorrow routes *)

Lemma days_from_civil_10000 (y m d : Z) :
  10000 <= y -> 1 <= m <= 12 -> 1 <= d -> 2932897 <= days_from_civil y m d.
Proof.
  intros Hy Hm Hd. unfold days_from_civil.
  destruct (m <=? 2) eqn:Em; destruct (2 <? m) eqn:Em2;
    try apply Z.leb_le in Em; try apply Z.leb_gt in Em;
    try apply Z.ltb_lt in Em2; try apply Z.ltb_ge in Em2; try lia.
  - set (y' := y - 1).
    pose proof (Z.div_mod y' 400 ltac:(lia)) as H1.
    pose proof (Z.mod_pos_bound y' 400 ltac:(lia)) as H2.
    assert (H3 : 24 <= y' / 400) by (apply Z.div_le_lower_bound; unfold y'; lia).
    set (yoe := y' - y' / 400 * 400) in *.
    assert (Hyoe : 0 <= yoe < 400) by (unfold yoe; lia).
    pose proof (Z.div_mod yoe 4 ltac:(lia)). pose proof (Z.mod_pos_bound yoe 4 ltac:(lia)).
    pose proof (Z.div_mod yoe 100 ltac:(lia)). pose proof (Z.mod_pos_bound yoe 100 ltac:(lia)).
    assert (Hdoy : 306 <= (153 * (m + 9) + 2) / 5) by (apply Z.div_le_lower_bound; lia).
    assert (Hera : y' / 400 = 24 -> 399 <= yoe) by (unfold yoe, y'; lia).
    destruct (Z.eq_dec (y' / 400) 24) as [E|E]; [specialize (Hera E)|]; lia.
  - set (y' := y - 0).
    pose proof (Z.div_mod y' 400 ltac:(lia)) as H1.
    pose proof (Z.mod_pos_bound y' 400 ltac:(lia)) as H2.
    assert (H3 : 25 <= y' / 400) by (apply Z.div_le_lower_bound; unfold y'; lia).
    set (yoe := y' - y' / 400 * 400) in *.
    assert (Hyoe : 0 <= yoe < 400) by (unfold yoe; lia).
    pose proof (Z.div_mod yoe 4 ltac:(lia)). pose proof (Z.mod_pos_bound yoe 4 ltac:(lia)).
    pose proof (Z.div_mod yoe 100 ltac:(lia)). pose proof (Z.mod_pos_bound yoe 100 ltac:(lia)).
    assert (Hdoy : 0 <= (153 * (m - 3) + 2) / 5) by (apply Z.div_pos; lia).
    lia.
Qed.

(** Before the year 10000 the first ten characters of [toISOString] are the
    calendar date of the day, whatever the time of day. *)
Lemma iso_date_of_time (t : Z) :
  0 <= t < 253402300800000 -> slice_0_10 (iso_string t) = utc_date (Day t).
Proof.
  intros Ht.
  assert (HD : 0 <= Day t < 2932897).
  { unfold Day, msPerDay. split; [apply Z.div_pos; lia|].
    apply Z.div_lt_upper_bound; lia. }
  destruct (civil_from_days (Day t)) as [[y m] d] eqn:E.
  destruct (civil_from_days_spec _ _ _ _ E) as (Hrt & Hm & Hd).
  assert (Hy : 0 <= y <= 9999).
  { pose proof (year_after_epoch (Day t) ltac:(lia)) as Hlo. rewrite E in Hlo.
    cbn [fst] in Hlo. split; [lia|].
    destruct (Z_le_gt_dec y 9999) as [|Hgt]; [assumption|].
    pose proof (days_from_civil_10000 y m d ltac:(lia) Hm ltac:(lia)). lia. }
  rewrite (utc_date_calendar (Day t) y m d E Hy).
  unfold slice_0_10, iso_string, getUTCFullYear, getUTCMonth, getUTCDate.
  rewrite E. cbn [fst snd].
  replace ((0 <=? y) && (y <=? 9999)) with true
    by (symmetry; apply andb_true_iff; split; apply Z.leb_le; lia).
  replace (m - 1 + 1) with m by lia.
  set (rest := "T" +:+ _).
  replace (pad 4 y +:+ "-" +:+ pad 2 m +:+ "-" +:+ pad 2 d +:+ rest)
    with ((pad 4 y +:+ "-" +:+ pad 2 m +:+ "-" +:+ pad 2 d) +:+ rest)
    by (rewrite !append_assoc; reflexivity).
  assert (Hlen : String.length (pad 4 y +:+ "-" +:+ pad 2 m +:+ "-" +:+ pad 2 d) = 10%nat).
  { rewrite !length_append, pad_4_fits, !pad_2_fits by lia. reflexivity. }
  rewrite <- Hlen at 1. apply substring_prefix.
Qed.

Lemma calendar_clock_sane (t : Z) : calendar_clock t -> sane_clock t.
Proof. unfold calendar_clock, sane_clock, msPerDay. lia. Qed.

Lemma Day_tomorrow (t : Z) : Day (t + msPerDay) = Day t + 1.
Proof.
  unfold Day, msPerDay. replace (t + 86400000) with (t + 1 * 86400000) by lia.
  apply Z.div_add. lia.
Qed.

(** X16. At any moment from 1970 to the last but one day of the year 9999,
    the today route asks for the UTC calendar date of the moment of the
    request and the tomorrow route for the date one day later, whatever the
    time of day: they are the dates of turn 0 and turn 1 of the upcoming
    loop, and a normal response carries the date as [date_utc]. *)
Theorem today_and_tomorrow_dates {rt : Runtime} (env : Env) (w : world) :
  calendar_clock (clock w) ->
  (truthy (cached "fixtures:today:simple" w) = false ->
   fetched (world_after (fixtures_today env) w)
   = (fetched w ++ [(clock w, fixtures_url env (utc_date (Day (clock w))))])%list
   /\ forall r w', fixtures_today env w = (Ok r, w') ->
        opt_prop r "date_utc" = VStr (utc_date (Day (clock w))))
  /\ (truthy (cached "fixtures:tomorrow" w) = false ->
      fetched (world_after (fixtures_tomorrow env) w)
      = (fetched w ++ [(clock w, fixtures_url env (utc_date (Day (clock w) + 1)))])%list
      /\ forall r w', fixtures_tomorrow env w = (Ok r, w') ->
           opt_prop r "date_utc" = VStr (utc_date (Day (clock w) + 1)))
  /\ day_url env (clock w) 0 = fixtures_url env (utc_date (Day (clock w)))
  /\ day_url env (clock w) 1 = fixtures_url env (utc_date (Day (clock w) + 1)).
Proof.
  intros Hc. pose proof (calendar_clock_sane _ Hc) as Hs.
  assert (Htoday : slice_0_10 (iso_string (clock w)) = utc_date (Day (clock w))).
  { apply iso_date_of_time. unfold calendar_clock, msPerDay in Hc. lia. }
  assert (Htom : slice_0_10 (iso_string (clock w + msPerDay)) = utc_date (Day (clock w) + 1)).
  { rewrite <- Day_tomorrow. apply iso_date_of_time.
    unfold calendar_clock, msPerDay in *. lia. }
  split; [|split; [|split]].
  - intros Hmiss.
    assert (Hrun : fixtures_today env w =
                   match day_response env (utc_date (Day (clock w))) w with
                   | (Ok r, w1) => (Ok r, stored "fixtures:today:simple" r 60000 w1)
                   | (Throw ex, w1) => (Throw ex, w1)
                   | (OutOfFuel, w1) => (OutOfFuel, w1)
                   end).
    { change (fixtures_today env) with (handle env 0 Today).
      rewrite (handle_miss_run env 0 Today w Hmiss). cbn [assemble cache_key ttl_of].
      unfold bind at 1, Date_now. unfold bind at 1, lift, toISOString.
      rewrite Htoday. reflexivity. }
    unfold world_after. rewrite Hrun, day_response_run.
    destruct (answer _) as [|st [raw|]]; try (split; [reflexivity|discriminate]).
    destruct (map_fixtures raw); split; try reflexivity; try discriminate.
    intros r w' [= <- _]. reflexivity.
  - intros Hmiss.
    assert (Hrun : fixtures_tomorrow env w =
                   match day_response env (utc_date (Day (clock w) + 1)) w with
                   | (Ok r, w1) => (Ok r, stored "fixtures:tomorrow" r 60000 w1)
                   | (Throw ex, w1) => (Throw ex, w1)
                   | (OutOfFuel, w1) => (OutOfFuel, w1)
                   end).
    { change (fixtures_tomorrow env) with (handle env 0 Tomorrow).
      rewrite (handle_miss_run env 0 Tomorrow w Hmiss). cbn [assemble cache_key ttl_of].
      unfold bind at 1, Date_now. rewrite (setUTCDate_tomorrow _ Hs).
      unfold bind at 1, lift, toISOString. rewrite Htom. reflexivity. }
    unfold world_after. rewrite Hrun, day_response_run.
    destruct (answer _) as [|st [raw|]]; try (split; [reflexivity|discriminate]).
    destruct (map_fixtures raw); split; try reflexivity; try discriminate.
    intros r w' [= <- _]. reflexivity.
  - unfold day_url. rewrite Z.add_0_r. reflexivity.
  - reflexivity.
Qed.

(** At 23:59:59.999 UTC of 2025-08-27. *)
Lemma today_and_tomorrow_dates_example :
  let w := at_time (clock cold + msPerDay - 1) cold in
  map snd (fetched (world_after (fixtures_today serving) w))
  = [fixtures_url serving "2025-08-27"]
  /\ map snd (fetched (world_after (fixtures_tomorrow serving) w))
     = [fixtures_url serving "2025-08-28"].
Proof.
  cbv zeta.
  assert (Hc : calendar_clock (clock (at_time (clock cold + msPerDay - 1) cold)))
    by (split; vm_compute; [discriminate|reflexivity]).
  destruct (today_and_tomorrow_dates serving _ Hc) as (Htoday & Htom & _).
  split.
  - rewrite (proj1 (Htoday eq_refl)). vm_compute. reflexivity.
  - rewrite (proj1 (Htom eq_refl)). vm_compute. reflexivity.
Defined.

(** ** Start-up *)

Section StartFacts.
Context {rt : Runtime}.

Lemma env_var_truthy (penv : gmap string string) (name : string) :
  truthy (env_var penv name) = true
  <-> exists s, penv !! name = Some s /\ s <> EmptyString.
Proof.
  unfold env_var. destruct (penv !! name) as [s|]; cbn [truthy].
  - rewrite negb_true_iff. split.
    + intros H. exists s. split; [reflexivity|]. intros ->. discriminate H.
    + intros (s' & [= <-] & Hs). apply String.eqb_neq. exact Hs.
  - split; [discriminate|]. intros (s & H & _). discriminate H.
Qed.

Lemma env_var_or_else (penv : gmap string string) (name : string) (dflt : value) :
  or_else (env_var penv name) dflt
  = match penv !! name with
    | Some s => if String.eqb s EmptyString then dflt else VStr s
    | None => dflt
    end.
Proof.
  unfold or_else, env_var. destruct (penv !! name) as [s|]; [|reflexivity].
  cbn [truthy]. destruct (String.eqb s EmptyString); reflexivity.
Qed.

End StartFacts.

(** X17. What [start] does, case by case.  When the CORS plugin registers
    and API_KEY is set to a non-empty string, it registers the seven routes
    in the file's order, calls [listen] once on port PORT and host 0.0.0.0,
    and logs the port when [listen] resolves; when [listen] rejects, the
    error is written to the console and the process exits with status 1.
    With API_KEY unset or empty it logs the missing key and exits with
    status 1 before any route is registered and without listening; when the
    plugin fails, it exits with status 1 likewise.  So routes are registered
    exactly when the server is configured, and the process exits, always
    with status 1 and as the last thing it does, exactly when the plugin
    fails, API_KEY is unset or empty, or [listen] fails. *)
Theorem start_serves_iff_configured {rt : Runtime}
    (pf : platform) (penv : gmap string string) :
  (cors_registers pf = true ->
   (exists key, penv !! "API_KEY" = Some key /\ key <> EmptyString) ->
   start pf penv
   = (RegisterCors
      :: map Get ["/health"; "/api/fixtures/today"; "/api/live";
                  "/api/fixtures/date/:date"; "/api/fixtures/tomorrow";
                  "/api/fixtures/upcoming"; "/api/matches/:id"]
      ++ Listen (PORT penv) "0.0.0.0"
      :: (if listens pf (PORT penv)
          then [LogInfo ("Server listening on port " +:+ NumberToString (PORT penv))]
          else [ConsoleError; Exit 1]))%list)
  /\ (cors_registers pf = true ->
      truthy (env_var penv "API_KEY") = false ->
      start pf penv = [RegisterCors; LogError "Missing API_KEY in env"; Exit 1])
  /\ (cors_registers pf = false -> start pf penv = [RegisterCors; ConsoleError; Exit 1])
  /\ ((exists path, In (Get path) (start pf penv))
      <-> cors_registers pf = true
          /\ exists key, penv !! "API_KEY" = Some key /\ key <> EmptyString)
  /\ (In (Exit 1) (start pf penv)
      <-> cors_registers pf = false
          \/ truthy (env_var penv "API_KEY") = false
          \/ listens pf (PORT penv) = false)
  /\ (forall c, In (Exit c) (start pf penv) ->
        c = 1 /\ List.last (start pf penv) RegisterCors = Exit 1)
  /\ (forall p h, In (Listen p h) (start pf penv) ->
        p = PORT penv /\ h = "0.0.0.0"
        /\ exists post,
             start pf penv = (RegisterCors :: routes ++ Listen p h :: post)%list
             /\ ~ (exists p' h', In (Listen p' h') post)).
Proof.
  assert (Hexact :
    (cors_registers pf = true ->
     (exists key, penv !! "API_KEY" = Some key /\ key <> EmptyString) ->
     start pf penv
     = (RegisterCors
        :: map Get ["/health"; "/api/fixtures/today"; "/api/live";
                    "/api/fixtures/date/:date"; "/api/fixtures/tomorrow";
                    "/api/fixtures/upcoming"; "/api/matches/:id"]
        ++ Listen (PORT penv) "0.0.0.0"
        :: (if listens pf (PORT penv)
            then [LogInfo ("Server listening on port " +:+ NumberToString (PORT penv))]
            else [ConsoleError; Exit 1]))%list)
    /\ (cors_registers pf = true ->
        truthy (env_var penv "API_KEY") = false ->
        start pf penv = [RegisterCors; LogError "Missing API_KEY in env"; Exit 1])
    /\ (cors_registers pf = false -> start pf penv = [RegisterCors; ConsoleError; Exit 1])).
  { unfold start. split; [|split].
    - intros -> Hk. apply env_var_truthy in Hk. rewrite Hk. cbn [negb].
      destruct (listens pf (PORT penv)); reflexivity.
    - intros -> ->. reflexivity.
    - intros ->. reflexivity. }
  destruct Hexact as (H1 & H2 & H3).
  split; [exact H1|]. split; [exact H2|]. split; [exact H3|]. clear H1 H2 H3.
  pose proof (env_var_truthy penv "API_KEY") as Hkey.
  unfold start, routes.
  destruct (cors_registers pf); [destruct (truthy (env_var penv "API_KEY")) eqn:Ek;
    cbn [negb]; [destruct (listens pf (PORT penv)) eqn:El|]|].
  - split; [|split; [|split]].
    + split; [intros _; split; [reflexivity|apply Hkey; reflexivity]|].
      intros _. exists "/health". cbn. auto.
    + split.
      * cbn. intros H. repeat (destruct H as [H|H]; [discriminate H|]). destruct H.
      * intros [H|[H|H]]; discriminate H.
    + intros c H. cbn in H. repeat (destruct H as [H|H]; [discriminate H|]). destruct H.
    + intros p h H. cbn in H.
      repeat (destruct H as [H|H]; [try discriminate H|]); [|destruct H].
      injection H as <- <-. split; [reflexivity|]. split; [reflexivity|].
      eexists. split; [reflexivity|]. intros (p' & h' & H).
      cbn in H. destruct H as [H|H]; [discriminate H|destruct H].
  - split; [|split; [|split]].
    + split; [intros _; split; [reflexivity|apply Hkey; reflexivity]|].
      intros _. exists "/health". cbn. auto.
    + split; [intros _; right; right; reflexivity|]. intros _. cbn. tauto.
    + intros c H. cbn in H.
      repeat (destruct H as [H|H]; [try discriminate H|]); [|destruct H].
      injection H as <-. split; reflexivity.
    + intros p h H. cbn in H.
      repeat (destruct H as [H|H]; [try discriminate H|]); [|destruct H].
      injection H as <- <-. split; [reflexivity|]. split; [reflexivity|].
      eexists. split; [reflexivity|]. intros (p' & h' & H).
      cbn in H. repeat (destruct H as [H|H]; [discriminate H|]). destruct H.
  - split; [|split; [|split]].
    + split.
      * intros (path & H). cbn in H.
        repeat (destruct H as [H|H]; [discriminate H|]). destruct H.
      * intros (_ & H). apply Hkey in H. discriminate H.
    + split; [intros _; right; left; reflexivity|]. intros _. cbn. tauto.
    + intros c H. cbn in H.
      repeat (destruct H as [H|H]; [try discriminate H|]); [|destruct H].
      injection H as <-. split; reflexivity.
    + intros p h H. cbn in H.
      repeat (destruct H as [H|H]; [discriminate H|]). destruct H.
  - split; [|split; [|split]].
    + split.
      * intros (path & H). cbn in H.
        repeat (destruct H as [H|H]; [discriminate H|]). destruct H.
      * intros (H & _). discriminate H.
    + split; [intros _; left; reflexivity|]. intros _. cbn. tauto.
    + intros c H. cbn in H.
      repeat (destruct H as [H|H]; [try discriminate H|]); [|destruct H].
      injection H as <-. split; reflexivity.
    + intros p h H. cbn in H.
      repeat (destruct H as [H|H]; [discriminate H|]). destruct H.
Qed.

(** With API_KEY=k and PORT=3000, on a platform where everything
    resolves. *)
Lemma start_serves_iff_configured_example :
  start {| cors_registers := true; listens := fun _ => true |}
        (<["PORT" := "3000"]> (<["API_KEY" := "k"]> ∅))
  = [RegisterCors; Get "/health"; Get "/api/fixtures/today"; Get "/api/live";
     Get "/api/fixtures/date/:date"; Get "/api/fixtures/tomorrow";
     Get "/api/fixtures/upcoming"; Get "/api/matches/:id";
     Listen (of_Z 3000) "0.0.0.0"; LogInfo "Server listening on port 3000"].
Proof.
  rewrite (proj1 (start_serves_iff_configured
                    {| cors_registers := true; listens := fun _ => true |}
                    (<["PORT" := "3000"]> (<["API_KEY" := "k"]> ∅)))
             eq_refl
             ltac:(exists "k"; split; [vm_compute; reflexivity|discriminate])).
  vm_compute. reflexivity.
Defined.

(** X18. The configuration the handlers run with: an unset or empty PORT
    gives port 8080 and any other value is converted with [Number]; an unset
    or empty API_BASE gives the Sportmonks base and any other value is taken
    as it is; and every upstream URL carries the API_KEY of the environment
    as its [api_token], unescaped. *)
Theorem start_configuration {rt : Runtime}
    (penv : gmap string string) (up : Z -> string -> exchange) :
  PORT penv
  = match penv !! "PORT" with
    | Some s => if String.eqb s EmptyString then of_Z 8080 else StringToNumber s
    | None => of_Z 8080
    end
  /\ API_BASE (configured penv up)
     = match penv !! "API_BASE" with
       | Some s => if String.eqb s EmptyString
                   then "https://api.sportmonks.com/v3/football" else s
       | None => "https://api.sportmonks.com/v3/football"
       end
  /\ forall key, penv !! "API_KEY" = Some key ->
       (forall date, fixtures_url (configured penv up) date
          = API_BASE (configured penv up) +:+ "/fixtures/date/" +:+ date +:+
            "?api_token=" +:+ key +:+ "&include=participants;league;scores&locale=ar")
       /\ inplay_url (configured penv up)
          = API_BASE (configured penv up) +:+ "/livescores/inplay" +:+ "?api_token=" +:+ key +:+
            "&include=participants;league;scores&locale=ar"
       /\ (forall id, match_url (configured penv up) id
             = API_BASE (configured penv up) +:+ "/fixtures/" +:+ id +:+
               "?api_token=" +:+ key +:+ "&include=participants;events;scores&locale=ar").
Proof.
  split; [|split].
  - unfold PORT. rewrite env_var_or_else.
    destruct (penv !! "PORT") as [s|]; [|reflexivity].
    destruct (String.eqb s EmptyString); reflexivity.
  - unfold configured, configured_API_BASE. cbn [API_BASE]. rewrite env_var_or_else.
    destruct (penv !! "API_BASE") as [s|]; [|reflexivity].
    destruct (String.eqb s EmptyString); reflexivity.
  - intros key Hk.
    assert (HK : API_KEY (configured penv up) = key).
    { unfold configured, env_var. cbn [API_KEY]. rewrite Hk. reflexivity. }
    unfold fixtures_url, inplay_url, match_url. rewrite HK.
    repeat split.
Qed.

(** With API_KEY=k and an empty PORT, on a platform where everything
    resolves. *)
Lemma start_configuration_example :
  let penv : gmap string string := <["PORT" := EmptyString]> (<["API_KEY" := "k"]> ∅) in
  PORT penv = of_Z 8080
  /\ fixtures_url (configured penv (upstream serving)) "2025-08-27"
     = "https://api.sportmonks.com/v3/football/fixtures/date/2025-08-27?api_token=k&include=participants;league;scores&locale=ar".
Proof.
  cbv zeta.
  destruct (start_configuration (<["PORT" := EmptyString]> (<["API_KEY" := "k"]> ∅))
              (upstream serving)) as (HP & HB & HU).
  split.
  - rewrite HP. vm_compute. reflexivity.
  - rewrite (proj1 (HU "k" ltac:(vm_compute; reflexivity))), HB. vm_compute. reflexivity.
Defined.
